(** * tex-diary: the LaTeX-to-LaTeX entry converter

    A shallow embedding of [utils/update_diary_template.py] (class
    [Tex2TexConverter]) and the properties of its pipeline: body
    extraction, date parsing from the file name, placeholder injection,
    splicing into the entry template, asset resolution and the per-folder
    loop.

    Conventions.
    - A Python [str] is a [list ascii]; a character is a code point below
      256, so that [str.isspace], the pattern class [\s] and the pattern
      class [\d] are exactly the tables given below.
    - [str.find] returns a [Z] and is [-1] when the needle is absent;
      slices follow Python's clamping rules, negative bounds included.
    - The regular expressions of the script are values of a small
      pattern type with Python's backtracking order (leftmost start,
      greedy repetition, ordered alternatives).
    - The pictographs that open some messages are code points above
      255; they are left out of the message text, with the space that
      follows them.
    - The file system, the clock and the iteration order of a [set] are an
      interface ([Runtime]); every file-system call may raise.  The
      converter's methods run in a state-and-exception monad over the
      file system and the lines printed so far. *)

From Stdlib Require Import ZArith Ascii String DecimalString Lia.
From stdpp Require Import base option list gmap strings.

Open Scope Z_scope.
Open Scope list_scope.

(** ** Python strings *)

Definition str := list ascii.

(** String literals of the script. Rocq strings have no escape sequences,
    so a backslash stands for itself. *)
Definition L (s : string) : str := list_ascii_of_string s.

Definition nl : ascii := ascii_of_nat 10.

Module Py.

(** [c.isspace()] for a code point below 256: TAB, LF, VT, FF, CR,
    FS, GS, RS, US, SPACE, NEL (0x85) and NBSP (0xa0). *)
Definition isspace (c : ascii) : bool :=
  let n := nat_of_ascii c in
  ((9 <=? n) && (n <=? 13) || (28 <=? n) && (n <=? 32)
   || (n =? 133) || (n =? 160))%nat.

(** [c.isdecimal()] for a code point below 256: the ten ASCII digits. *)
Definition isdigit (c : ascii) : bool :=
  let n := nat_of_ascii c in ((48 <=? n) && (n <=? 57))%nat.

Definition eqb_char (a b : ascii) : bool := Ascii.eqb a b.

(** [s.startswith(p)] *)
Fixpoint startswith (p s : str) : bool :=
  match p, s with
  | [], _ => true
  | _ :: _, [] => false
  | a :: p', b :: s' => eqb_char a b && startswith p' s'
  end.

(** Index of the first position of [s] at which [sub] starts, counted
    from [i]. *)
Fixpoint find_from (sub s : str) (i : Z) : Z :=
  if startswith sub s then i
  else match s with
       | [] => -1
       | _ :: s' => find_from sub s' (i + 1)
       end.

(** [s.find(sub)] *)
Definition find (s sub : str) : Z := find_from sub s 0.

(** [sub in s] *)
Definition contains (sub s : str) : bool := negb (find s sub =? -1).

(** Normalisation of one slice bound against the length. *)
Definition slice_bound (len i : Z) : Z :=
  if i <? 0 then Z.max 0 (len + i) else Z.min i len.

(** [s[a:b]]; a missing bound is [None]. *)
Definition slice (s : str) (a b : option Z) : str :=
  let len := Z.of_nat (length s) in
  let lo := match a with Some i => slice_bound len i | None => 0 end in
  let hi := match b with Some i => slice_bound len i | None => len end in
  take (Z.to_nat (hi - lo)) (drop (Z.to_nat lo) s).

Fixpoint lstrip (s : str) : str :=
  match s with
  | c :: s' => if isspace c then lstrip s' else s
  | [] => []
  end.

Definition rstrip (s : str) : str := rev (lstrip (rev s)).

(** [s.strip()] *)
Definition strip (s : str) : str := rstrip (lstrip s).

(** [s.replace(old, new)] for a non-empty [old]: [skip] counts the
    characters of the occurrence being replaced that are still to be
    dropped. *)
Fixpoint replace_from (old new s : str) (skip : nat) : str :=
  match s with
  | [] => []
  | c :: s' =>
      match skip with
      | S k => replace_from old new s' k
      | O =>
          if startswith old s
          then new ++ replace_from old new s' (length old - 1)
          else c :: replace_from old new s' 0
      end
  end.

(** [s.replace(old, new)]; with an empty [old] Python puts [new] before
    every character and at the end. *)
Definition replace (s old new : str) : str :=
  match old with
  | [] => new ++ flat_map (fun c => c :: new) s
  | _ :: _ => replace_from old new s 0
  end.

(** [int(s)] on a run of decimal digits. *)
Definition digit_value (c : ascii) : Z := Z.of_nat (nat_of_ascii c) - 48.

Definition int_of_digits (s : str) : Z :=
  fold_left (fun acc c => 10 * acc + digit_value c) s 0.

(** [str(n)] for a non-negative integer. *)
Definition str_of_Z (n : Z) : str :=
  L (NilZero.string_of_uint (N.to_uint (Z.to_N n))).

(** [l[i]] on a list, negative indices counting from the end;
    [None] is Python's [IndexError]. *)
Definition index {A} (l : list A) (i : Z) : option A :=
  let len := Z.of_nat (length l) in
  let j := if i <? 0 then i + len else i in
  if (j <? 0) || (len <=? j) then None else l !! Z.to_nat j.

End Py.

Arguments Py.eqb_char : simpl never.
Arguments Py.isdigit : simpl never.
Arguments Py.isspace : simpl never.

(** ** Regular expressions

    The patterns of the script only repeat single-character classes, so
    the pattern type has a star on a class and bounded repetitions are
    written out. [run] is a backtracking matcher in continuation style:
    the first alternative and the longest repetition are tried first,
    as [re] does. *)

Module Re.

Inductive pat : Type :=
| Eps
| Lit (l : str)
| Cls (p : ascii -> bool)
| Seq (r1 r2 : pat)
| Alt (r1 r2 : pat)
| Star (p : ascii -> bool)
| Grp (n : nat) (r : pat).

(** Captured groups, most recently closed first. *)
Definition captures := list (nat * str).

Fixpoint group (caps : captures) (n : nat) : option str :=
  match caps with
  | [] => None
  | (k, v) :: caps' => if (k =? n)%nat then Some v else group caps' n
  end.

(** The groups, the number of characters matched and the text left. *)
Definition outcome : Type := captures * nat * str.

(** [pos] counts the characters matched so far. *)
Fixpoint star_run (p : ascii -> bool) (s : str) (pos : nat)
    (k : str -> nat -> option outcome) : option outcome :=
  match s with
  | c :: s' =>
      if p c
      then match star_run p s' (S pos) k with
           | Some o => Some o
           | None => k s pos
           end
      else k s pos
  | [] => k s pos
  end.

Fixpoint run (r : pat) (s : str) (pos : nat) (caps : captures)
    (k : str -> nat -> captures -> option outcome) : option outcome :=
  match r with
  | Eps => k s pos caps
  | Lit l =>
      if Py.startswith l s
      then k (drop (length l) s) (pos + length l)%nat caps
      else None
  | Cls p =>
      match s with
      | c :: s' => if p c then k s' (S pos) caps else None
      | [] => None
      end
  | Seq r1 r2 =>
      run r1 s pos caps (fun s' pos' caps' => run r2 s' pos' caps' k)
  | Alt r1 r2 =>
      match run r1 s pos caps k with
      | Some o => Some o
      | None => run r2 s pos caps k
      end
  | Star p => star_run p s pos (fun s' pos' => k s' pos' caps)
  | Grp n r0 =>
      run r0 s pos caps
        (fun s' pos' caps' => k s' pos' ((n, take (pos' - pos) s) :: caps'))
  end.

(** A match starting at the first character of [s]. *)
Definition match_at (r : pat) (s : str) : option outcome :=
  run r s 0 [] (fun s' pos caps => Some (caps, pos, s')).

(** [re.search(r, s)]: the match at the leftmost start position, with
    that position. *)
Fixpoint search_from (r : pat) (s : str) (i : nat)
    : option (nat * captures * str) :=
  match match_at r s with
  | Some (caps, _, rest) => Some (i, caps, rest)
  | None =>
      match s with
      | [] => None
      | _ :: s' => search_from r s' (S i)
      end
  end.

Definition search (r : pat) (s : str) : option (nat * captures * str) :=
  search_from r s 0.

(** [re.sub(r, "", s)]: every leftmost non-overlapping match is deleted.
    [skip] counts the characters of the current match still to drop. *)
Fixpoint sub_from (r : pat) (s : str) (skip : nat) : str :=
  match s with
  | [] => []
  | c :: s' =>
      match skip with
      | S k => sub_from r s' k
      | O =>
          match match_at r s with
          | Some (_, S k, _) => sub_from r s' k
          | _ => c :: sub_from r s' 0
          end
      end
  end.

Definition sub_empty (r : pat) (s : str) : str := sub_from r s 0.

(** [re.findall(r, s)] for a pattern with one group: the text of group 1
    of every leftmost non-overlapping match. *)
Definition group1 (caps : captures) : str := default [] (group caps 1).

Fixpoint findall_from (r : pat) (s : str) (skip : nat) : list str :=
  match s with
  | [] =>
      match skip, match_at r [] with
      | O, Some (caps, _, _) => [group1 caps]
      | _, _ => []
      end
  | _ :: s' =>
      match skip with
      | S k => findall_from r s' k
      | O =>
          match match_at r s with
          | Some (caps, len, _) =>
              group1 caps :: findall_from r s' (len - 1)
          | None => findall_from r s' 0
          end
      end
  end.

Definition findall (r : pat) (s : str) : list str := findall_from r s 0.

(** Derived forms. *)
Definition Plus (p : ascii -> bool) : pat := Seq (Cls p) (Star p).
Definition Opt (r : pat) : pat := Alt r Eps.
Definition seqs (rs : list pat) : pat := foldr Seq Eps rs.
Definition alts (r : pat) (rs : list pat) : pat := foldr (fun x acc => Alt acc x) r (rev rs).
Definition is_not (cs : str) (c : ascii) : bool :=
  negb (existsb (Py.eqb_char c) cs).

Definition digit : pat := Cls Py.isdigit.

(** [(\d{4})-(\d{1,2})-(\d{1,2})] *)
Definition date_re : pat :=
  seqs [ Grp 1 (seqs [digit; digit; digit; digit]); Lit (L "-");
         Grp 2 (Seq digit (Opt digit)); Lit (L "-");
         Grp 3 (Seq digit (Opt digit)) ].

(** [\\href\{run:[^}]+\}\{[^}]+\}\s*] *)
Definition href_re : pat :=
  seqs [ Lit (L "\href{run:"); Plus (is_not (L "}")); Lit (L "}{");
         Plus (is_not (L "}")); Lit (L "}"); Star Py.isspace ].

(** [\\section\{\s*\}\s*] *)
Definition empty_section_re : pat :=
  seqs [ Lit (L "\section{"); Star Py.isspace; Lit (L "}");
         Star Py.isspace ].

(** [\\includegraphics(?:\[[^\]]*\])?\{([^}]+)\}] *)
Definition includegraphics_re : pat :=
  seqs [ Lit (L "\includegraphics");
         Opt (seqs [Lit (L "["); Star (is_not (L "]")); Lit (L "]")]);
         Lit (L "{"); Grp 1 (Plus (is_not (L "}"))); Lit (L "}") ].

(** [\\input\{([^}]*\.(?:png|jpg|jpeg|pdf|eps|svg))\}] *)
Definition input_re : pat :=
  seqs [ Lit (L "\input{");
         Grp 1 (seqs [ Star (is_not (L "}")); Lit (L ".");
                       alts (Lit (L "png"))
                         [ Lit (L "jpg"); Lit (L "jpeg"); Lit (L "pdf");
                           Lit (L "eps"); Lit (L "svg") ] ]);
         Lit (L "}") ].

(** [\\epsfig\{file=([^,}]+)] *)
Definition epsfig_re : pat :=
  seqs [ Lit (L "\epsfig{file="); Grp 1 (Plus (is_not (L ",}"))) ].

(** [\\psfig\{file=([^,}]+)] *)
Definition psfig_re : pat :=
  seqs [ Lit (L "\psfig{file="); Grp 1 (Plus (is_not (L ",}"))) ].

End Re.

(** ** Paths ([pathlib.Path] on a POSIX system)

    A path is its root (empty for a relative path, one slash, or exactly
    two slashes) and its components. Empty components and single dots
    are dropped when a string is parsed; double dots are kept. *)

Module Path.

Record t : Type := mk { root : str; parts : list str }.

#[global] Instance t_eq_dec : EqDecision t.
Proof. solve_decision. Defined.

Definition keep (seg : str) : list str :=
  if bool_decide (seg = []) || bool_decide (seg = L ".") then [] else [seg].

Fixpoint segments_from (s cur : str) : list str :=
  match s with
  | [] => keep (rev cur)
  | c :: s' =>
      if Py.eqb_char c "/"
      then keep (rev cur) ++ segments_from s' []
      else segments_from s' (c :: cur)
  end.

Definition root_of (s : str) : str :=
  if Py.startswith (L "///") s then L "/"
  else if Py.startswith (L "//") s then L "//"
  else if Py.startswith (L "/") s then L "/"
  else [].

(** [Path(s)] *)
Definition of_str (s : str) : t :=
  {| root := root_of s; parts := segments_from s [] |}.

(** [p / s]: a rooted [s] replaces [p]. *)
Definition join (p : t) (s : str) : t :=
  let q := of_str s in
  if bool_decide (root q = []) then {| root := root p; parts := parts p ++ parts q |}
  else q.

(** [p.parent]: the parent of a path without components is itself. *)
Definition parent (p : t) : t :=
  {| root := root p; parts := removelast (parts p) |}.

(** [p.name] *)
Definition name (p : t) : str := List.last (parts p) [].

Fixpoint rfind_dot (s : str) (i : Z) (found : Z) : Z :=
  match s with
  | [] => found
  | c :: s' => rfind_dot s' (i + 1) (if Py.eqb_char c "." then i else found)
  end.

(** [p.stem]: the name without its last suffix. *)
Definition stem (p : t) : str :=
  let n := name p in
  let i := rfind_dot n 0 (-1) in
  if (0 <? i) && (i <? Z.of_nat (length n) - 1)
  then Py.slice n None (Some i)
  else n.

Fixpoint join_slash (l : list str) : str :=
  match l with
  | [] => []
  | [x] => x
  | x :: l' => x ++ L "/" ++ join_slash l'
  end.

(** [str(p)] *)
Definition to_str (p : t) : str :=
  match root p, parts p with
  | [], [] => L "."
  | r, l => r ++ join_slash l
  end.

End Path.

Notation "p // s" := (Path.join p s) (at level 40, left associativity).

(** ** Exceptions and the converter monad *)

Inductive exn_class : Type :=
| OSError          (* with FileNotFoundError, FileExistsError, PermissionError, ... *)
| IndexError
| TypeError
| AttributeError
| OtherException.  (* any other subclass of Exception, e.g. UnicodeDecodeError *)

Record exn : Type := mk_exn { exn_class_of : exn_class; exn_msg : str }.

Definition is_OSError (e : exn) : bool :=
  match exn_class_of e with OSError => true | _ => false end.

Inductive result (A : Type) : Type :=
| Ok (a : A)
| Raise (e : exn).
Arguments Ok {A} a.
Arguments Raise {A} e.

Record datetime : Type := mk_datetime { dt_year : Z; dt_month : Z; dt_day : Z }.

(** What the script asks of its platform. [FS] is the state of the file
    system. Calls that change it return the new state together with
    their result: a call that raises may still have changed something
    ([mkdir] of several parents, a copy cut short). *)
Class Runtime (FS : Type) : Type := {
  (** [p.exists()] and [p.is_symlink()]. [pathlib] answers [False] for
      a path that is not there, and raises again every other [OSError]
      of the underlying [stat]: a name that is too long, a directory
      that may not be searched. *)
  path_exists : FS -> Path.t -> result bool;
  path_is_symlink : FS -> Path.t -> result bool;
  (** [open(p, "r", encoding="utf-8").read()] *)
  read_text : FS -> Path.t -> result str;
  (** [open(p, "w", encoding="utf-8").write(s)] *)
  write_text : FS -> Path.t -> str -> result unit * FS;
  (** [p.mkdir(parents=True, exist_ok=True)] *)
  mkdir_parents : FS -> Path.t -> result unit * FS;
  (** [shutil.copy2(src, dst)] *)
  copy2 : FS -> Path.t -> Path.t -> result unit * FS;
  (** [p.unlink()] *)
  unlink : FS -> Path.t -> result unit * FS;
  (** [p.symlink_to(target)] *)
  symlink_to : FS -> Path.t -> str -> result unit * FS;
  (** [list(p.glob("*.tex"))], which the script calls on a path for
      which [exists()] has just answered [True]; [pathlib] gives no
      entries for a path that is not a directory or may not be listed *)
  glob_tex : FS -> Path.t -> list Path.t;
  (** [os.path.relpath(p, start)] *)
  relpath : FS -> Path.t -> Path.t -> result str;
  (** [datetime.now()] *)
  now : datetime;
  (** [list(set(l))]: the order in which a set built from [l] is iterated *)
  list_of_set : list str -> list str;
}.

(** The state a method runs in: the file system and the lines printed. *)
Record World (FS : Type) : Type := mk_world { w_fs : FS; w_out : list str }.
Arguments mk_world {FS} _ _.
Arguments w_fs {FS} _.
Arguments w_out {FS} _.

Definition M (FS : Type) (A : Type) : Type := World FS -> result A * World FS.

#[global] Instance M_ret {FS} : MRet (M FS) := fun A a w => (Ok a, w).
#[global] Instance M_bind {FS} : MBind (M FS) := fun A B f m w =>
  match m w with
  | (Ok a, w') => f a w'
  | (Raise e, w') => (Raise e, w')
  end.

Definition raise {FS A} (e : exn) : M FS A := fun w => (Raise e, w).

Definition lift {FS A} (r : result A) : M FS A := fun w => (r, w).

(** [try: body  except Exception as e: handler(e)] *)
Definition try_except {FS A} (body : M FS A) (handler : exn -> M FS A) : M FS A :=
  fun w =>
    match body w with
    | (Ok a, w') => (Ok a, w')
    | (Raise e, w') => handler e w'
    end.

(** [try: body  except OSError as e: handler(e)] *)
Definition try_except_OSError {FS A} (body : M FS A) (handler : exn -> M FS A)
    : M FS A :=
  fun w =>
    match body w with
    | (Ok a, w') => (Ok a, w')
    | (Raise e, w') => if is_OSError e then handler e w' else (Raise e, w')
    end.

(** [print(line)] *)
Definition print {FS} (line : str) : M FS unit :=
  fun w => (Ok tt, mk_world (w_fs w) (w_out w ++ [line])).

(** A file-system call that reads. *)
Definition reading {FS A} (f : FS -> A) : M FS A := fun w => (Ok (f (w_fs w)), w).
Definition reading_result {FS A} (f : FS -> result A) : M FS A :=
  fun w => (f (w_fs w), w).

(** A file-system call that writes. *)
Definition writing {FS} (f : FS -> result unit * FS) : M FS unit :=
  fun w => let '(r, fs') := f (w_fs w) in (r, mk_world fs' (w_out w)).

(** [for x in l: body(x)], threading an accumulator. *)
Fixpoint for_each {FS A B} (l : list A) (acc : B) (body : B -> A -> M FS B)
    : M FS B :=
  match l with
  | [] => mret acc
  | x :: l' => acc' ← body acc x; for_each l' acc' body
  end.

(** ** The converter *)

(** A value of the configuration mapping: a string, or anything else
    YAML can hold (number, list, null, ...). *)
Inductive cfg_value : Type :=
| CStr (s : str)
| CNotStr.

(** The object [self]. [config] is what [_load_config] returned: [None]
    stands for a loaded document that is not a mapping (an empty file
    loads as Python's [None]); a failed load is the empty mapping. *)
Record Tex2TexConverter : Type := {
  verbose : bool;
  config : option (gmap string cfg_value);
  template : str;
}.

(** The dictionary returned by [get_date_info]. *)
Record date_info : Type := {
  di_year : str;
  di_month : str;
  di_day : str;
  di_month_name : str;
  di_day_number : str;
}.

Definition BEGIN_DOCUMENT : str := L "\begin{document}".
Definition END_DOCUMENT : str := L "\end{document}".
Definition BIBLIOGRAPHYSTYLE : str := L "\bibliographystyle".

Definition month_names : list str :=
  [ L "January"; L "February"; L "March"; L "April"; L "May"; L "June";
    L "July"; L "August"; L "September"; L "October"; L "November";
    L "December" ].

Definition INFO : str := L "INFO".
Definition WARNING : str := L "WARNING".
Definition ERROR : str := L "ERROR".

Section Converter.

Context {FS : Type} {RT : Runtime FS}.
Variable self : Tex2TexConverter.

Local Abbreviation M := (M FS).

(** [log(message, level)]: printed when verbose, or for errors and
    warnings. *)
Definition log (message : str) (level : str) : M unit :=
  if verbose self || bool_decide (level ∈ [ERROR; WARNING])
  then print (level ++ L ": " ++ message)
  else mret tt.

(** [find_tex_files] *)
Definition find_tex_files (input_folder : Path.t) : M (list Path.t) :=
  tex_files ← reading (fun fs => glob_tex fs input_folder);
  log (L "Found " ++ Py.str_of_Z (Z.of_nat (length tex_files))
         ++ L " .tex files in " ++ Path.to_str input_folder) INFO;;
  mret tex_files.

(** The body found between the markers, cleaned: lines 89 to 97. *)
Definition clean_body (content : str) (doc_start doc_end : Z) : str :=
  let doc_content :=
    Py.strip (Py.slice content
                (Some (doc_start + Z.of_nat (length BEGIN_DOCUMENT)))
                (Some doc_end)) in
  let doc_content := Re.sub_empty Re.href_re doc_content in
  Re.sub_empty Re.empty_section_re doc_content.

(** [extract_content]; [None] is Python's [None]. *)
Definition extract_content (tex_file : Path.t) : M (option str) :=
  try_except
    (content ← reading_result (fun fs => read_text fs tex_file);
     let doc_start := Py.find content BEGIN_DOCUMENT in
     let doc_end := Py.find content END_DOCUMENT in
     if (doc_start =? -1) || (doc_end =? -1)
     then
       log (L "No document environment found in " ++ Path.name tex_file)
         WARNING;;
       mret None
     else
       let doc_content := clean_body content doc_start doc_end in
       log (L "Extracted content from " ++ Path.name tex_file) INFO;;
       mret (Some doc_content))
    (fun e =>
       log (L "Error extracting content from " ++ Path.name tex_file
              ++ L ": " ++ exn_msg e) ERROR;;
       mret None).

(** Lines 108 to 122 of [get_date_info]: the year as text, the month
    and the day as integers. *)
Definition date_fields (tex_file : Path.t) : str * Z * Z :=
  let filename := Path.stem tex_file in
  match Re.search Re.date_re filename with
  | Some (_, caps, _) =>
      (default [] (Re.group caps 1),
       Py.int_of_digits (default [] (Re.group caps 2)),
       Py.int_of_digits (default [] (Re.group caps 3)))
  | None =>
      (Py.str_of_Z (dt_year now), dt_month now, dt_day now)
  end.

(** [get_date_info]: it prints nothing and touches no file, so it is a
    plain [result]. *)
Definition get_date_info (tex_file : Path.t) : result date_info :=
  let '(year, month_num, day_num) := date_fields tex_file in
  match Py.index month_names (month_num - 1) with
  | None => Raise (mk_exn IndexError (L "list index out of range"))
  | Some month_name =>
      Ok {| di_year := year;
            di_month := Py.str_of_Z month_num;
            di_day := Py.str_of_Z day_num;
            di_month_name := month_name;
            di_day_number := Py.str_of_Z day_num |}
  end.

(** [self.config.get(key, default)] *)
Definition config_get (key : string) (dflt : str) : result cfg_value :=
  match config self with
  | None =>
      Raise (mk_exn AttributeError
               (L "'NoneType' object has no attribute 'get'"))
  | Some m => Ok (default (CStr dflt) (m !! key))
  end.

(** [result.replace(placeholder, value)]: the value must be a string. *)
Definition replace_value (result_ placeholder : str) (value : cfg_value)
    : result str :=
  match value with
  | CStr v => Ok (Py.replace result_ placeholder v)
  | CNotStr =>
      Raise (mk_exn TypeError (L "replace() argument 2 must be str"))
  end.

Fixpoint replace_all (result_ : str) (replacements : list (str * cfg_value))
    : result str :=
  match replacements with
  | [] => Ok result_
  | (placeholder, value) :: rest =>
      match replace_value result_ placeholder value with
      | Ok r => replace_all r rest
      | Raise e => Raise e
      end
  end.

(** The dictionary [replacements], in insertion order. *)
Definition replacements_of (d : date_info)
    (author institution diary_title : cfg_value) (tex_file : Path.t)
    : list (str * cfg_value) :=
  [ (L "<YEAR>", CStr (di_year d));
    (L "<MONTH>", CStr (di_month d));
    (L "<DAY>", CStr (di_day d));
    (L "<MONTH_NAME>", CStr (di_month_name d));
    (L "<DAY_NUMBER>", CStr (di_day_number d));
    (L "<AUTHOR>", author);
    (L "<INSTITUTION>", institution);
    (L "<DIARY_TITLE>", diary_title);
    (L "<FILENAME>", CStr (Path.name tex_file)) ].

Definition bind_result {A B} (r : result A) (f : A -> result B) : result B :=
  match r with Ok a => f a | Raise e => Raise e end.

(** Lines 152 to 174 of [inject_personal_info]: the template after the
    metadata placeholders are substituted. *)
Definition substitute_metadata (template_ : str) (tex_file : Path.t)
    : result str :=
  bind_result (get_date_info tex_file) (fun d =>
  bind_result (config_get "author" (L "Unknown Author")) (fun author =>
  bind_result (config_get "institution" (L "Unknown Institution")) (fun institution =>
  bind_result (config_get "diary_title" (L "Research Diary")) (fun diary_title =>
  replace_all template_
    (replacements_of d author institution diary_title tex_file))))).

Definition TAGS : str := L "<TAGS>".
Definition TAGS_COMMENT : str := L "%<TAGs>: <TAGS>".

(** Lines 176 to 183: the folder name as tag. *)
Definition add_tag (result_ folder_name : str) : str :=
  if Py.contains TAGS result_
  then Py.replace result_ TAGS folder_name
  else Py.replace result_ TAGS_COMMENT (L "%<TAGs>: " ++ folder_name).

(** [inject_personal_info] *)
Definition inject_personal_info (template_ : str) (tex_file : Path.t)
    (folder_name : str) : result str :=
  bind_result (substitute_metadata template_ tex_file) (fun r =>
  Ok (add_tag r folder_name)).

(** [_find_asset_references] *)
Definition asset_patterns : list Re.pat :=
  [ Re.includegraphics_re; Re.input_re; Re.epsfig_re; Re.psfig_re ].

Definition _find_asset_references (tex_file : Path.t) : M (list str) :=
  try_except
    (content ← reading_result (fun fs => read_text fs tex_file);
     mret (list_of_set
             (flat_map (fun pattern => Re.findall pattern content)
                asset_patterns)))
    (fun e =>
       log (L "Error finding asset references: " ++ exn_msg e) ERROR;;
       mret []).

(** [_resolve_asset_path] *)
Definition possible_paths (asset_path : str) (tex_file : Path.t)
    : list Path.t :=
  [ Path.parent tex_file // asset_path;
    Path.parent tex_file // L "assets" // L "figures" // asset_path;
    Path.parent tex_file // L "figures" // asset_path;
    Path.parent (Path.parent tex_file) // L "assets" // L "figures"
      // asset_path ].

(** The loop of lines 287 to 289: the first path for which [exists()]
    answers [True]; a test that raises ends the loop with its
    exception. *)
Fixpoint first_existing (fs : FS) (paths : list Path.t)
    : result (option Path.t) :=
  match paths with
  | [] => Ok None
  | p :: rest =>
      match path_exists fs p with
      | Ok true => Ok (Some p)
      | Ok false => first_existing fs rest
      | Raise e => Raise e
      end
  end.

Definition _resolve_asset_path (asset_path : str) (tex_file : Path.t)
    : M (option Path.t) :=
  reading_result (fun fs =>
    first_existing fs (possible_paths asset_path tex_file)).

(** The steps shared by both copying loops: make the parent directory
    of the destination and copy the file. *)
Definition copy_to (source_file : Path.t) (output_dir : Path.t)
    (asset_path : str) : M Path.t :=
  let dest_file := output_dir // asset_path in
  writing (fun fs => mkdir_parents fs (Path.parent dest_file));;
  writing (fun fs => copy2 fs source_file dest_file);;
  mret dest_file.

Definition resolved_and_exists (source_file : option Path.t) : M (option Path.t) :=
  match source_file with
  | None => mret None
  | Some p =>
      e ← reading_result (fun fs => path_exists fs p);
      mret (if e : bool then Some p else None)
  end.

(** The body of the loop of lines 236 to 248 (copy mode). *)
Definition copy_one (tex_file output_dir : Path.t)
    (copied_files : list Path.t) (asset_path : str) : M (list Path.t) :=
  source_file ← _resolve_asset_path asset_path tex_file;
  src ← resolved_and_exists source_file;
  match src with
  | Some p =>
      dest_file ← copy_to p output_dir asset_path;
      log (L "Copied asset: " ++ asset_path) INFO;;
      mret (copied_files ++ [dest_file])
  | None =>
      log (L "Asset not found: " ++ asset_path) WARNING;;
      mret copied_files
  end.

(** The body of the loop of lines 226 to 233 (fallback). *)
Definition fallback_copy_one (tex_file output_dir : Path.t)
    (copied_files : list Path.t) (asset_path : str) : M (list Path.t) :=
  source_file ← _resolve_asset_path asset_path tex_file;
  src ← resolved_and_exists source_file;
  match src with
  | Some p =>
      dest_file ← copy_to p output_dir asset_path;
      log (L "Fallback: Copied asset: " ++ asset_path) INFO;;
      mret (copied_files ++ [dest_file])
  | None => mret copied_files
  end.

(** The loop of lines 204 to 208: walk up from [root_dir] until a
    directory with an [assets] entry, or a path without components; a
    test that raises ends the walk with its exception. [rparts] is the
    components of [root_dir], last first. *)
Fixpoint find_root_dir (fs : FS) (root_ : str) (rparts : list str)
    : result Path.t :=
  match rparts with
  | [] => Ok (Path.mk root_ [])
  | _ :: up =>
      let root_dir := Path.mk root_ (rev rparts) in
      match path_exists fs (root_dir // L "assets") with
      | Ok true => Ok root_dir
      | Ok false => find_root_dir fs root_ up
      | Raise e => Raise e
      end
  end.

(** The [try] block of lines 202 to 222. *)
Definition link_assets (tex_file output_dir : Path.t) : M (list Path.t) :=
  let start := Path.parent tex_file in
  root_dir ← reading_result (fun fs =>
    find_root_dir fs (Path.root start) (rev (Path.parts start)));
  let original_assets_dir := root_dir // L "assets" in
  found ← reading_result (fun fs => path_exists fs original_assets_dir);
  if found : bool then
    let assets_symlink := output_dir // L "assets" in
    there ← (e ← reading_result (fun fs => path_exists fs assets_symlink);
             if e : bool then mret true
             else reading_result (fun fs => path_is_symlink fs assets_symlink));
    (if there : bool
     then writing (fun fs => unlink fs assets_symlink)
     else mret tt);;
    relative_assets ← reading_result (fun fs =>
      relpath fs original_assets_dir output_dir);
    writing (fun fs => symlink_to fs assets_symlink relative_assets);;
    log (L "Created assets symlink: assets -> " ++ relative_assets) INFO;;
    mret [assets_symlink]
  else
    log (L "No assets directory found") WARNING;;
    mret [].

(** [copy_assets] *)
Definition copy_assets (tex_file output_dir : Path.t) (use_symlinks : bool)
    : M (list Path.t) :=
  asset_refs ← _find_asset_references tex_file;
  match asset_refs with
  | [] =>
      log (L "No asset references found") INFO;;
      mret []
  | _ :: _ =>
      log (L "Found " ++ Py.str_of_Z (Z.of_nat (length asset_refs))
             ++ L " asset references") INFO;;
      if use_symlinks then
        try_except_OSError
          (link_assets tex_file output_dir)
          (fun e =>
             log (L "Failed to create assets symlink: " ++ exn_msg e)
               WARNING;;
             for_each asset_refs [] (fallback_copy_one tex_file output_dir))
      else
        for_each asset_refs [] (copy_one tex_file output_dir)
  end.

(** Lines 313 to 323 of [convert_file]: the body spliced into the
    template. *)
Definition new_content (template_ content : str) : str :=
  if Py.contains BIBLIOGRAPHYSTYLE template_ then
    let bib_start := Py.find template_ BIBLIOGRAPHYSTYLE in
    Py.slice template_ None (Some bib_start) ++ content ++ [nl; nl]
      ++ Py.slice template_ (Some bib_start) None
  else
    let doc_end := Py.find template_ END_DOCUMENT in
    Py.slice template_ None (Some doc_end) ++ content ++ [nl; nl]
      ++ Py.slice template_ (Some doc_end) None.

(** What [convert_file] does once the body is extracted: lines 307
    to 338. The unused [title_line] reads the date twice more. *)
Definition convert_extracted (tex_file output_dir : Path.t)
    (folder_name : str) (use_symlinks : bool) (content : str) : M bool :=
  template_ ← lift (inject_personal_info (template self) tex_file folder_name);
  _ ← lift (get_date_info tex_file);
  _ ← lift (get_date_info tex_file);
  let new_content_ := new_content template_ content in
  let output_file := output_dir // Path.name tex_file in
  writing (fun fs => write_text fs output_file new_content_);;
  (if use_symlinks
   then log (L "Creating symlinks to assets for " ++ Path.name tex_file
               ++ L "...") INFO
   else log (L "Copying assets for " ++ Path.name tex_file ++ L "...") INFO);;
  copy_assets tex_file output_dir use_symlinks;;
  log (L "Converted " ++ Path.name tex_file) INFO;;
  mret true.

(** [convert_file] *)
Definition convert_file (tex_file output_dir : Path.t) (folder_name : str)
    (use_symlinks : bool) : M bool :=
  try_except
    (content ← extract_content tex_file;
     match content with
     | None => mret false
     | Some c => convert_extracted tex_file output_dir folder_name use_symlinks c
     end)
    (fun e =>
       log (L "Error converting " ++ Path.name tex_file ++ L ": "
              ++ exn_msg e) ERROR;;
       mret false).

(** The loop of lines 371 to 379 with its two counters. *)
Definition count_one (output_folder : Path.t) (folder_name : str)
    (use_symlinks : bool) (counters : Z * Z) (tex_file : Path.t)
    : M (Z * Z) :=
  let '(successful, failed) := counters in
  ok ← convert_file tex_file output_folder folder_name use_symlinks;
  if ok : bool then mret (successful + 1, failed)
  else mret (successful, failed + 1).

Definition convert_all (tex_files : list Path.t) (output_folder : Path.t)
    (folder_name : str) (use_symlinks : bool) : M (Z * Z) :=
  for_each tex_files (0, 0) (count_one output_folder folder_name use_symlinks).

(** [convert_folder] *)
Definition convert_folder (input_folder : Path.t)
    (output_folder : option Path.t) (use_symlinks : bool) : M Z :=
  there ← reading_result (fun fs => path_exists fs input_folder);
  if negb there then
    log (L "Input folder does not exist: " ++ Path.to_str input_folder)
      ERROR;;
    mret 1
  else
    tex_files ← find_tex_files input_folder;
    match tex_files with
    | [] =>
        log (L "No .tex files found") WARNING;;
        mret 0
    | _ :: _ =>
        let output_folder :=
          match output_folder with
          | Some p => p
          | None =>
              Path.parent input_folder
                // (L "converted_" ++ Path.name input_folder)
          end in
        writing (fun fs => mkdir_parents fs output_folder);;
        log (L "Output folder: " ++ Path.to_str output_folder) INFO;;
        let folder_name := Path.name input_folder in
        '(successful, failed) ←
          convert_all tex_files output_folder folder_name use_symlinks;
        log (nl :: L "Conversion Summary:") INFO;;
        log (L "  Successful: " ++ Py.str_of_Z successful) INFO;;
        log (L "  Failed: " ++ Py.str_of_Z failed) INFO;;
        log (L "  Output: " ++ Path.to_str output_folder) INFO;;
        mret failed
    end.

End Converter.

(** ** A small file system

    An instance of [Runtime] to run the converter on: entries in
    directory order, each a file, a directory or a symbolic link. Paths
    are looked up as written (no resolution of double dots or of links
    inside a path). *)

Module SimpleFS.

Inductive node : Type :=
| File (content : str)
| Dir
| Link (target : str).

Definition t : Type := list (Path.t * node).

Fixpoint lookup (fs : t) (p : Path.t) : option node :=
  match fs with
  | [] => None
  | (q, n) :: fs' => if bool_decide (q = p) then Some n else lookup fs' p
  end.

Fixpoint insert (fs : t) (p : Path.t) (n : node) : t :=
  match fs with
  | [] => [(p, n)]
  | (q, m) :: fs' =>
      if bool_decide (q = p) then (q, n) :: fs' else (q, m) :: insert fs' p n
  end.

Definition delete (fs : t) (p : Path.t) : t :=
  filter (fun e => e.1 ≠ p) fs.

Definition is_dir (fs : t) (p : Path.t) : bool :=
  match Path.parts p, lookup fs p with
  | [], _ => true
  | _, Some Dir => true
  | _, _ => false
  end.

Definition present (fs : t) (p : Path.t) : bool :=
  match Path.parts p, lookup fs p with
  | [], _ => true
  | _, Some (File _) => true
  | _, Some Dir => true
  | _, _ => false
  end.

Definition exists_ (fs : t) (p : Path.t) : bool :=
  match lookup fs p with
  | Some (Link target) => present fs (Path.parent p // target)
  | _ => present fs p
  end.

Definition os_error (msg : string) : exn := mk_exn OSError (L msg).

Definition read (fs : t) (p : Path.t) : result str :=
  match lookup fs p with
  | Some (File c) => Ok c
  | Some Dir => Raise (os_error "Is a directory")
  | _ => Raise (os_error "No such file or directory")
  end.

Definition write (fs : t) (p : Path.t) (c : str) : result unit * t :=
  match lookup fs p with
  | Some Dir => (Raise (os_error "Is a directory"), fs)
  | _ =>
      if is_dir fs (Path.parent p) then (Ok tt, insert fs p (File c))
      else (Raise (os_error "No such file or directory"), fs)
  end.

(** The paths from the first component down to [p]. *)
Definition ancestors (p : Path.t) : list Path.t :=
  map (fun n => Path.mk (Path.root p) (take n (Path.parts p)))
      (seq 1 (length (Path.parts p))).

Fixpoint mkdirs (fs : t) (dirs : list Path.t) : result unit * t :=
  match dirs with
  | [] => (Ok tt, fs)
  | d :: rest =>
      match lookup fs d with
      | Some Dir => mkdirs fs rest
      | Some _ => (Raise (os_error "File exists"), fs)
      | None => mkdirs (insert fs d Dir) rest
      end
  end.

Definition mkdir (fs : t) (p : Path.t) : result unit * t :=
  mkdirs fs (ancestors p).

Definition copy (fs : t) (src dst : Path.t) : result unit * t :=
  match lookup fs src with
  | Some (File c) =>
      if is_dir fs dst then write fs (dst // Path.name src) c
      else write fs dst c
  | Some _ => (Raise (os_error "Is a directory"), fs)
  | None => (Raise (os_error "No such file or directory"), fs)
  end.

Definition remove (fs : t) (p : Path.t) : result unit * t :=
  match lookup fs p with
  | Some Dir => (Raise (os_error "Is a directory"), fs)
  | Some _ => (Ok tt, delete fs p)
  | None => (Raise (os_error "No such file or directory"), fs)
  end.

Definition symlink (fs : t) (p : Path.t) (target : str) : result unit * t :=
  match lookup fs p with
  | Some _ => (Raise (os_error "File exists"), fs)
  | None =>
      if is_dir fs (Path.parent p) then (Ok tt, insert fs p (Link target))
      else (Raise (os_error "No such file or directory"), fs)
  end.

Definition ends_with (suffix s : str) : bool :=
  Py.startswith (rev suffix) (rev s).

Definition glob (fs : t) (dir : Path.t) : list Path.t :=
  filter (fun p => Path.parts p ≠ [] ∧ Path.parent p = dir
                   ∧ ends_with (L ".tex") (Path.name p) = true)
         (map fst fs).

Fixpoint strip_common (a b : list str) : list str * list str :=
  match a, b with
  | x :: a', y :: b' =>
      if bool_decide (x = y) then strip_common a' b' else (a, b)
  | _, _ => (a, b)
  end.

Definition rel (fs : t) (p start : Path.t) : result str :=
  let '(down, up) := strip_common (Path.parts p) (Path.parts start) in
  Ok (Path.to_str (Path.mk [] (map (fun _ => L "..") up ++ down))).

(** A path with a component of more than 255 characters cannot be
    looked at: [stat] fails with ENAMETOOLONG, which [pathlib] does not
    take for "not there". *)
Definition too_long (p : Path.t) : bool :=
  existsb (fun n => (255 <? length n)%nat) (Path.parts p).

Definition stat_result (p : Path.t) (answer : bool) : result bool :=
  if too_long p then Raise (os_error "[Errno 36] File name too long")
  else Ok answer.

#[global] Instance runtime : Runtime t := {|
  path_exists fs p := stat_result p (exists_ fs p);
  path_is_symlink fs p :=
    stat_result p
      match lookup fs p with Some (Link _) => true | _ => false end;
  read_text := read;
  write_text := write;
  mkdir_parents := mkdir;
  copy2 := copy;
  unlink := remove;
  symlink_to := symlink;
  glob_tex := glob;
  relpath := rel;
  now := mk_datetime 2026 11 4;
  list_of_set := remove_dups;
|}.

End SimpleFS.

(** ** Start-up and the command line

    What [__init__] and [main] need beyond [Runtime]: the directory of
    the script ([Path(__file__).parent]), the YAML loader, [Path.is_dir]
    and the command-line parser of [argparse]. *)

(** The parsed command line: [args] after [parser.parse_args()]. *)
Record Args : Type := {
  input_folder : Path.t;
  output_folder : option Path.t;
  symlink_assets : bool;
  verbose_flag : bool;
}.

(** What [parser.parse_args()] does with the command line: it returns
    the arguments, or leaves the program by itself: after a usage error
    with status 2 (the message goes to standard error), after [-h] or
    [--help] with status 0 (the help text goes to standard output). *)
Inductive parsed : Type :=
| Parsed (args : Args)
| UsageError
| HelpRequested.

Class Host (FS : Type) : Type := {
  (** [Path(__file__).parent] *)
  script_dir : Path.t;
  (** [yaml.safe_load] on the text of the file; [None] is a document
      that is not a mapping *)
  yaml_safe_load : str -> result (option (gmap string cfg_value));
  (** [p.is_dir()]; it raises what [p.exists()] raises *)
  path_is_dir : FS -> Path.t -> result bool;
  (** [parser.parse_args()] on [sys.argv[1:]], for the parser that
      [main] sets up (lines 392 to 418) *)
  parse_args : list str -> parsed;
  (** the help text of that parser, as [parse_args] writes it to
      standard output for [-h], without its last line break *)
  help_text : str;
}.

Section Startup.

Context {FS : Type} {RT : Runtime FS} {HO : Host FS}.

Local Abbreviation M := (M FS).

(** The object while [__init__] runs: only [verbose] is set when
    [_load_config] logs, and [log] reads nothing else. *)
Definition partial_self (verbose_ : bool)
    (config_ : option (gmap string cfg_value)) : Tex2TexConverter :=
  {| verbose := verbose_; config := config_; template := [] |}.

(** [_load_config]; a failed load gives the empty mapping. *)
Definition _load_config (verbose_ : bool) : M (option (gmap string cfg_value)) :=
  let self := partial_self verbose_ None in
  let config_path := script_dir // L "config.yaml" in
  try_except
    (text ← reading_result (fun fs => read_text fs config_path);
     config_ ← lift (yaml_safe_load text);
     log self (L "Loaded config from " ++ Path.to_str config_path) INFO;;
     mret config_)
    (fun e =>
       log self (L "Error loading config: " ++ exn_msg e) ERROR;;
       mret (Some ∅)).

Definition template_path : Path.t :=
  script_dir // L "assets" // L "templates" // L "entries"
    // L "entry_template.tex".

(** [_load_template]; a failed load gives the empty string. *)
Definition _load_template (verbose_ : bool)
    (config_ : option (gmap string cfg_value)) : M str :=
  let self := partial_self verbose_ config_ in
  try_except
    (template_ ← reading_result (fun fs => read_text fs template_path);
     log self (L "Loaded template from " ++ Path.to_str template_path) INFO;;
     mret template_)
    (fun e =>
       log self (L "Error loading template: " ++ exn_msg e) ERROR;;
       mret []).

(** [Tex2TexConverter(verbose)] *)
Definition __init__ (verbose_ : bool) : M Tex2TexConverter :=
  config_ ← _load_config verbose_;
  template_ ← _load_template verbose_ config_;
  mret {| verbose := verbose_; config := config_; template := template_ |}.

(** [main], lines 421 to 449: what follows [parser.parse_args()]. The
    value is the status the program leaves with: [sys.exit(1)] gives 1
    (it raises [SystemExit], which [except Exception] does not catch),
    returning gives 0. The two tests of the input folder stand outside
    the [try]: an exception of theirs leaves [main]. *)
Definition main_body (args : Args) : M Z :=
  there ← reading_result (fun fs => path_exists fs (input_folder args));
  if negb there then
    print (L "ERROR: Input folder not found: "
             ++ Path.to_str (input_folder args));;
    mret 1
  else
    is_dir ← reading_result (fun fs => path_is_dir fs (input_folder args));
    if negb is_dir then
      print (L "ERROR: Input path is not a directory: "
               ++ Path.to_str (input_folder args));;
      mret 1
    else
      converter ← __init__ (verbose_flag args);
      try_except
        (failed_count ←
           convert_folder converter (input_folder args) (output_folder args)
             (symlink_assets args);
         if failed_count =? 0 then
           print (nl :: L "All conversions completed successfully!");;
           mret 0
         else
           print (nl :: L " " ++ Py.str_of_Z failed_count
                    ++ L " conversions failed");;
           mret 1)
        (fun e =>
           print (L "Batch conversion failed: " ++ exn_msg e);;
           mret 1).

(** [main] on the command line [argv] ([sys.argv[1:]]). *)
Definition main (argv : list str) : M Z :=
  match parse_args argv with
  | Parsed args => main_body args
  | UsageError => mret 2
  | HelpRequested => print help_text;; mret 0
  end.

End Startup.

(** The status of the process that runs [main()] (line 452): an
    exception that leaves [main] ends the interpreter with status 1. *)
Definition exit_status (r : result Z) : Z :=
  match r with
  | Ok code => code
  | Raise _ => 1
  end.

(** A reader of command lines for the small host. It knows the two
    options by their full names and [-v], the help options wherever
    they stand, and one or two positional arguments; it does not know
    the abbreviations and the combined short options of [argparse]. *)
Fixpoint read_arguments (argv positionals : list str)
    (symlink_assets_ verbose_ : bool) : parsed :=
  match argv with
  | [] =>
      match positionals with
      | [input] =>
          Parsed {| input_folder := Path.of_str input;
                    output_folder := None;
                    symlink_assets := symlink_assets_;
                    verbose_flag := verbose_ |}
      | [input; output] =>
          Parsed {| input_folder := Path.of_str input;
                    output_folder := Some (Path.of_str output);
                    symlink_assets := symlink_assets_;
                    verbose_flag := verbose_ |}
      | _ => UsageError
      end
  | a :: rest =>
      if bool_decide (a = L "--symlink-assets")
      then read_arguments rest positionals true verbose_
      else if bool_decide (a = L "--verbose" \/ a = L "-v")
      then read_arguments rest positionals symlink_assets_ true
      else if Py.startswith (L "-") a then UsageError
      else read_arguments rest (positionals ++ [a]) symlink_assets_ verbose_
  end.

(** The small file system as a host: the script lives in [/tool], and
    the YAML loader of this instance only knows the empty document
    (which loads as Python's [None]) and refuses every other text. *)
#[global] Instance SimpleFS_host : Host SimpleFS.t := {|
  script_dir := Path.mk (L "/") [L "tool"];
  yaml_safe_load text :=
    match text with
    | [] => Ok None
    | _ :: _ => Raise (mk_exn OtherException (L "could not parse the document"))
    end;
  path_is_dir fs p := SimpleFS.stat_result p (SimpleFS.is_dir fs p);
  parse_args argv :=
    if bool_decide (L "-h" ∈ argv \/ L "--help" ∈ argv) then HelpRequested
    else read_arguments argv [] false false;
  help_text := L "usage: update_diary_template.py [-h] [--symlink-assets] [--verbose] input_folder [output_folder]";
|}.

(** ** Vocabulary of the statements *)

(** [sub] occurs in [s]. *)
Definition occurs (sub s : str) : Prop := exists pre post, s = pre ++ sub ++ post.

(** [pre ++ sub ++ post] splits [s] at the first occurrence of [sub]. *)
Definition first_occurrence (sub s pre post : str) : Prop :=
  s = pre ++ sub ++ post
  /\ forall pre' post', s = pre' ++ sub ++ post' -> (length pre <= length pre')%nat.

(** Runs of decimal digits, and the text [YYYY-M-D]. *)
Definition all_digits (s : str) : Prop := Forall (fun c => Py.isdigit c = true) s.

Definition date_shaped (y m d : str) : Prop :=
  length y = 4%nat /\ (1 <= length m <= 2)%nat /\ (1 <= length d <= 2)%nat
  /\ all_digits y /\ all_digits m /\ all_digits d.

Definition date_text (y m d : str) : str := y ++ L "-" ++ m ++ L "-" ++ d.

(** [s] begins with a text of the shape [YYYY-M-D]. *)
Definition starts_with_date (s : str) : Prop :=
  exists y m d rest, date_shaped y m d /\ s = date_text y m d ++ rest.

(** No proper suffix of [m] is a prefix of [m]: two occurrences of [m]
    cannot overlap. *)
Definition borderless (m : str) : Prop :=
  forall k, (0 < k < length m)%nat -> Py.startswith (drop k m) m = false.

(** The values [convert_file] returns on the files of a list, one after
    the other, and the state after the last. *)
Fixpoint outcomes {FS : Type} {RT : Runtime FS} (self : Tex2TexConverter)
    (tex_files : list Path.t) (output_folder : Path.t) (folder_name : str)
    (use_symlinks : bool) (w : World FS) : list bool * World FS :=
  match tex_files with
  | [] => ([], w)
  | tex_file :: rest =>
      let '(r, w1) :=
        convert_file self tex_file output_folder folder_name use_symlinks w in
      let '(bs, w2) :=
        outcomes self rest output_folder folder_name use_symlinks w1 in
      (match r with Ok b => b | Raise _ => false end :: bs, w2)
  end.

Definition count_true (bs : list bool) : Z := Z.of_nat (length (filter (fun b => b = true) bs)).
Definition count_false (bs : list bool) : Z := Z.of_nat (length (filter (fun b => b = false) bs)).

(** The directory [d] cut to its first [n] components: [d] itself and
    the directories above it, up to the root. *)
Definition upward (d : Path.t) (n : nat) : Path.t :=
  Path.mk (Path.root d) (take n (Path.parts d)).

(** The ten placeholder tokens [inject_personal_info] looks for. *)
Definition placeholders : list str :=
  [ L "<YEAR>"; L "<MONTH>"; L "<DAY>"; L "<MONTH_NAME>"; L "<DAY_NUMBER>";
    L "<AUTHOR>"; L "<INSTITUTION>"; L "<DIARY_TITLE>"; L "<FILENAME>";
    L "<TAGS>" ].

(** The three keys read from the configuration. *)
Definition config_keys : list string := ["author"; "institution"; "diary_title"]%string.

(** A printed line that is a warning or an error. *)
Definition is_alert (line : str) : Prop :=
  Py.startswith (L "WARNING: ") line = true
  \/ Py.startswith (L "ERROR: ") line = true.

(** One or two digits without the leading zero of a two-digit text. *)
Definition without_leading_zero (s : str) : str :=
  match s with
  | [c0; c1] => if Py.eqb_char c0 "0" then [c1] else s
  | _ => s
  end.

(** What a method prints: every line it adds satisfies [P]. *)
Definition emits {FS A : Type} (P : str -> Prop) (m : M FS A) : Prop :=
  forall w r w',
    m w = (r, w') -> exists lines, w_out w' = w_out w ++ lines /\ Forall P lines.

(** A method that leaves the file system as it found it. *)
Definition read_only {FS A : Type} (m : M FS A) : Prop :=
  forall w r w', m w = (r, w') -> w_fs w' = w_fs w.

(** [copied tex_file output_dir fs refs picked fs']: the references
    [refs] are gone through in order, starting from the file system
    [fs]. A reference found at one of its candidate locations at its
    turn has the parent of its destination made and is copied to
    [output_dir // r]; these are the references [picked]. A reference
    found nowhere at its turn changes nothing. [fs'] is the file system
    after the last copy. *)
Inductive copied {FS : Type} {RT : Runtime FS} (tex_file output_dir : Path.t)
    : FS -> list str -> list str -> FS -> Prop :=
| copied_nil fs : copied tex_file output_dir fs [] [] fs
| copied_skip fs r refs picked fs' :
    first_existing fs (possible_paths r tex_file) = Ok None ->
    copied tex_file output_dir fs refs picked fs' ->
    copied tex_file output_dir fs (r :: refs) picked fs'
| copied_copy fs r refs picked fs' source fs1 fs2 :
    first_existing fs (possible_paths r tex_file) = Ok (Some source) ->
    mkdir_parents fs (Path.parent (output_dir // r)) = (Ok tt, fs1) ->
    copy2 fs1 source (output_dir // r) = (Ok tt, fs2) ->
    copied tex_file output_dir fs2 refs picked fs' ->
    copied tex_file output_dir fs (r :: refs) (r :: picked) fs'.

(** The text of an [\includegraphics] directive, with or without options. *)
Definition directive (options : option str) (path : str) : str :=
  L "\includegraphics"
    ++ match options with Some o => L "[" ++ o ++ L "]" | None => [] end
    ++ L "{" ++ path ++ L "}".

(** ** Sample data

    A converter, and small file systems to run it on. *)

Definition demo_self : Tex2TexConverter := {|
  verbose := false;
  config := Some ∅;
  template :=
    L "\title{<MONTH_NAME> <DAY_NUMBER>, <YEAR>}%<TAGs>: <TAGS>" ++ [nl]
      ++ L "\begin{document}" ++ [nl] ++ L "\end{document}";
|}.

Definition P (s : string) : Path.t := Path.of_str (L s).

Definition demo_fs : SimpleFS.t :=
  [ (P "/posts", SimpleFS.Dir);
    (P "/posts/2024", SimpleFS.Dir);
    (P "/posts/2024/2024-03-15-notes.tex",
       SimpleFS.File (L "\documentclass{article}\begin{document}" ++ [nl]
                        ++ L "Hello world.\includegraphics{fig1.png}" ++ [nl]
                        ++ L "\end{document}"));
    (P "/posts/2024/assets", SimpleFS.Dir);
    (P "/posts/2024/assets/figures", SimpleFS.Dir);
    (P "/posts/2024/assets/figures/fig1.png", SimpleFS.File (L "PNG")) ].

Definition C1_fs : SimpleFS.t :=
  [ (P "/posts", SimpleFS.Dir);
    (P "/posts/2024", SimpleFS.Dir);
    (P "/posts/2024/a.tex",
       SimpleFS.File (L "\begin{document}\includegraphics{fig1.png}\end{document}"));
    (P "/posts/2024/fig1.png", SimpleFS.File (L "PNG"));
    (P "/out", SimpleFS.Dir) ].

Definition C10_fs (name : string) : SimpleFS.t :=
  [ (P "/posts", SimpleFS.Dir);
    (P "/posts" // L name,
       SimpleFS.File (END_DOCUMENT ++ L "text" ++ BEGIN_DOCUMENT));
    (P "/out", SimpleFS.Dir) ].

Definition C5_fs : SimpleFS.t :=
  [ (P "/posts", SimpleFS.Dir);
    (P "/posts/2024-03-15.tex",
       SimpleFS.File (BEGIN_DOCUMENT ++ L "Hello world." ++ END_DOCUMENT));
    (P "/posts/2024-13-01.tex",
       SimpleFS.File (BEGIN_DOCUMENT ++ L "Thirteenth month." ++ END_DOCUMENT));
    (P "/posts/b.tex", SimpleFS.File (L "no markers")) ].

(** A converter whose configuration and template failed to load. *)
Definition bare_self : Tex2TexConverter :=
  {| verbose := false; config := Some ∅; template := [] |}.

Definition asset_failure_fs : SimpleFS.t :=
  [ (P "/posts", SimpleFS.Dir);
    (P "/posts/a.tex",
       SimpleFS.File (BEGIN_DOCUMENT ++ L "\includegraphics{figs}" ++ END_DOCUMENT));
    (P "/posts/figs", SimpleFS.Dir);
    (P "/out", SimpleFS.Dir) ].

(** A shared [assets] folder is found, but the output folder already holds
    a directory of that name, so the link cannot be made. *)
Definition link_failure_fs : SimpleFS.t :=
  [ (P "/posts", SimpleFS.Dir);
    (P "/posts/assets", SimpleFS.Dir);
    (P "/posts/a.tex",
       SimpleFS.File (BEGIN_DOCUMENT ++ L "\includegraphics{fig1.png}" ++ END_DOCUMENT));
    (P "/posts/fig1.png", SimpleFS.File (L "PNG"));
    (P "/out", SimpleFS.Dir);
    (P "/out/assets", SimpleFS.Dir) ].

(** A document that refers to an image by a name of 256 characters. *)
Definition long_reference_fs : SimpleFS.t :=
  [ (P "/posts", SimpleFS.Dir);
    (P "/posts/a.tex",
       SimpleFS.File (BEGIN_DOCUMENT ++ L "\includegraphics{"
                        ++ repeat "a"%char 256 ++ L "}" ++ END_DOCUMENT));
    (P "/out", SimpleFS.Dir) ].

(** ** The model on sample inputs *)

Example find_ex : Py.find (L "ab\end{document}") (L "\end{document}") = 2.
Proof. reflexivity. Qed.

Example replace_ex : Py.replace (L "a<X>b<X>") (L "<X>") (L "12") = L "a12b12".
Proof. reflexivity. Qed.

Example strip_ex : Py.strip (nl :: L " ab c  ") = L "ab c".
Proof. reflexivity. Qed.

Example slice_ex : Py.slice (L "abcdef") (Some 4) (Some 2) = [].
Proof. reflexivity. Qed.

Example slice_neg_ex : Py.slice (L "abcdef") None (Some (-1)) = L "abcde".
Proof. reflexivity. Qed.

Example str_of_Z_ex : Py.str_of_Z 3 = L "3" /\ Py.str_of_Z 0 = L "0" /\ Py.str_of_Z 15 = L "15".
Proof. repeat split; reflexivity. Qed.

Example index_ex : Py.index [1;2;3] (-1) = Some 3 /\ Py.index [1;2;3] 3 = None.
Proof. split; reflexivity. Qed.

Example date_search_ex :
  Re.search Re.date_re (L "notes-2024-03-15-draft")
  = Some (6%nat, [(3%nat, L "15"); (2%nat, L "03"); (1%nat, L "2024")], L "-draft").
Proof. reflexivity. Qed.

Example date_search_greedy_ex :
  Re.search Re.date_re (L "12024-1-234")
  = Some (1%nat, [(3%nat, L "23"); (2%nat, L "1"); (1%nat, L "2024")], L "4").
Proof. reflexivity. Qed.

Example date_search_none_ex : Re.search Re.date_re (L "2024-123-1") = None.
Proof. reflexivity. Qed.

Example href_sub_ex :
  Re.sub_empty Re.href_re (L "\href{run:a.tex}{\Huge March 15}  Hello \href{x}") = L "Hello \href{x}".
Proof. reflexivity. Qed.

Example section_sub_ex :
  Re.sub_empty Re.empty_section_re (L "a\section{ } b\section{c}\section{}") = L "ab\section{c}".
Proof. reflexivity. Qed.

Example findall_ex :
  Re.findall Re.includegraphics_re
    (L "\includegraphics[width=3cm]{fig/a.png} x \includegraphics{b}")
  = [L "fig/a.png"; L "b"].
Proof. reflexivity. Qed.

Example findall_input_ex :
  Re.findall Re.input_re (L "\input{ch1.tex}\input{plots/p.jpeg}\input{q.svgz}")
  = [L "plots/p.jpeg"].
Proof. reflexivity. Qed.

Example findall_epsfig_ex :
  Re.findall Re.epsfig_re (L "\epsfig{file=a.eps,width=2in}") = [L "a.eps"].
Proof. reflexivity. Qed.

Example path_join_ex :
  Path.of_str (L "posts/2024/a.tex") // L "./fig/../b.png"
  = Path.mk [] [L "posts"; L "2024"; L "a.tex"; L "fig"; L ".."; L "b.png"].
Proof. reflexivity. Qed.

Example path_join_abs_ex :
  Path.of_str (L "posts/2024") // L "/srv/b.png" = Path.mk (L "/") [L "srv"; L "b.png"].
Proof. reflexivity. Qed.

Example path_parent_ex :
  Path.parent (Path.of_str (L "a")) = Path.of_str (L ".")
  /\ Path.parent (Path.of_str (L "/")) = Path.of_str (L "/").
Proof. split; reflexivity. Qed.

Example path_stem_ex :
  Path.stem (Path.of_str (L "posts/2024-03-15-notes.tex")) = L "2024-03-15-notes"
  /\ Path.stem (Path.of_str (L ".tex")) = L ".tex"
  /\ Path.stem (Path.of_str (L "2024-1-1.5.tex")) = L "2024-1-1.5".
Proof. repeat split; reflexivity. Qed.

Example demo_run :
  let '(r, w) := convert_folder demo_self (P "/posts/2024") None false
                   (mk_world demo_fs []) in
  r = Ok 0
  /\ SimpleFS.lookup (w_fs w) (P "/posts/converted_2024/2024-03-15-notes.tex")
     = Some (SimpleFS.File
               (L "\title{March 15, 2024}%<TAGs>: 2024" ++ [nl]
                  ++ L "\begin{document}" ++ [nl]
                  ++ L "Hello world.\includegraphics{fig1.png}" ++ [nl; nl]
                  ++ L "\end{document}"))
  /\ SimpleFS.lookup (w_fs w) (P "/posts/converted_2024/fig1.png")
     = Some (SimpleFS.File (L "PNG"))
  /\ w_out w = [].
Proof. vm_compute. repeat split; reflexivity. Qed.

(** The whole program on the same folder, from a script directory that
    holds neither the configuration nor the template. *)
Example main_run :
  let '(r, w) := main [L "/posts/2024"] (mk_world demo_fs []) in
  r = Ok 0
  /\ SimpleFS.lookup (w_fs w) (P "/posts/converted_2024/2024-03-15-notes.tex")
     = Some (SimpleFS.File
               (L "Hello world.\includegraphics{fig1.png}" ++ [nl; nl]))
  /\ w_out w
     = [ L "ERROR: Error loading config: No such file or directory";
         L "ERROR: Error loading template: No such file or directory";
         nl :: L "All conversions completed successfully!" ].
Proof. vm_compute. repeat split; reflexivity. Qed.

Example main_missing_folder_run :
  let '(r, w) := main [L "/posts/2025"; L "-v"] (mk_world demo_fs []) in
  r = Ok 1
  /\ w_fs w = demo_fs
  /\ w_out w = [ L "ERROR: Input folder not found: /posts/2025" ].
Proof. vm_compute. repeat split; reflexivity. Qed.

Example main_usage_run :
  main [] (mk_world demo_fs []) = (Ok 2, mk_world demo_fs [])
  /\ main [L "/posts/2024"; L "--bogus"] (mk_world demo_fs [])
     = (Ok 2, mk_world demo_fs [])
  /\ fst (main [L "--help"] (mk_world demo_fs [])) = Ok 0.
Proof. vm_compute. repeat split; reflexivity. Qed.

(** A folder name of 256 characters: the first test of [main] raises. *)
Example main_long_name_run :
  main [repeat "a"%char 256] (mk_world demo_fs [])
  = (Raise (SimpleFS.os_error "[Errno 36] File name too long"),
     mk_world demo_fs []).
Proof. vm_compute. reflexivity. Qed.

(** ** Facts about strings *)

Lemma eqb_char_eq a b : Py.eqb_char a b = true <-> a = b.
Proof. unfold Py.eqb_char. apply Ascii.eqb_eq. Qed.

Lemma eqb_char_refl a : Py.eqb_char a a = true.
Proof. by apply eqb_char_eq. Qed.

Lemma startswith_app p t : Py.startswith p (p ++ t) = true.
Proof. induction p as [|a p IH]; simpl; [done|]. by rewrite eqb_char_refl. Qed.

Lemma startswith_inv p s :
  Py.startswith p s = true -> exists t, s = p ++ t.
Proof.
  revert s. induction p as [|a p IH]; intros s H; simpl in *.
  - by exists s.
  - destruct s as [|b s]; [done|].
    apply andb_true_iff in H as [Hab Hps].
    apply eqb_char_eq in Hab as ->.
    destruct (IH _ Hps) as [t ->]. by exists t.
Qed.

Lemma startswith_iff p s : Py.startswith p s = true <-> exists t, s = p ++ t.
Proof.
  split; [apply startswith_inv|]. intros [t ->]. apply startswith_app.
Qed.

Lemma occurs_iff sub s :
  occurs sub s <-> exists n, Py.startswith sub (drop n s) = true.
Proof.
  split.
  - intros (pre & post & ->). exists (length pre).
    rewrite drop_app_length. apply startswith_app.
  - intros [n H]. apply startswith_inv in H as [t Ht].
    exists (take n s), t. by rewrite <- Ht, take_drop.
Qed.

(** [find_from] either finds nothing, and then [sub] starts nowhere, or
    returns the first offset at which [sub] starts. *)
Lemma find_from_spec sub s i :
  (Py.find_from sub s i = -1 /\ forall n, Py.startswith sub (drop n s) = false)
  \/ (exists n : nat,
        Py.find_from sub s i = i + Z.of_nat n /\ (n <= length s)%nat
        /\ Py.startswith sub (drop n s) = true
        /\ forall m, (m < n)%nat -> Py.startswith sub (drop m s) = false)
  \/ i < -1.
Proof.
  destruct (Z_lt_dec i (-1)) as [|Hi]; [by right; right|].
  revert i Hi. induction s as [|c s IH]; intros i Hi; simpl.
  - destruct (Py.startswith sub []) eqn:E.
    + right; left. exists 0%nat. rewrite Z.add_0_r. repeat split; auto. lia.
    + left. split; [done|]. intros n. by rewrite drop_nil.
  - destruct (Py.startswith sub (c :: s)) eqn:E.
    + right; left. exists 0%nat. rewrite Z.add_0_r. repeat split; auto; simpl; lia.
    + destruct (IH (i + 1)) as [[H1 H2]|[(n & H1 & H2 & H3 & H4)|?]]; [lia| | |lia].
      * left. split; [done|]. intros [|n]; [done|]. apply H2.
      * right; left. exists (S n). repeat split; [lia|simpl; lia|done|].
        intros [|m] Hm; [done|]. apply H4. lia.
Qed.

Lemma find_none_iff s sub : Py.find s sub = -1 <-> ~ occurs sub s.
Proof.
  unfold Py.find. rewrite occurs_iff.
  destruct (find_from_spec sub s 0) as [[H1 H2]|[(n & H1 & H2 & H3 & H4)|?]]; [| |lia].
  - split; [|done]. intros _ [n Hn]. by rewrite H2 in Hn.
  - split; [lia|]. intros H. destruct H. eauto.
Qed.

Lemma contains_true_iff sub s : Py.contains sub s = true <-> occurs sub s.
Proof.
  unfold Py.contains. rewrite negb_true_iff, Z.eqb_neq, find_none_iff.
  split; [|tauto]. intros H. apply occurs_iff.
  destruct (find_from_spec sub s 0) as [[H1 H2]|[(n & H1 & H2 & H3 & H4)|?]]; [| |lia].
  - destruct H. rewrite occurs_iff. intros [n Hn]. by rewrite H2 in Hn.
  - eauto.
Qed.

Lemma contains_false_iff sub s : Py.contains sub s = false <-> ~ occurs sub s.
Proof.
  rewrite <- contains_true_iff. destruct (Py.contains sub s); split; done.
Qed.

(** When [sub] occurs, [find] is the length of the text before its first
    occurrence. *)
Lemma find_first_occurrence s sub :
  occurs sub s ->
  exists pre post,
    first_occurrence sub s pre post /\ Py.find s sub = Z.of_nat (length pre).
Proof.
  intros Hocc. unfold Py.find.
  destruct (find_from_spec sub s 0) as [[H1 H2]|[(n & H1 & H2 & H3 & H4)|?]]; [| |lia].
  - apply occurs_iff in Hocc as [n Hn]. by rewrite H2 in Hn.
  - apply startswith_inv in H3 as [t Ht].
    exists (take n s), t. split; [split|].
    + by rewrite <- Ht, take_drop.
    + intros pre' post' Hs. rewrite length_take.
      destruct (decide (length pre' < n)%nat) as [Hlt|]; [|lia].
      specialize (H4 _ Hlt). rewrite Hs, drop_app_length, startswith_app in H4.
      done.
    + rewrite length_take. lia.
Qed.

Lemma first_occurrence_find sub s pre post :
  first_occurrence sub s pre post -> Py.find s sub = Z.of_nat (length pre).
Proof.
  intros [Hs Hmin].
  destruct (find_first_occurrence s sub) as (pre' & post' & [Hs' Hmin'] & ->).
  { by exists pre, post. }
  pose proof (Hmin _ _ Hs'). pose proof (Hmin' _ _ Hs). lia.
Qed.

Lemma slice_to s (n : nat) :
  (n <= length s)%nat -> Py.slice s None (Some (Z.of_nat n)) = take n s.
Proof.
  intros Hn. unfold Py.slice, Py.slice_bound.
  destruct (Z.ltb_spec (Z.of_nat n) 0); [lia|].
  rewrite Z.min_l by lia. rewrite Z.sub_0_r, Nat2Z.id. done.
Qed.

Lemma slice_from s (n : nat) :
  (n <= length s)%nat -> Py.slice s (Some (Z.of_nat n)) None = drop n s.
Proof.
  intros Hn. unfold Py.slice, Py.slice_bound.
  destruct (Z.ltb_spec (Z.of_nat n) 0); [lia|].
  rewrite Z.min_l by lia. rewrite Nat2Z.id.
  apply take_ge. rewrite length_drop. lia.
Qed.

Lemma slice_between s (a b : nat) :
  (a <= b)%nat -> (b <= length s)%nat ->
  Py.slice s (Some (Z.of_nat a)) (Some (Z.of_nat b)) = take (b - a) (drop a s).
Proof.
  intros Hab Hb. unfold Py.slice, Py.slice_bound.
  destruct (Z.ltb_spec (Z.of_nat a) 0); [lia|].
  destruct (Z.ltb_spec (Z.of_nat b) 0); [lia|].
  rewrite !Z.min_l by lia. rewrite Nat2Z.id. f_equal. lia.
Qed.

(** A slice whose upper bound is not above its lower bound is empty. *)
Lemma slice_empty s (a b : Z) :
  0 <= b <= a -> Py.slice s (Some a) (Some b) = [].
Proof.
  intros Hab. unfold Py.slice, Py.slice_bound.
  destruct (Z.ltb_spec a 0); [lia|]. destruct (Z.ltb_spec b 0); [lia|].
  replace (Z.to_nat _) with 0%nat by lia. done.
Qed.

(** The splice of [new_content], in terms of the text around the anchor. *)
Lemma splice_at s (n : nat) content :
  (n <= length s)%nat ->
  Py.slice s None (Some (Z.of_nat n)) ++ content ++ [nl; nl]
    ++ Py.slice s (Some (Z.of_nat n)) None
  = take n s ++ content ++ [nl; nl] ++ drop n s.
Proof. intros Hn. by rewrite slice_to, slice_from. Qed.

(** ** Facts about the converter monad *)

Ltac run_monad :=
  unfold mbind, M_bind, mret, M_ret, try_except, try_except_OSError,
    reading, reading_result, writing, lift, raise, print; simpl.

Lemma log_warning {FS : Type} {RT : Runtime FS} self (message : str) (w : World FS) :
  log self message WARNING w
  = (Ok tt, mk_world (w_fs w) (w_out w ++ [L "WARNING: " ++ message])).
Proof. unfold log. by rewrite orb_true_r. Qed.

Lemma log_error {FS : Type} {RT : Runtime FS} self (message : str) (w : World FS) :
  log self message ERROR w
  = (Ok tt, mk_world (w_fs w) (w_out w ++ [L "ERROR: " ++ message])).
Proof. unfold log. by rewrite orb_true_r. Qed.

(** Logging never raises and never touches the file system. *)
Lemma log_total {FS : Type} {RT : Runtime FS} self (message level : str) (w : World FS) :
  exists lines,
    log self message level w = (Ok tt, mk_world (w_fs w) (w_out w ++ lines)).
Proof.
  unfold log. destruct (_ || _).
  - by eexists [_].
  - exists []. rewrite app_nil_r. by destruct w.
Qed.

(** ** Splicing the body into the template (C6) *)

Lemma new_content_at anchor template_ content pre post :
  first_occurrence anchor template_ pre post ->
  Py.slice template_ None (Some (Py.find template_ anchor)) ++ content
    ++ [nl; nl] ++ Py.slice template_ (Some (Py.find template_ anchor)) None
  = pre ++ content ++ [nl; nl] ++ anchor ++ post.
Proof.
  intros Hfirst. rewrite (first_occurrence_find _ _ _ _ Hfirst).
  destruct Hfirst as [-> _].
  rewrite splice_at by (rewrite length_app; lia).
  by rewrite take_app_length, drop_app_length.
Qed.

(** C6. During composition, if the template contains the
    bibliography-style directive, the extracted body followed by a blank
    line is spliced immediately before the first occurrence of that
    directive; otherwise, if the template contains the end-of-document
    marker, the body followed by a blank line is spliced immediately
    before the first occurrence of that marker. *)
Theorem C6_body_spliced_before_anchor (template_ content : str) :
  (occurs BIBLIOGRAPHYSTYLE template_ ->
   exists pre post,
     first_occurrence BIBLIOGRAPHYSTYLE template_ pre post
     /\ new_content template_ content
        = pre ++ content ++ [nl; nl] ++ BIBLIOGRAPHYSTYLE ++ post)
  /\ (~ occurs BIBLIOGRAPHYSTYLE template_ ->
      occurs END_DOCUMENT template_ ->
      exists pre post,
        first_occurrence END_DOCUMENT template_ pre post
        /\ new_content template_ content
           = pre ++ content ++ [nl; nl] ++ END_DOCUMENT ++ post).
Proof.
  split.
  - intros Hbib.
    destruct (find_first_occurrence _ _ Hbib) as (pre & post & Hfirst & _).
    exists pre, post. split; [done|]. unfold new_content.
    apply contains_true_iff in Hbib. rewrite Hbib.
    by apply new_content_at.
  - intros Hnobib Hend.
    destruct (find_first_occurrence _ _ Hend) as (pre & post & Hfirst & _).
    exists pre, post. split; [done|]. unfold new_content.
    apply contains_false_iff in Hnobib. rewrite Hnobib.
    by apply new_content_at.
Qed.

Lemma C6_witness_bibliography :
  exists pre post,
    first_occurrence BIBLIOGRAPHYSTYLE
      (L "\begin{document}\bibliographystyle{plain}\end{document}") pre post
    /\ new_content (L "\begin{document}\bibliographystyle{plain}\end{document}")
         (L "Hello world.")
       = pre ++ L "Hello world." ++ [nl; nl] ++ BIBLIOGRAPHYSTYLE ++ post.
Proof.
  apply (proj1 (C6_body_spliced_before_anchor
                  (L "\begin{document}\bibliographystyle{plain}\end{document}")
                  (L "Hello world."))).
  exists (L "\begin{document}"), (L "{plain}\end{document}"). reflexivity.
Defined.

(** ** The tag placeholder (C9) *)

Lemma replace_from_absent old new s :
  (forall n, Py.startswith old (drop n s) = false) ->
  Py.replace_from old new s 0 = s.
Proof.
  induction s as [|c s IH]; intros H; simpl; [done|].
  pose proof (H 0%nat) as H0. simpl in H0. rewrite H0. f_equal.
  apply IH. intros n. apply (H (S n)).
Qed.

Lemma replace_absent s old new : ~ occurs old s -> Py.replace s old new = s.
Proof.
  intros H. destruct old as [|a old].
  - destruct H. by exists [], s.
  - simpl. apply replace_from_absent. intros n.
    destruct (Py.startswith (a :: old) (drop n s)) eqn:E; [|done].
    destruct H. apply occurs_iff. eauto.
Qed.

Lemma tags_comment_contains_tags s : occurs TAGS_COMMENT s -> occurs TAGS s.
Proof.
  intros (pre & post & ->). exists (pre ++ L "%<TAGs>: "), post.
  by rewrite <- !app_assoc.
Qed.

(** C9. For every template not containing the token [<TAGS>] after the
    metadata substitution, the secondary substitution aimed at the
    tag-comment line [%<TAGs>: <TAGS>] changes nothing (that line itself
    contains [<TAGS>]), so [inject_personal_info] returns the substituted
    template as it is: the folder name is dropped. *)
Theorem C9_tag_dropped_without_token {FS : Type} {RT : Runtime FS}
    (self : Tex2TexConverter) (template_ : str) (tex_file : Path.t)
    (folder_name r : str) :
  substitute_metadata self template_ tex_file = Ok r ->
  ~ occurs TAGS r ->
  Py.replace r TAGS_COMMENT (L "%<TAGs>: " ++ folder_name) = r
  /\ inject_personal_info self template_ tex_file folder_name = Ok r.
Proof.
  intros Hsub Hno.
  assert (Py.replace r TAGS_COMMENT (L "%<TAGs>: " ++ folder_name) = r) as Hid.
  { apply replace_absent. intros H. by apply Hno, tags_comment_contains_tags. }
  split; [done|].
  unfold inject_personal_info. rewrite Hsub. simpl. unfold add_tag.
  apply contains_false_iff in Hno. by rewrite Hno, Hid.
Qed.

Lemma C9_witness :
  Py.replace (L "\title{March 15} by Unknown Author") TAGS_COMMENT
    (L "%<TAGs>: " ++ L "2024")
  = L "\title{March 15} by Unknown Author"
  /\ inject_personal_info demo_self
       (L "\title{<MONTH_NAME> <DAY>} by <AUTHOR>")
       (P "/posts/2024/2024-03-15-notes.tex") (L "2024")
     = Ok (L "\title{March 15} by Unknown Author").
Proof.
  apply (C9_tag_dropped_without_token (RT := SimpleFS.runtime)).
  - reflexivity.
  - apply contains_false_iff. reflexivity.
Defined.

(** ** Documents without a body (C7) *)

(** C7. For every document lacking the begin-body marker or lacking the
    end-body marker, extraction returns the failure signal [None] after
    logging a warning, [convert_file] returns [False], and no output file
    is written: the file system is left as it was. *)
Theorem C7_missing_marker_skips_file {FS : Type} {RT : Runtime FS}
    (self : Tex2TexConverter) (tex_file output_dir : Path.t)
    (folder_name : str) (use_symlinks : bool) (w : World FS) (content : str) :
  read_text (w_fs w) tex_file = Ok content ->
  ~ occurs BEGIN_DOCUMENT content \/ ~ occurs END_DOCUMENT content ->
  let warned :=
    mk_world (w_fs w)
      (w_out w ++ [L "WARNING: No document environment found in "
                     ++ Path.name tex_file]) in
  extract_content self tex_file w = (Ok None, warned)
  /\ convert_file self tex_file output_dir folder_name use_symlinks w
     = (Ok false, warned).
Proof.
  intros Hread Hmiss warned.
  assert (extract_content self tex_file w = (Ok None, warned)) as Hext.
  { unfold extract_content. run_monad. rewrite Hread.
    assert ((Py.find content BEGIN_DOCUMENT =? -1)
            || (Py.find content END_DOCUMENT =? -1) = true) as ->.
    { apply orb_true_iff. rewrite !Z.eqb_eq, !find_none_iff. done. }
    by rewrite log_warning. }
  split; [done|].
  unfold convert_file. run_monad. by rewrite Hext.
Qed.

Lemma C7_witness :
  let w := mk_world [(P "/posts/a.tex", SimpleFS.File (L "no body here\end{document}"))] [] in
  let warned :=
    mk_world (w_fs w)
      (w_out w ++ [L "WARNING: No document environment found in "
                     ++ Path.name (P "/posts/a.tex")]) in
  extract_content demo_self (P "/posts/a.tex") w = (Ok None, warned)
  /\ convert_file demo_self (P "/posts/a.tex") (P "/out") (L "posts") false w
     = (Ok false, warned).
Proof.
  apply (C7_missing_marker_skips_file (RT := SimpleFS.runtime) demo_self
           (P "/posts/a.tex") (P "/out") (L "posts") false
           (mk_world [(P "/posts/a.tex", SimpleFS.File (L "no body here\end{document}"))] [])
           (L "no body here\end{document}")).
  - reflexivity.
  - left. apply contains_false_iff. reflexivity.
Defined.

(** ** Resolving an asset reference (C8) *)

Lemma first_existing_split {FS : Type} {RT : Runtime FS} (fs : FS)
    (before : list Path.t) (p : Path.t) (after : list Path.t) :
  Forall (fun q => path_exists fs q = Ok false) before ->
  first_existing fs (before ++ p :: after)
  = match path_exists fs p with
    | Ok true => Ok (Some p)
    | Ok false => first_existing fs after
    | Raise e => Raise e
    end.
Proof. induction 1 as [|q before Hq _ IH]; simpl; [done|]. by rewrite Hq. Qed.

Lemma first_existing_none {FS : Type} {RT : Runtime FS} (fs : FS) paths :
  Forall (fun p => path_exists fs p = Ok false) paths ->
  first_existing fs paths = Ok None.
Proof. induction 1 as [|p paths Hp _ IH]; simpl; [done|]. by rewrite Hp. Qed.

(** C8. Resolution tries four candidate locations in order: the
    document's directory, its [assets/figures] subdirectory, its
    [figures] subdirectory, then the [assets/figures] subdirectory of
    the parent directory. When the candidates before [p] are tested and
    found absent, then: if [p] is found, [p] is returned; if the test of
    [p] raises, the exception leaves [_resolve_asset_path] and the copy
    loop, and no warning is logged. If all four are tested and found
    absent the reference is unresolved, a warning is logged, and nothing
    is produced for that asset: the file system and the list of copied
    files are unchanged. *)
Theorem C8_asset_resolution_order {FS : Type} {RT : Runtime FS}
    (self : Tex2TexConverter) (asset_path : str)
    (tex_file output_dir : Path.t) (copied_files : list Path.t)
    (w : World FS) :
  let d := Path.parent tex_file in
  let candidates :=
    [ d // asset_path;
      d // L "assets" // L "figures" // asset_path;
      d // L "figures" // asset_path;
      Path.parent d // L "assets" // L "figures" // asset_path ] in
  (forall before p after,
      candidates = before ++ p :: after ->
      Forall (fun q => path_exists (w_fs w) q = Ok false) before ->
      (path_exists (w_fs w) p = Ok true ->
       _resolve_asset_path asset_path tex_file w = (Ok (Some p), w))
      /\ (forall e,
            path_exists (w_fs w) p = Raise e ->
            _resolve_asset_path asset_path tex_file w = (Raise e, w)
            /\ copy_one self tex_file output_dir copied_files asset_path w
               = (Raise e, w)))
  /\ (Forall (fun p => path_exists (w_fs w) p = Ok false) candidates ->
      _resolve_asset_path asset_path tex_file w = (Ok None, w)
      /\ copy_one self tex_file output_dir copied_files asset_path w
         = (Ok copied_files,
            mk_world (w_fs w)
              (w_out w ++ [L "WARNING: Asset not found: " ++ asset_path]))).
Proof.
  intros d candidates.
  assert (_resolve_asset_path asset_path tex_file w
          = (first_existing (w_fs w) candidates, w)) as Hres by done.
  split.
  - intros before p after Hsplit Hbefore.
    rewrite Hres, Hsplit, (first_existing_split _ _ _ _ Hbefore).
    split.
    + by intros ->.
    + intros e He. rewrite He. split; [done|].
      unfold copy_one. unfold mbind at 1, M_bind at 1.
      fold candidates in Hres. rewrite Hres, Hsplit.
      by rewrite (first_existing_split _ _ _ _ Hbefore), He.
  - intros Hnone. rewrite Hres, (first_existing_none _ _ Hnone).
    split; [done|].
    unfold copy_one. unfold mbind at 1, M_bind at 1.
    rewrite Hres, (first_existing_none _ _ Hnone). run_monad.
    by rewrite log_warning.
Qed.

Lemma C8_witness :
  let w := mk_world demo_fs [] in
  _resolve_asset_path (L "missing.png") (P "/posts/2024/2024-03-15-notes.tex") w
  = (Ok None, w)
  /\ copy_one demo_self (P "/posts/2024/2024-03-15-notes.tex") (P "/out") []
       (L "missing.png") w
     = (Ok [],
        mk_world demo_fs [L "WARNING: Asset not found: " ++ L "missing.png"]).
Proof.
  apply (proj2 (C8_asset_resolution_order (RT := SimpleFS.runtime) demo_self
                  (L "missing.png") (P "/posts/2024/2024-03-15-notes.tex")
                  (P "/out") [] (mk_world demo_fs []))).
  repeat constructor.
Defined.

(** C8 as stated fails for a reference that cannot be tested. The
    reference is a name of 256 characters: none of the four candidates
    is in the file system, but the first test raises, so the reference
    is not reported as unresolved and no warning is logged; the
    exception leaves the copy loop and [copy_assets], and [convert_file]
    returns [False] for the document although its output file is
    written. *)
Lemma C8_counterexample :
  let tex := P "/posts/a.tex" in
  let ref := repeat "a"%char 256 in
  let w := mk_world long_reference_fs [] in
  let e := SimpleFS.os_error "[Errno 36] File name too long" in
  Forall (fun p => SimpleFS.lookup long_reference_fs p = None)
    (possible_paths ref tex)
  /\ _resolve_asset_path ref tex w = (Raise e, w)
  /\ copy_one demo_self tex (P "/out") [] ref w = (Raise e, w)
  /\ fst (copy_assets demo_self tex (P "/out") false w) = Raise e
  /\ (let '(r, w') := convert_file demo_self tex (P "/out") (L "posts") false w in
      r = Ok false
      /\ SimpleFS.lookup (w_fs w') (P "/out/a.tex") <> None
      /\ w_out w' = [L "ERROR: Error converting a.tex: "
                       ++ L "[Errno 36] File name too long"]).
Proof. vm_compute. repeat split; try reflexivity; repeat constructor; done. Qed.

(** ** Symbolic-link mode without a shared assets directory (C1) *)

Lemma find_asset_references_total {FS : Type} {RT : Runtime FS}
    (self : Tex2TexConverter) (tex_file : Path.t) (w : World FS) :
  exists refs lines,
    _find_asset_references self tex_file w
    = (Ok refs, mk_world (w_fs w) (w_out w ++ lines)).
Proof.
  unfold _find_asset_references. run_monad. destruct w as [fs out]. simpl.
  destruct (read_text fs tex_file) as [content|e].
  - eexists _, []. by rewrite (app_nil_r out).
  - rewrite log_error. simpl. by eexists _, [_].
Qed.

Lemma find_root_dir_none {FS : Type} {RT : Runtime FS} (fs : FS) root_ rparts :
  (forall n,
     path_exists fs (Path.mk root_ (take n (rev rparts)) // L "assets")
     = Ok false) ->
  find_root_dir fs root_ rparts = Ok (Path.mk root_ []).
Proof.
  induction rparts as [|a up IH]; intros Hnone; cbn [find_root_dir]; [done|].
  pose proof (Hnone (length (rev (a :: up)))) as Hhere.
  rewrite firstn_all in Hhere. rewrite Hhere.
  apply IH. intros n.
  specialize (Hnone (min n (length up))).
  cbn [rev] in Hnone.
  rewrite take_app_le in Hnone by (rewrite length_rev; lia).
  destruct (decide (n <= length up)%nat).
  - by rewrite Nat.min_l in Hnone.
  - rewrite Nat.min_r in Hnone by lia.
    rewrite take_ge by (rewrite length_rev; lia).
    by rewrite take_ge in Hnone by (rewrite length_rev; lia).
Qed.

(** C1, as the code has it. In symbolic-link mode, if no [assets]
    directory is found while walking upward from the document's directory
    to the root, [copy_assets] copies nothing: it returns the empty list
    and leaves the file system as it was, and when the document has asset
    references the last line it prints is the warning
    [No assets directory found]. *)
Theorem C1_symlink_mode_without_assets_dir {FS : Type} {RT : Runtime FS}
    (self : Tex2TexConverter) (tex_file output_dir : Path.t) (w : World FS) :
  (forall n,
     path_exists (w_fs w) (upward (Path.parent tex_file) n // L "assets")
     = Ok false) ->
  exists lines,
    copy_assets self tex_file output_dir true w
    = (Ok [], mk_world (w_fs w) (w_out w ++ lines))
    /\ (forall refs w1,
          _find_asset_references self tex_file w = (Ok refs, w1) ->
          refs <> [] ->
          last lines = Some (L "WARNING: No assets directory found")).
Proof.
  intros Hnone.
  destruct (find_asset_references_total self tex_file w) as (refs & l1 & Hrefs).
  unfold copy_assets. unfold mbind at 1, M_bind at 1. rewrite Hrefs.
  destruct refs as [|r refs].
  - unfold mbind, M_bind.
    match goal with |- context [log self ?m INFO ?w0] =>
      destruct (log_total self m INFO w0) as [l2 ->] end.
    simpl. exists (l1 ++ l2). rewrite app_assoc. split; [done|].
    intros refs' w1 [= <- _]. done.
  - unfold mbind at 1, M_bind at 1.
    match goal with |- context [log self ?m INFO ?w0] =>
      destruct (log_total self m INFO w0) as [l2 ->] end.
    unfold try_except_OSError, link_assets.
    unfold mbind, M_bind, reading_result. cbn [w_fs w_out].
    rewrite find_root_dir_none
      by (intros n; rewrite rev_involutive; apply Hnone).
    change (Path.mk (Path.root (Path.parent tex_file)) [])
      with (upward (Path.parent tex_file) 0).
    rewrite Hnone. rewrite log_warning. simpl.
    exists (l1 ++ l2 ++ [L "WARNING: No assets directory found"]).
    rewrite <- !app_assoc. split; [done|].
    intros _ _ _ _. by rewrite !app_assoc, last_snoc.
Qed.

Lemma C1_no_assets_dir n :
  path_exists C1_fs (upward (Path.parent (P "/posts/2024/a.tex")) n // L "assets")
  = Ok false.
Proof. destruct n as [|[|[|n]]]; reflexivity. Qed.

Lemma C1_witness :
  exists lines,
    copy_assets demo_self (P "/posts/2024/a.tex") (P "/out") true
      (mk_world C1_fs [])
    = (Ok [], mk_world C1_fs ([] ++ lines))
    /\ (forall refs w1,
          _find_asset_references demo_self (P "/posts/2024/a.tex")
            (mk_world C1_fs []) = (Ok refs, w1) ->
          refs <> [] ->
          last lines = Some (L "WARNING: No assets directory found")).
Proof.
  apply (C1_symlink_mode_without_assets_dir (RT := SimpleFS.runtime) demo_self
           (P "/posts/2024/a.tex") (P "/out") (mk_world C1_fs [])).
  apply C1_no_assets_dir.
Defined.

(** C1 as stated fails. The document [/posts/2024/a.tex] refers to
    [fig1.png], which lies beside it; no directory above has an [assets]
    entry. Copy mode copies the figure to [/out/fig1.png]; symbolic-link
    mode prints the warning, returns the empty list and leaves [/out]
    without the figure. *)
Lemma C1_counterexample :
  let tex := P "/posts/2024/a.tex" in
  let w := mk_world C1_fs [] in
  (forall n,
     path_exists C1_fs (upward (Path.parent tex) n // L "assets") = Ok false)
  /\ _resolve_asset_path (L "fig1.png") tex w
     = (Ok (Some (P "/posts/2024/fig1.png")), w)
  /\ copy_assets demo_self tex (P "/out") false w
     = (Ok [P "/out/fig1.png"],
        mk_world (C1_fs ++ [(P "/out/fig1.png", SimpleFS.File (L "PNG"))]) [])
  /\ copy_assets demo_self tex (P "/out") true w
     = (Ok [], mk_world C1_fs [L "WARNING: No assets directory found"])
  /\ copy_assets demo_self tex (P "/out") true w
     <> copy_assets demo_self tex (P "/out") false w.
Proof.
  split; [apply C1_no_assets_dir|].
  split; [reflexivity|]. split; [reflexivity|]. split; [reflexivity|].
  discriminate.
Qed.

(** ** The date in the file name (C2, C3) *)

Ltac date_step H :=
  match type of H with
  | context [drop 0 ?s] => rewrite (drop_0 s) in H; simpl in H
  | context [match ?s with [] => _ | _ :: _ => _ end] =>
      is_var s; destruct s as [|? s]; simpl in H; try discriminate H
  | context [if Py.isdigit ?c then _ else _] =>
      destruct (Py.isdigit c) eqn:?; simpl in H; try discriminate H
  | context [Py.eqb_char ?a ?b] =>
      let E := fresh "E" in
      destruct (Py.eqb_char a b) eqn:E; simpl in H; try discriminate H;
      try (apply eqb_char_eq in E; subst)
  end.

(** A match of the date pattern at the start of [s] reads a text of the
    shape [YYYY-M-D] there, and its groups are the three numbers. *)
Lemma date_match_inv (s : str) caps n rest :
  Re.match_at Re.date_re s = Some (caps, n, rest) ->
  exists y m d,
    caps = [(3%nat, d); (2%nat, m); (1%nat, y)]
    /\ date_shaped y m d /\ s = date_text y m d ++ rest.
Proof.
  unfold Re.match_at, Re.date_re, Re.seqs, Re.digit, Re.Opt. simpl.
  intros H.
  repeat date_step H.
  all: injection H as <- <- <-.
  all: eexists _, _, _; split; [reflexivity|].
  all: split; [|reflexivity].
  all: unfold date_shaped, all_digits; simpl.
  all: repeat split; try lia; repeat constructor; assumption.
Qed.

Lemma date_match_none (s : str) :
  ~ starts_with_date s -> Re.match_at Re.date_re s = None.
Proof.
  intros Hno. destruct (Re.match_at Re.date_re s) as [[[caps n] rest]|] eqn:E; [|done].
  destruct Hno. apply date_match_inv in E as (y & m & d & _ & Hshape & ->).
  by exists y, m, d, rest.
Qed.

Lemma isdigit_dash : Py.isdigit "-" = false.
Proof. reflexivity. Qed.

(** At a text of the shape [YYYY-M-D] the pattern matches, and reads the
    whole day unless a one-digit day is followed by a further digit. *)
Lemma date_match_here y m d post :
  date_shaped y m d ->
  (length d = 1%nat -> forall c, head post = Some c -> Py.isdigit c = false) ->
  exists n,
    Re.match_at Re.date_re (date_text y m d ++ post)
    = Some ([(3%nat, d); (2%nat, m); (1%nat, y)], n, post).
Proof.
  intros (Hy & Hm & Hd & Dy & Dm & Dd) Hgreedy.
  destruct y as [|y0 [|y1 [|y2 [|y3 [|]]]]]; simpl in Hy; try lia.
  destruct m as [|m0 [|m1 [|]]]; simpl in Hm; try lia;
    destruct d as [|d0 [|d1 [|]]]; simpl in Hd; try lia.
  all: repeat match goal with
              | H : all_digits (_ :: _) |- _ => inversion H; clear H; subst
              | H : Forall _ (_ :: _) |- _ => inversion H; clear H; subst
              end.
  all: unfold Re.match_at, Re.date_re, Re.seqs, Re.digit, Re.Opt, date_text.
  all: simpl.
  all: repeat match goal with
              | H : Py.isdigit ?c = true |- context [Py.isdigit ?c] =>
                  rewrite H; simpl
              end.
  all: rewrite ?isdigit_dash, ?eqb_char_refl; simpl.
  all: repeat match goal with
              | H : Py.isdigit ?c = true |- context [Py.isdigit ?c] =>
                  rewrite H; simpl
              end.
  all: rewrite ?isdigit_dash, ?eqb_char_refl; simpl.
  all: repeat match goal with
              | H : Py.isdigit ?c = true |- context [Py.isdigit ?c] =>
                  rewrite H; simpl
              end.
  all: try (eexists; reflexivity).
  all: destruct post as [|c post]; simpl; try (eexists; reflexivity).
  all: rewrite (Hgreedy eq_refl c eq_refl); eexists; reflexivity.
Qed.

Lemma search_from_skip r pre t i :
  (forall n, (n < length pre)%nat -> Re.match_at r (drop n (pre ++ t)) = None) ->
  Re.search_from r (pre ++ t) i = Re.search_from r t (i + length pre).
Proof.
  revert i. induction pre as [|c pre IH]; intros i H; simpl.
  - by rewrite Nat.add_0_r.
  - pose proof (H 0%nat ltac:(simpl; lia)) as H0. simpl in H0. rewrite H0.
    rewrite IH; [f_equal; lia|].
    intros n Hn. apply (H (S n)). simpl. lia.
Qed.

Lemma search_from_here r s i caps n rest :
  Re.match_at r s = Some (caps, n, rest) ->
  Re.search_from r s i = Some (i, caps, rest).
Proof. intros H. destruct s; cbn [Re.search_from]; by rewrite H. Qed.

Lemma digit_value_nonneg c : Py.isdigit c = true -> 0 <= Py.digit_value c <= 9.
Proof.
  unfold Py.isdigit, Py.digit_value. intros H.
  apply andb_true_iff in H as [H1 H2].
  apply Nat.leb_le in H1, H2. lia.
Qed.

Lemma int_of_digits_bound m :
  (1 <= length m <= 2)%nat -> all_digits m -> 0 <= Py.int_of_digits m <= 99.
Proof.
  intros Hm Dm. destruct m as [|m0 [|m1 [|]]]; simpl in Hm; try lia.
  - inversion Dm as [|? ? H0 _]; subst.
    apply digit_value_nonneg in H0. unfold Py.int_of_digits. simpl. lia.
  - inversion Dm as [|? ? H0 Dm']; subst. inversion Dm' as [|? ? H1 _]; subst.
    apply digit_value_nonneg in H0, H1. unfold Py.int_of_digits. simpl. lia.
Qed.

Lemma month_name_in_range (i : Z) :
  -1 <= i <= 11 -> is_Some (Py.index month_names i).
Proof.
  intros Hi. unfold Py.index.
  change (Z.of_nat (length month_names)) with 12.
  destruct (Z.ltb_spec i 0).
  - replace i with (-1) by lia. by eexists.
  - destruct (Z.ltb_spec i 0); [lia|]. destruct (Z.leb_spec 12 i); [lia|].
    simpl. apply lookup_lt_is_Some. simpl. lia.
Qed.

Lemma month_name_out_of_range (i : Z) : 12 <= i -> Py.index month_names i = None.
Proof.
  intros Hi. unfold Py.index.
  change (Z.of_nat (length month_names)) with 12.
  destruct (Z.ltb_spec i 0); [lia|]. destruct (Z.ltb_spec i 0); [lia|].
  destruct (Z.leb_spec 12 i); [done|lia].
Qed.

(** C2, as the code has it. For every file name whose date pattern
    yields a month value above 12, [get_date_info] fails with the
    out-of-range lookup error; a month value of 0 does not fail: the
    index -1 counts from the end of the list and the month name is
    December. *)
Theorem C2_month_lookup_unguarded {FS : Type} {RT : Runtime FS}
    (tex_file : Path.t) (i : nat) (caps : Re.captures) (rest : str) :
  Re.search Re.date_re (Path.stem tex_file) = Some (i, caps, rest) ->
  let month_num := Py.int_of_digits (default [] (Re.group caps 2)) in
  (12 < month_num ->
   get_date_info tex_file
   = Raise (mk_exn IndexError (L "list index out of range")))
  /\ (month_num = 0 ->
      exists info,
        get_date_info tex_file = Ok info
        /\ di_month_name info = L "December").
Proof.
  intros Hsearch month_num. unfold get_date_info, date_fields.
  rewrite Hsearch. fold month_num. split.
  - intros Hbig. by rewrite month_name_out_of_range by lia.
  - intros ->. simpl. by eexists.
Qed.

Lemma C2_witness :
  get_date_info (RT := SimpleFS.runtime) (P "/posts/2024-13-01.tex")
  = Raise (mk_exn IndexError (L "list index out of range")).
Proof.
  apply (C2_month_lookup_unguarded (RT := SimpleFS.runtime)
           (P "/posts/2024-13-01.tex") 0
           [(3%nat, L "01"); (2%nat, L "13"); (1%nat, L "2024")] []).
  - reflexivity.
  - reflexivity.
Defined.

(** C2 as stated fails for the month value 0, which is outside 1 to 12:
    [2024-0-15.tex] gives no error but the month name December. *)
Lemma C2_counterexample :
  Re.search Re.date_re (Path.stem (P "/posts/2024-0-15.tex"))
  = Some (0%nat, [(3%nat, L "15"); (2%nat, L "0"); (1%nat, L "2024")], [])
  /\ Py.int_of_digits (L "0") = 0
  /\ get_date_info (RT := SimpleFS.runtime) (P "/posts/2024-0-15.tex")
     = Ok {| di_year := L "2024"; di_month := L "0"; di_day := L "15";
             di_month_name := L "December"; di_day_number := L "15" |}.
Proof. repeat split; reflexivity. Qed.

(** C3, as the code has it. For every file name containing a text of
    the shape [YYYY-M-D] such that no text of that shape starts earlier
    in the name, and such that a one-digit day is not followed by a
    further digit, the year, month and day read by [get_date_info] are
    exactly those of that text, whatever else precedes or follows it;
    the dictionary is returned whenever the month is at most 12. *)
Theorem C3_date_read_from_name {FS : Type} {RT : Runtime FS}
    (tex_file : Path.t) (pre y m d post : str) :
  Path.stem tex_file = pre ++ date_text y m d ++ post ->
  date_shaped y m d ->
  (forall n, (n < length pre)%nat ->
             ~ starts_with_date (drop n (Path.stem tex_file))) ->
  (length d = 1%nat -> forall c, head post = Some c -> Py.isdigit c = false) ->
  date_fields tex_file = (y, Py.int_of_digits m, Py.int_of_digits d)
  /\ (Py.int_of_digits m <= 12 ->
      exists month_name,
        get_date_info tex_file
        = Ok {| di_year := y;
                di_month := Py.str_of_Z (Py.int_of_digits m);
                di_day := Py.str_of_Z (Py.int_of_digits d);
                di_month_name := month_name;
                di_day_number := Py.str_of_Z (Py.int_of_digits d) |}).
Proof.
  intros Hstem Hshape Hleft Hgreedy.
  assert (date_fields tex_file = (y, Py.int_of_digits m, Py.int_of_digits d))
    as Hfields.
  { unfold date_fields, Re.search. rewrite Hstem.
    rewrite search_from_skip.
    - destruct (date_match_here y m d post Hshape Hgreedy) as [n Hn].
      by rewrite (search_from_here _ _ _ _ _ _ Hn).
    - intros n Hn. apply date_match_none. rewrite <- Hstem. by apply Hleft. }
  split; [done|].
  intros Hmonth. unfold get_date_info. rewrite Hfields.
  destruct Hshape as (_ & Hm & _ & _ & Dm & _).
  pose proof (int_of_digits_bound m Hm Dm) as Hb.
  destruct (month_name_in_range (Py.int_of_digits m - 1)) as [name ->]; [lia|].
  by exists name.
Qed.

Lemma C3_witness :
  date_fields (RT := SimpleFS.runtime) (P "/posts/notes-2024-3-15-draft.tex")
  = (L "2024", Py.int_of_digits (L "3"), Py.int_of_digits (L "15"))
  /\ (Py.int_of_digits (L "3") <= 12 ->
      exists month_name,
        get_date_info (RT := SimpleFS.runtime) (P "/posts/notes-2024-3-15-draft.tex")
        = Ok {| di_year := L "2024";
                di_month := Py.str_of_Z (Py.int_of_digits (L "3"));
                di_day := Py.str_of_Z (Py.int_of_digits (L "15"));
                di_month_name := month_name;
                di_day_number := Py.str_of_Z (Py.int_of_digits (L "15")) |}).
Proof.
  apply (C3_date_read_from_name (RT := SimpleFS.runtime)
           (P "/posts/notes-2024-3-15-draft.tex")
           (L "notes-") (L "2024") (L "3") (L "15") (L "-draft")).
  - reflexivity.
  - unfold date_shaped, all_digits. simpl.
    repeat split; try lia; repeat constructor.
  - intros n Hn (y & m & d & rest & (Hy & _ & _ & Dy & _) & Hs).
    destruct y as [|y0 [|y1 [|y2 [|y3 [|]]]]]; simpl in Hy; try lia.
    inversion Dy as [|? ? D0 _]; subst.
    do 6 (destruct n as [|n]; [by injection Hs as <-|]).
    simpl in Hn. lia.
  - simpl. lia.
Defined.

(** C3 as stated fails. [2023-01-01-to-2024-02-02] contains the text
    [2024-02-02], yet the date read is that of the earlier text
    [2023-01-01]; and [2024-1-23] contains the text [2024-1-2] followed
    by a digit, yet the day read is 23. *)
Lemma C3_counterexample :
  Path.stem (P "/posts/2023-01-01-to-2024-02-02.tex")
  = L "2023-01-01-to-" ++ date_text (L "2024") (L "02") (L "02") ++ []
  /\ date_shaped (L "2024") (L "02") (L "02")
  /\ date_fields (RT := SimpleFS.runtime) (P "/posts/2023-01-01-to-2024-02-02.tex")
     = (L "2023", 1, 1)
  /\ get_date_info (RT := SimpleFS.runtime) (P "/posts/2023-01-01-to-2024-02-02.tex")
     = Ok {| di_year := L "2023"; di_month := L "1"; di_day := L "1";
             di_month_name := L "January"; di_day_number := L "1" |}
  /\ Path.stem (P "/posts/2024-1-23.tex")
     = [] ++ date_text (L "2024") (L "1") (L "2") ++ L "3"
  /\ date_shaped (L "2024") (L "1") (L "2")
  /\ date_fields (RT := SimpleFS.runtime) (P "/posts/2024-1-23.tex")
     = (L "2024", 1, 23).
Proof.
  unfold date_shaped, all_digits.
  repeat split; try reflexivity; simpl; try lia; repeat constructor.
Qed.

(** ** Extracting the body again (C4) *)

Lemma search_none_all r s i :
  Re.search_from r s i = None -> forall n, Re.match_at r (drop n s) = None.
Proof.
  revert i. induction s as [|c s IH]; intros i H n; cbn [Re.search_from] in H.
  - rewrite drop_nil. by destruct (Re.match_at r []) as [[[? ?] ?]|].
  - destruct (Re.match_at r (c :: s)) as [[[? ?] ?]|] eqn:E; [done|].
    destruct n as [|n]; [done|]. by apply (IH (S i)).
Qed.

Lemma sub_from_no_match r s :
  (forall n, Re.match_at r (drop n s) = None) -> Re.sub_from r s 0 = s.
Proof.
  induction s as [|c s IH]; intros H; cbn [Re.sub_from]; [done|].
  pose proof (H 0%nat) as H0. rewrite drop_0 in H0. rewrite H0. f_equal.
  apply IH. intros n. apply (H (S n)).
Qed.

(** Where the pattern matches nowhere, [re.sub] changes nothing. *)
Lemma sub_empty_no_match r s : Re.search r s = None -> Re.sub_empty r s = s.
Proof. intros H. apply sub_from_no_match. by apply (search_none_all r s 0). Qed.

Lemma end_document_borderless : borderless END_DOCUMENT.
Proof.
  intros k Hk. change (length END_DOCUMENT) with 14%nat in Hk.
  do 14 (destruct k as [|k]; [first [lia | reflexivity]|]). lia.
Qed.

(** A borderless [m] that starts inside [t ++ m], before the end of a
    non-empty [t], lies within [t]. *)
Lemma no_straddle m t :
  borderless m -> t <> [] ->
  Py.startswith m (t ++ m) = true -> Py.startswith m t = true.
Proof.
  intros Hb Ht H. apply startswith_inv in H as [u Hu].
  apply app_eq_inv in Hu as [(k & -> & _)|(k & Hm & Hk)].
  - apply startswith_app.
  - destruct (decide (length t < length m)%nat) as [Hlt|Hge].
    + assert (k = drop (length t) m) as ->.
      { by rewrite Hm at 1; rewrite drop_app_length. }
      assert (Py.startswith (drop (length t) m) m = true) as Hpre.
      { rewrite Hk at 2. apply startswith_app. }
      rewrite Hb in Hpre; [done|]. destruct t; [done|]. simpl. simpl in Hlt. lia.
    + assert (k = []) as ->.
      { apply (f_equal length) in Hm. rewrite length_app in Hm.
        destruct k; [done|]. simpl in Hm. lia. }
      rewrite app_nil_r in Hm. subst t.
      rewrite <- (app_nil_r m) at 2. apply startswith_app.
Qed.

(** The first occurrence of a borderless marker in [b ++ m], when [b]
    does not contain it, is the one at the end. *)
Lemma find_from_after m b i :
  borderless m -> m <> [] -> ~ occurs m b -> -1 <= i ->
  Py.find_from m (b ++ m) i = i + Z.of_nat (length b).
Proof.
  intros Hb Hm Hno Hi.
  assert (Py.startswith m (drop (length b) (b ++ m)) = true) as Hend.
  { rewrite drop_app_length. rewrite <- (app_nil_r m) at 2. apply startswith_app. }
  destruct (find_from_spec m (b ++ m) i)
    as [[_ H2]|[(n & H1 & H2 & H3 & H4)|?]]; [| |lia].
  - by rewrite H2 in Hend.
  - rewrite H1. f_equal. f_equal.
    destruct (decide (n = length b)) as [|Hne]; [done|].
    destruct (decide (length b < n)%nat) as [Hlt|Hge].
    + rewrite (H4 _ Hlt) in Hend. done.
    + assert (n < length b)%nat as Hlt by lia.
      rewrite drop_app_le in H3 by lia.
      destruct Hno. apply occurs_iff. exists n.
      apply no_straddle; [done| |done].
      intros E. apply (f_equal length) in E. rewrite length_drop in E.
      simpl in E. lia.
Qed.

Lemma find_from_skip m a x i :
  (forall n, (n < length a)%nat -> Py.startswith m (drop n a ++ x) = false) ->
  Py.find_from m (a ++ x) i = Py.find_from m x (i + Z.of_nat (length a)).
Proof.
  revert i. induction a as [|c a IH]; intros i H.
  - simpl. by rewrite Z.add_0_r.
  - pose proof (H 0%nat ltac:(simpl; lia)) as H0. rewrite drop_0 in H0.
    cbn [app Py.find_from]. cbn [app] in H0. rewrite H0.
    rewrite IH.
    + f_equal. simpl. lia.
    + intros n Hn. apply (H (S n)). simpl. lia.
Qed.

Lemma find_prefix p x : Py.find (p ++ x) p = 0.
Proof.
  unfold Py.find. pose proof (startswith_app p x) as H.
  destruct (p ++ x); cbn [Py.find_from]; by rewrite H.
Qed.

Lemma end_not_in_begin x n :
  (n < length BEGIN_DOCUMENT)%nat ->
  Py.startswith END_DOCUMENT (drop n BEGIN_DOCUMENT ++ x) = false.
Proof.
  change (length BEGIN_DOCUMENT) with 16%nat. intros Hn.
  do 16 (destruct n as [|n]; [reflexivity|]). lia.
Qed.

(** In a body wrapped between the markers, the markers are found where
    they were put, provided the body has no end marker of its own. *)
Lemma find_markers_wrapped b :
  ~ occurs END_DOCUMENT b ->
  Py.find (BEGIN_DOCUMENT ++ b ++ END_DOCUMENT) BEGIN_DOCUMENT = 0
  /\ Py.find (BEGIN_DOCUMENT ++ b ++ END_DOCUMENT) END_DOCUMENT
     = 16 + Z.of_nat (length b).
Proof.
  intros Hno. split; [apply find_prefix|].
  unfold Py.find. rewrite find_from_skip by (intros; by apply end_not_in_begin).
  rewrite find_from_after; [done|apply end_document_borderless|done|done|done].
Qed.

Lemma slice_wrapped b :
  Py.slice (BEGIN_DOCUMENT ++ b ++ END_DOCUMENT)
    (Some (0 + Z.of_nat (length BEGIN_DOCUMENT)))
    (Some (16 + Z.of_nat (length b)))
  = b.
Proof.
  change (0 + Z.of_nat (length BEGIN_DOCUMENT)) with (Z.of_nat 16).
  replace (16 + Z.of_nat (length b)) with (Z.of_nat (16 + length b)) by lia.
  rewrite slice_between; [|lia|].
  - replace (16 + length b - 16)%nat with (length b) by lia.
    change 16%nat with (length BEGIN_DOCUMENT).
    by rewrite drop_app_length, take_app_length.
  - rewrite !length_app. change (length BEGIN_DOCUMENT) with 16%nat. lia.
Qed.

(** C4, as the code has it. For every body [B] that has no leading or
    trailing white space, does not contain the end-body marker and has no
    match of the title-link pattern or of the empty-section pattern,
    extracting a document made of [B] wrapped between the begin-body and
    end-body markers yields exactly [B]. *)
Theorem C4_reextraction_of_clean_body {FS : Type} {RT : Runtime FS}
    (self : Tex2TexConverter) (tex_file : Path.t) (w : World FS) (B : str) :
  read_text (w_fs w) tex_file = Ok (BEGIN_DOCUMENT ++ B ++ END_DOCUMENT) ->
  Py.strip B = B ->
  ~ occurs END_DOCUMENT B ->
  Re.search Re.href_re B = None ->
  Re.search Re.empty_section_re B = None ->
  exists lines,
    extract_content self tex_file w
    = (Ok (Some B), mk_world (w_fs w) (w_out w ++ lines)).
Proof.
  intros Hread Hstrip Hno Hhref Hsec.
  destruct (find_markers_wrapped B Hno) as [Hb He].
  unfold extract_content, try_except, mbind, M_bind, reading_result.
  rewrite Hread, Hb, He.
  replace ((0 =? -1) || (16 + Z.of_nat (length B) =? -1)) with false.
  2:{ symmetry. apply orb_false_iff. split; [done|]. apply Z.eqb_neq. lia. }
  unfold clean_body. rewrite slice_wrapped, Hstrip.
  rewrite (sub_empty_no_match _ _ Hhref), (sub_empty_no_match _ _ Hsec).
  match goal with |- context [log self ?m INFO ?w0] =>
    destruct (log_total self m INFO w0) as [lines ->] end.
  by exists lines.
Qed.

Lemma C4_witness :
  exists lines,
    extract_content demo_self (P "/posts/a.tex")
      (mk_world [(P "/posts/a.tex",
                  SimpleFS.File (BEGIN_DOCUMENT ++ L "Hello world." ++ END_DOCUMENT))] [])
    = (Ok (Some (L "Hello world.")),
       mk_world [(P "/posts/a.tex",
                  SimpleFS.File (BEGIN_DOCUMENT ++ L "Hello world." ++ END_DOCUMENT))]
         ([] ++ lines)).
Proof.
  apply (C4_reextraction_of_clean_body (RT := SimpleFS.runtime) demo_self
           (P "/posts/a.tex")
           (mk_world [(P "/posts/a.tex",
                       SimpleFS.File (BEGIN_DOCUMENT ++ L "Hello world." ++ END_DOCUMENT))] [])
           (L "Hello world.")).
  - reflexivity.
  - reflexivity.
  - apply contains_false_iff. reflexivity.
  - reflexivity.
  - reflexivity.
Defined.

(** C4 as stated fails. The body of the first document ends with an
    empty section: the white space is trimmed first and the empty section
    removed afterwards, so the extracted body [B] ends with a line break.
    Wrapped between the markers and extracted again, [B] loses it. *)
Lemma C4_counterexample :
  let tex := P "/posts/a.tex" in
  let doc := BEGIN_DOCUMENT ++ [nl] ++ L "Hello" ++ [nl] ++ L "\section{}"
               ++ [nl] ++ END_DOCUMENT in
  let B := L "Hello" ++ [nl] in
  extract_content demo_self tex (mk_world [(tex, SimpleFS.File doc)] [])
  = (Ok (Some B), mk_world [(tex, SimpleFS.File doc)] [])
  /\ extract_content demo_self tex
       (mk_world [(tex, SimpleFS.File (BEGIN_DOCUMENT ++ B ++ END_DOCUMENT))] [])
     = (Ok (Some (L "Hello")),
        mk_world [(tex, SimpleFS.File (BEGIN_DOCUMENT ++ B ++ END_DOCUMENT))] [])
  /\ L "Hello" <> B.
Proof. repeat split; try reflexivity. discriminate. Qed.

(** ** The end marker before the begin marker (C10) *)

Lemma first_occurrence_intro sub s pre post :
  s = pre ++ sub ++ post ->
  Py.find s sub = Z.of_nat (length pre) ->
  first_occurrence sub s pre post.
Proof.
  intros Hs Hfind. split; [done|]. intros pre' post' Hs'.
  destruct (find_first_occurrence s sub) as (p0 & q0 & [_ Hmin] & Hp0).
  { by exists pre, post. }
  specialize (Hmin _ _ Hs'). lia.
Qed.

Lemma inject_ok_date {FS : Type} {RT : Runtime FS} self template_ tex_file
    folder_name t :
  inject_personal_info self template_ tex_file folder_name = Ok t ->
  exists info, get_date_info tex_file = Ok info.
Proof.
  unfold inject_personal_info, substitute_metadata, bind_result.
  destruct (get_date_info tex_file); [eauto|done].
Qed.

(** Extraction never raises and never changes the file system. *)
Lemma extract_content_total {FS : Type} {RT : Runtime FS} self tex_file
    (w : World FS) :
  exists r lines,
    extract_content self tex_file w
    = (Ok r, mk_world (w_fs w) (w_out w ++ lines)).
Proof.
  unfold extract_content, try_except, mbind, M_bind, reading_result, mret, M_ret.
  destruct w as [fs out]. simpl.
  destruct (read_text fs tex_file) as [content|e].
  - destruct (_ || _).
    + rewrite log_warning. simpl. by eexists _, [_].
    + match goal with |- context [log self ?m INFO ?w0] =>
        destruct (log_total self m INFO w0) as [lines ->] end.
      simpl. by eexists _, lines.
  - rewrite log_error. simpl. by eexists _, [_].
Qed.



(** The same conversion, run: extraction succeeds, the file is written
    and [convert_file] returns [True]. The slice between a begin marker
    and an earlier end marker has no characters, so the body spliced in
    is empty. *)
Example C10_run :
  let '(r, w) := convert_file demo_self (P "/posts/2024-03-15.tex") (P "/out")
                   (L "posts") false (mk_world (C10_fs "2024-03-15.tex") []) in
  r = Ok true
  /\ SimpleFS.lookup (w_fs w) (P "/out/2024-03-15.tex")
     = Some (SimpleFS.File
               (L "\title{March 15, 2024}%<TAGs>: posts" ++ [nl]
                  ++ L "\begin{document}" ++ [nl] ++ [nl; nl]
                  ++ L "\end{document}")).
Proof. vm_compute. split; reflexivity. Qed.

(** ** The loop over the files of a folder (C5) *)

Ltac log_step :=
  match goal with
  | |- context [log ?self ?m ?lvl ?w0] =>
      let l := fresh "l" in
      destruct (log_total self m lvl w0) as [l ->];
      cbv beta iota zeta; cbn [w_fs w_out]
  end.

(** [convert_file] never raises. *)
Lemma convert_file_total {FS : Type} {RT : Runtime FS} self
    tex_file output_dir folder_name use_symlinks (w : World FS) :
  exists b w',
    convert_file self tex_file output_dir folder_name use_symlinks w
    = (Ok b, w').
Proof.
  unfold convert_file, try_except.
  match goal with |- context [match ?body w with _ => _ end] =>
    destruct (body w) as [[b|e] w'] end.
  - eauto.
  - unfold mbind, M_bind. rewrite log_error. simpl. eauto.
Qed.

(** An exception in the conversion of one file is caught, logged as an
    error, and turned into [False]. *)
Lemma convert_file_catches {FS : Type} {RT : Runtime FS} self
    tex_file output_dir folder_name use_symlinks (w0 w1 w2 : World FS) c e :
  extract_content self tex_file w0 = (Ok (Some c), w1) ->
  convert_extracted self tex_file output_dir folder_name use_symlinks c w1
  = (Raise e, w2) ->
  convert_file self tex_file output_dir folder_name use_symlinks w0
  = (Ok false,
     mk_world (w_fs w2)
       (w_out w2 ++ [L "ERROR: Error converting " ++ Path.name tex_file
                       ++ L ": " ++ exn_msg e])).
Proof.
  intros Hext Hrest. unfold convert_file, try_except.
  unfold mbind at 1, M_bind at 1. rewrite Hext, Hrest.
  unfold mbind, M_bind. by rewrite log_error.
Qed.

Lemma count_true_cons b bs :
  count_true (b :: bs) = (if b then 1 else 0) + count_true bs.
Proof.
  unfold count_true. rewrite filter_cons.
  destruct b; destruct (decide _); try done; simpl; lia.
Qed.

Lemma count_false_cons b bs :
  count_false (b :: bs) = (if b then 0 else 1) + count_false bs.
Proof.
  unfold count_false. rewrite filter_cons.
  destruct b; destruct (decide _); try done; simpl; lia.
Qed.

Lemma counts_total bs : count_true bs + count_false bs = Z.of_nat (length bs).
Proof.
  induction bs as [|b bs IH]; [done|].
  rewrite count_true_cons, count_false_cons. destruct b; simpl length; lia.
Qed.

Lemma outcomes_length {FS : Type} {RT : Runtime FS} self tex_files
    output_folder folder_name use_symlinks (w : World FS) :
  length (outcomes self tex_files output_folder folder_name use_symlinks w).1
  = length tex_files.
Proof.
  revert w. induction tex_files as [|f rest IH]; intros w; simpl; [done|].
  destruct (convert_file _ _ _ _ _ _) as [r w1].
  specialize (IH w1). destruct (outcomes _ _ _ _ _ _) as [bs w2].
  simpl in *. by rewrite IH.
Qed.

(** The two counters after the loop are the numbers of [True] and of
    [False] among the values [convert_file] returned. *)
Lemma for_each_counts {FS : Type} {RT : Runtime FS} self tex_files
    output_folder folder_name use_symlinks (successful failed : Z)
    (w : World FS) :
  let res := outcomes self tex_files output_folder folder_name use_symlinks w in
  for_each tex_files (successful, failed)
    (count_one self output_folder folder_name use_symlinks) w
  = (Ok (successful + count_true res.1, failed + count_false res.1), res.2).
Proof.
  revert successful failed w.
  induction tex_files as [|f rest IH]; intros successful failed w; simpl.
  - unfold mret, M_ret, count_true, count_false. simpl.
    by rewrite !Z.add_0_r.
  - unfold mbind at 1, M_bind at 1. unfold count_one at 1.
    unfold mbind at 1, M_bind at 1.
    destruct (convert_file_total self f output_folder folder_name
                use_symlinks w) as (b & w1 & ->).
    destruct b; unfold mret at 1, M_ret at 1; rewrite IH;
      destruct (outcomes _ _ _ _ _ _) as [bs w2]; simpl;
      rewrite count_true_cons, count_false_cons; do 3 f_equal; lia.
Qed.

(** C5, as the code has it. For every list of input files, no
    exception raised while one file is extracted, composed, written and
    its assets handled leaves [convert_file]: it is caught, logged as an
    error and counted as a failure, and the loop goes on with the next
    file; the counters after the loop add up to the number of files.
    [convert_folder] itself raises only before any file is processed:
    when the test whether the input folder exists raises, or when
    creating the output folder raises; when the folder is created it
    returns the number of files for which [convert_file] returned
    [False]. *)
Theorem C5_per_file_exceptions_are_counted {FS : Type} {RT : Runtime FS}
    (self : Tex2TexConverter) (input_folder : Path.t)
    (output_folder : option Path.t) (use_symlinks : bool) (w : World FS) :
  let out_dir :=
    match output_folder with
    | Some p => p
    | None => Path.parent input_folder // (L "converted_" ++ Path.name input_folder)
    end in
  let folder_name := Path.name input_folder in
  let tex_files := glob_tex (w_fs w) input_folder in
  (forall tex_file w0, exists b w',
      convert_file self tex_file out_dir folder_name use_symlinks w0 = (Ok b, w'))
  /\ (forall tex_file w0 c w1 e w2,
        extract_content self tex_file w0 = (Ok (Some c), w1) ->
        convert_extracted self tex_file out_dir folder_name use_symlinks c w1
        = (Raise e, w2) ->
        convert_file self tex_file out_dir folder_name use_symlinks w0
        = (Ok false,
           mk_world (w_fs w2)
             (w_out w2 ++ [L "ERROR: Error converting " ++ Path.name tex_file
                             ++ L ": " ++ exn_msg e])))
  /\ (forall files w0,
        let res := outcomes self files out_dir folder_name use_symlinks w0 in
        convert_all self files out_dir folder_name use_symlinks w0
        = (Ok (count_true res.1, count_false res.1), res.2)
        /\ length res.1 = length files
        /\ count_true res.1 + count_false res.1 = Z.of_nat (length files))
  /\ (forall fs1,
        path_exists (w_fs w) input_folder = Ok true ->
        tex_files <> [] ->
        mkdir_parents (w_fs w) out_dir = (Ok tt, fs1) ->
        exists out w',
          convert_folder self input_folder output_folder use_symlinks w
          = (Ok (count_false
                   (outcomes self tex_files out_dir folder_name use_symlinks
                      (mk_world fs1 out)).1), w'))
  /\ (forall e w',
        convert_folder self input_folder output_folder use_symlinks w
        = (Raise e, w') ->
        path_exists (w_fs w) input_folder = Raise e
        \/ (path_exists (w_fs w) input_folder = Ok true
            /\ tex_files <> []
            /\ (mkdir_parents (w_fs w) out_dir).1 = Raise e))
  /\ (forall e,
        path_exists (w_fs w) input_folder = Raise e ->
        convert_folder self input_folder output_folder use_symlinks w
        = (Raise e, w)).
Proof.
  intros out_dir folder_name tex_files.
  split; [intros; apply convert_file_total|].
  split; [intros; by eapply convert_file_catches|].
  split.
  { intros files w0 res. unfold convert_all.
    rewrite for_each_counts. fold res. rewrite !Z.add_0_l.
    split; [done|]. split; [apply outcomes_length|].
    rewrite counts_total. f_equal. apply outcomes_length. }
  split.
  - intros fs1 Hthere Hfiles Hmkdir.
    unfold convert_folder, find_tex_files, mbind, M_bind, reading,
      reading_result, writing, mret, M_ret.
    rewrite Hthere. cbv beta iota zeta. cbn [negb w_fs w_out]. log_step.
    fold tex_files. destruct tex_files as [|f rest] eqn:Efiles; [done|].
    cbv beta iota zeta. cbn [w_fs w_out].
    fold out_dir. rewrite Hmkdir. log_step.
    fold folder_name. unfold convert_all. rewrite for_each_counts.
    destruct (outcomes _ _ _ _ _ _) as [bs w2] eqn:Eout.
    cbv beta iota zeta. cbn [fst snd].
    repeat log_step.
    eexists _, _. rewrite Eout. cbn [fst]. by rewrite Z.add_0_l.
  - split.
    2:{ intros e He. unfold convert_folder, mbind, M_bind, reading_result.
        by rewrite He. }
    intros e w' Hraise.
    unfold convert_folder, find_tex_files, mbind, M_bind, reading,
      reading_result, writing, mret, M_ret in Hraise.
    destruct (path_exists (w_fs w) input_folder) as [[]|e0] eqn:Hthere;
      cbv beta iota zeta in Hraise; cbn [negb w_fs w_out] in Hraise.
    2:{ rewrite log_error in Hraise. done. }
    2:{ left. by injection Hraise as -> _. }
    right. split; [done|].
    revert Hraise. log_step. fold tex_files.
    destruct tex_files as [|f rest] eqn:Efiles.
    { rewrite log_warning. done. }
    cbv beta iota zeta. cbn [w_fs w_out].
    intros Hraise. split; [done|].
    fold out_dir in Hraise.
    destruct (mkdir_parents (w_fs w) out_dir) as [[[]|e0] fs1] eqn:Hmkdir.
    + exfalso. revert Hraise.
      log_step. fold folder_name. unfold convert_all.
      rewrite for_each_counts.
      destruct (outcomes _ _ _ _ _ _) as [bs w2].
      cbv beta iota zeta. cbn [fst snd].
      repeat log_step. done.
    + cbn [fst]. by injection Hraise as -> _.
Qed.

Lemma C5_witness :
  exists out w',
    convert_folder demo_self (P "/posts") (Some (P "/out")) false
      (mk_world C5_fs [])
    = (Ok (count_false
             (outcomes demo_self (glob_tex C5_fs (P "/posts")) (P "/out")
                (Path.name (P "/posts")) false
                (mk_world (C5_fs ++ [(P "/out", SimpleFS.Dir)]) out)).1), w').
Proof.
  pose proof (C5_per_file_exceptions_are_counted (RT := SimpleFS.runtime)
                demo_self (P "/posts") (Some (P "/out")) false
                (mk_world C5_fs [])) as (_ & _ & _ & H & _ & _).
  apply H.
  - reflexivity.
  - discriminate.
  - reflexivity.
Defined.

(** The same folder, run: one file converted, two counted as
    failed (the month 13 raises, the third file has no markers), and the
    loop reached every file. *)
Example C5_run :
  let '(r, w) := convert_folder demo_self (P "/posts") (Some (P "/out")) false
                   (mk_world C5_fs []) in
  r = Ok 2
  /\ w_out w
     = [ L "ERROR: Error converting 2024-13-01.tex: list index out of range";
         L "WARNING: No document environment found in b.tex" ]
  /\ map fst (w_fs w)
     = [ P "/posts"; P "/posts/2024-03-15.tex"; P "/posts/2024-13-01.tex";
         P "/posts/b.tex"; P "/out"; P "/out/2024-03-15.tex" ].
Proof. vm_compute. repeat split; reflexivity. Qed.

(** C5 as stated fails: [convert_folder] can raise. Here the output
    folder [/out] already exists as a regular file, so creating it raises
    before the loop starts, and the exception leaves [convert_folder].
    It also raises for an input folder whose name has 256 characters:
    the test whether the folder exists raises. *)
Lemma C5_counterexample :
  let fs := C5_fs ++ [(P "/out", SimpleFS.File (L "x"))] in
  path_exists fs (P "/posts") = Ok true
  /\ glob_tex fs (P "/posts")
     = [P "/posts/2024-03-15.tex"; P "/posts/2024-13-01.tex"; P "/posts/b.tex"]
  /\ convert_folder demo_self (P "/posts") (Some (P "/out")) false
       (mk_world fs [])
     = (Raise (mk_exn OSError (L "File exists")), mk_world fs [])
  /\ convert_folder demo_self (Path.of_str (repeat "a"%char 256)) None false
       (mk_world C5_fs [])
     = (Raise (SimpleFS.os_error "[Errno 36] File name too long"),
        mk_world C5_fs []).
Proof. vm_compute. repeat split; reflexivity. Qed.

(** * Further properties of the converter *)

(** ** The splice, whatever the template *)

Lemma find_range s sub :
  Py.find s sub = -1
  \/ exists n : nat, Py.find s sub = Z.of_nat n /\ (n <= length s)%nat.
Proof.
  unfold Py.find.
  destruct (find_from_spec sub s 0) as [[H _]|[(n & H & Hn & _)|?]]; [by left| |lia].
  right. exists n. split; [lia|done].
Qed.

Lemma slice_to_minus_one s :
  Py.slice s None (Some (-1)) = take (length s - 1) s.
Proof.
  unfold Py.slice, Py.slice_bound. change (-1 <? 0) with true. cbv iota.
  change (Z.to_nat 0) with 0%nat. rewrite drop_0. f_equal. lia.
Qed.

Lemma slice_from_minus_one s :
  Py.slice s (Some (-1)) None = drop (length s - 1) s.
Proof.
  unfold Py.slice, Py.slice_bound. change (-1 <? 0) with true. cbv iota.
  replace (Z.to_nat (Z.max 0 (Z.of_nat (length s) + -1))) with (length s - 1)%nat by lia.
  apply take_ge. rewrite length_drop. lia.
Qed.

Lemma splice_at_find s sub content :
  exists n, (n <= length s)%nat
    /\ Py.slice s None (Some (Py.find s sub)) ++ content ++ [nl; nl]
         ++ Py.slice s (Some (Py.find s sub)) None
       = take n s ++ content ++ [nl; nl] ++ drop n s.
Proof.
  destruct (find_range s sub) as [->|(n & -> & Hn)].
  - exists (length s - 1)%nat. split; [lia|].
    by rewrite slice_to_minus_one, slice_from_minus_one.
  - exists n. split; [done|]. by apply splice_at.
Qed.

(** The composed text is the template with the body and a blank line
    put in at one position: no character of the template is lost,
    changed or moved, whichever anchor is used and also when the template
    has none. *)
Theorem new_content_keeps_template (template_ content : str) :
  exists n,
    (n <= length template_)%nat
    /\ new_content template_ content
       = take n template_ ++ content ++ [nl; nl] ++ drop n template_
    /\ length (new_content template_ content)
       = (length template_ + length content + 2)%nat.
Proof.
  assert (exists n, (n <= length template_)%nat
            /\ new_content template_ content
               = take n template_ ++ content ++ [nl; nl] ++ drop n template_)
    as (n & Hn & Heq).
  { unfold new_content. destruct (Py.contains _ _); apply splice_at_find. }
  exists n. split; [done|]. split; [done|].
  rewrite Heq, !length_app, length_take, length_drop. simpl. lia.
Qed.

(** A template with neither anchor (the empty template of a failed load
    among them): the body is not appended but put before the last
    character of the template, because the position -1 that [find]
    returns is used as a slice bound. *)
Theorem new_content_without_anchor (template_ content : str) :
  ~ occurs BIBLIOGRAPHYSTYLE template_ ->
  ~ occurs END_DOCUMENT template_ ->
  new_content template_ content
  = removelast template_ ++ content ++ [nl; nl]
      ++ match last template_ with Some c => [c] | None => [] end.
Proof.
  intros Hbib Hend. unfold new_content.
  apply contains_false_iff in Hbib. rewrite Hbib.
  apply find_none_iff in Hend. rewrite Hend.
  rewrite slice_to_minus_one, slice_from_minus_one.
  destruct template_ as [|c t] using rev_ind; [done|].
  rewrite removelast_last, last_snoc, length_app. simpl.
  replace (length t + 1 - 1)%nat with (length t) by lia.
  by rewrite take_app_length, drop_app_length.
Qed.

Lemma new_content_without_anchor_witness :
  new_content (L "\title{x}") (L "Hello")
  = removelast (L "\title{x}") ++ L "Hello" ++ [nl; nl]
      ++ match last (L "\title{x}") with Some c => [c] | None => [] end.
Proof.
  apply new_content_without_anchor; apply contains_false_iff; reflexivity.
Defined.

(** ** The date fields, as texts *)

Lemma search_from_none r s i :
  (forall n, Re.match_at r (drop n s) = None) -> Re.search_from r s i = None.
Proof.
  revert i. induction s as [|c s IH]; intros i H; cbn [Re.search_from].
  - pose proof (H 0%nat) as H0. rewrite drop_0 in H0. by rewrite H0.
  - pose proof (H 0%nat) as H0. rewrite drop_0 in H0. rewrite H0.
    apply IH. intros n. apply (H (S n)).
Qed.

Lemma digit_cases c : Py.isdigit c = true -> In c (L "0123456789").
Proof.
  intros H.
  destruct c as [[] [] [] [] [] [] [] []]; vm_compute in H; try discriminate H.
  all: simpl; tauto.
Qed.

(** [str(int(s))] on one or two digits drops the leading zero of a
    two-digit text and nothing else. *)
Lemma str_of_int_digits s :
  (1 <= length s <= 2)%nat -> all_digits s ->
  Py.str_of_Z (Py.int_of_digits s) = without_leading_zero s.
Proof.
  intros Hlen Hd. destruct s as [|c0 [|c1 [|]]]; simpl in Hlen; try lia.
  - inversion Hd as [|? ? H0 _]; subst. apply digit_cases in H0.
    simpl in H0. repeat destruct H0 as [<-|H0]; try reflexivity. done.
  - inversion Hd as [|? ? H0 Hd']; subst. inversion Hd' as [|? ? H1 _]; subst.
    apply digit_cases in H0, H1. simpl in H0, H1.
    repeat destruct H0 as [<-|H0]; try done;
      repeat destruct H1 as [<-|H1]; try done; reflexivity.
Qed.

Lemma month_name_lookup (m : Z) :
  1 <= m <= 12 ->
  exists name,
    month_names !! Z.to_nat (m - 1) = Some name
    /\ Py.index month_names (m - 1) = Some name.
Proof.
  intros Hm. unfold Py.index.
  change (Z.of_nat (length month_names)) with 12.
  destruct (Z.ltb_spec (m - 1) 0); [lia|].
  destruct (Z.ltb_spec (m - 1) 0); [lia|].
  destruct (Z.leb_spec 12 (m - 1)); [lia|]. simpl.
  destruct (lookup_lt_is_Some_2 month_names (Z.to_nat (m - 1))) as [name Hn].
  { simpl. lia. }
  by exists name.
Qed.

(** The three fields read from a name whose leftmost date-shaped text is
    [y-m-d]. *)
Lemma date_fields_of_name {FS : Type} {RT : Runtime FS}
    (tex_file : Path.t) (pre y m d post : str) :
  Path.stem tex_file = pre ++ date_text y m d ++ post ->
  date_shaped y m d ->
  (forall n, (n < length pre)%nat ->
             ~ starts_with_date (drop n (Path.stem tex_file))) ->
  (length d = 1%nat -> forall c, head post = Some c -> Py.isdigit c = false) ->
  date_fields tex_file = (y, Py.int_of_digits m, Py.int_of_digits d).
Proof.
  intros Hstem Hshape Hleft Hgreedy.
  unfold date_fields, Re.search. rewrite Hstem, search_from_skip.
  - destruct (date_match_here y m d post Hshape Hgreedy) as [n Hn].
    by rewrite (search_from_here _ _ _ _ _ _ Hn).
  - intros n Hn. apply date_match_none. rewrite <- Hstem. by apply Hleft.
Qed.

(** For a name whose leftmost date-shaped text is [y-m-d] with a month
    from 1 to 12, [get_date_info] returns the year as written, the month
    and the day without a leading zero, the day a second time as
    [day_number], and as month name the entry of the list at the month
    minus one. *)
Theorem get_date_info_texts {FS : Type} {RT : Runtime FS}
    (tex_file : Path.t) (pre y m d post : str) :
  Path.stem tex_file = pre ++ date_text y m d ++ post ->
  date_shaped y m d ->
  (forall n, (n < length pre)%nat ->
             ~ starts_with_date (drop n (Path.stem tex_file))) ->
  (length d = 1%nat -> forall c, head post = Some c -> Py.isdigit c = false) ->
  1 <= Py.int_of_digits m <= 12 ->
  exists name,
    month_names !! Z.to_nat (Py.int_of_digits m - 1) = Some name
    /\ get_date_info tex_file
       = Ok {| di_year := y;
               di_month := without_leading_zero m;
               di_day := without_leading_zero d;
               di_month_name := name;
               di_day_number := without_leading_zero d |}.
Proof.
  intros Hstem Hshape Hleft Hgreedy Hmonth.
  destruct (month_name_lookup _ Hmonth) as (name & Hname & Hindex).
  exists name. split; [done|].
  unfold get_date_info.
  rewrite (date_fields_of_name _ _ _ _ _ _ Hstem Hshape Hleft Hgreedy), Hindex.
  destruct Hshape as (_ & Hm & Hd & _ & Dm & Dd).
  by rewrite !str_of_int_digits.
Qed.

Lemma get_date_info_texts_witness :
  exists name,
    month_names !! Z.to_nat (Py.int_of_digits (L "03") - 1) = Some name
    /\ get_date_info (RT := SimpleFS.runtime) (P "/posts/2024-03-05-notes.tex")
       = Ok {| di_year := L "2024";
               di_month := without_leading_zero (L "03");
               di_day := without_leading_zero (L "05");
               di_month_name := name;
               di_day_number := without_leading_zero (L "05") |}.
Proof.
  apply (get_date_info_texts (RT := SimpleFS.runtime)
           (P "/posts/2024-03-05-notes.tex")
           [] (L "2024") (L "03") (L "05") (L "-notes")).
  - reflexivity.
  - unfold date_shaped, all_digits. simpl.
    repeat split; try lia; repeat constructor.
  - simpl. lia.
  - simpl. lia.
  - vm_compute. split; discriminate.
Defined.

(** For a name with no date-shaped text anywhere, the fields are those
    of the clock; the dictionary holds them with the month name of the
    clock's month. *)
Theorem get_date_info_falls_back_to_clock {FS : Type} {RT : Runtime FS}
    (tex_file : Path.t) :
  (forall n, ~ starts_with_date (drop n (Path.stem tex_file))) ->
  1 <= dt_month now <= 12 ->
  date_fields tex_file = (Py.str_of_Z (dt_year now), dt_month now, dt_day now)
  /\ exists name,
       month_names !! Z.to_nat (dt_month now - 1) = Some name
       /\ get_date_info tex_file
          = Ok {| di_year := Py.str_of_Z (dt_year now);
                  di_month := Py.str_of_Z (dt_month now);
                  di_day := Py.str_of_Z (dt_day now);
                  di_month_name := name;
                  di_day_number := Py.str_of_Z (dt_day now) |}.
Proof.
  intros Hnone Hmonth.
  assert (date_fields tex_file
          = (Py.str_of_Z (dt_year now), dt_month now, dt_day now)) as Hfields.
  { unfold date_fields, Re.search. rewrite search_from_none; [done|].
    intros n. by apply date_match_none. }
  split; [done|].
  destruct (month_name_lookup _ Hmonth) as (name & Hname & Hindex).
  exists name. split; [done|].
  unfold get_date_info. by rewrite Hfields, Hindex.
Qed.

Lemma no_date_in_notes n : ~ starts_with_date (drop n (L "notes")).
Proof.
  intros (y & m & d & rest & (Hy & _ & _ & Dy & _) & Hs).
  destruct y as [|y0 [|y1 [|y2 [|y3 [|]]]]]; simpl in Hy; try lia.
  inversion Dy as [|? ? D0 _]; subst.
  do 5 (destruct n as [|n]; [by injection Hs as <-|]).
  rewrite drop_ge in Hs by (simpl; lia). done.
Qed.

Lemma get_date_info_falls_back_to_clock_witness :
  date_fields (RT := SimpleFS.runtime) (P "/posts/notes.tex")
  = (Py.str_of_Z (dt_year (now (Runtime := SimpleFS.runtime))),
     dt_month (now (Runtime := SimpleFS.runtime)),
     dt_day (now (Runtime := SimpleFS.runtime)))
  /\ exists name,
       month_names !! Z.to_nat (dt_month (now (Runtime := SimpleFS.runtime)) - 1)
       = Some name
       /\ get_date_info (RT := SimpleFS.runtime) (P "/posts/notes.tex")
          = Ok {| di_year := Py.str_of_Z (dt_year (now (Runtime := SimpleFS.runtime)));
                  di_month := Py.str_of_Z (dt_month (now (Runtime := SimpleFS.runtime)));
                  di_day := Py.str_of_Z (dt_day (now (Runtime := SimpleFS.runtime)));
                  di_month_name := name;
                  di_day_number := Py.str_of_Z (dt_day (now (Runtime := SimpleFS.runtime))) |}.
Proof.
  apply (get_date_info_falls_back_to_clock (RT := SimpleFS.runtime)
           (P "/posts/notes.tex")).
  - apply no_date_in_notes.
  - vm_compute. split; discriminate.
Defined.

(** ** Injection: templates without tokens, and bad configurations *)

Lemma replace_all_absent {FS : Type} {RT : Runtime FS} (t : str)
    (replacements : list (str * cfg_value)) :
  Forall (fun pv => ~ occurs pv.1 t /\ exists v, pv.2 = CStr v) replacements ->
  replace_all t replacements = Ok t.
Proof.
  induction 1 as [|[ph value] rest [Hno [v Hv]] _ IH]; [done|].
  simpl in Hno, Hv. subst value. cbn [replace_all replace_value].
  by rewrite replace_absent.
Qed.

Lemma config_get_string {FS : Type} {RT : Runtime FS} self m key dflt :
  config self = Some m -> m !! key <> Some CNotStr ->
  exists v, config_get self key dflt = Ok (CStr v).
Proof.
  intros Hc Hk. unfold config_get. rewrite Hc.
  destruct (m !! key) as [[v|]|]; [by exists v|done|by exists dflt].
Qed.

(** A template that contains none of the ten placeholder tokens comes
    back from [inject_personal_info] unchanged, provided the date lookup
    succeeds and the three configuration values, where present, are
    strings. *)
Theorem inject_without_placeholders {FS : Type} {RT : Runtime FS}
    (self : Tex2TexConverter) (m : gmap string cfg_value) (info : date_info)
    (template_ : str) (tex_file : Path.t) (folder_name : str) :
  config self = Some m ->
  Forall (fun key => m !! key <> Some CNotStr) config_keys ->
  get_date_info tex_file = Ok info ->
  Forall (fun p => ~ occurs p template_) placeholders ->
  inject_personal_info self template_ tex_file folder_name = Ok template_.
Proof.
  intros Hc Hkeys Hdate Hno.
  unfold config_keys in Hkeys. unfold placeholders in Hno.
  repeat match goal with
         | H : Forall _ (_ :: _) |- _ => apply Forall_cons in H as [? H]
         end.
  destruct (config_get_string self m "author" (L "Unknown Author") Hc)
    as [a Ha]; [done|].
  destruct (config_get_string self m "institution" (L "Unknown Institution") Hc)
    as [i Hi]; [done|].
  destruct (config_get_string self m "diary_title" (L "Research Diary") Hc)
    as [t Ht]; [done|].
  unfold inject_personal_info, substitute_metadata.
  rewrite Hdate. cbn [bind_result]. rewrite Ha, Hi, Ht. cbn [bind_result].
  rewrite replace_all_absent.
  - cbn [bind_result]. unfold add_tag.
    assert (Py.contains TAGS template_ = false) as -> by by apply contains_false_iff.
    rewrite replace_absent; [done|].
    intros Hocc. by apply tags_comment_contains_tags in Hocc.
  - unfold replacements_of. repeat constructor; simpl; eauto.
Qed.

Lemma inject_without_placeholders_witness :
  inject_personal_info (RT := SimpleFS.runtime) demo_self
    (L "\begin{document}\end{document}") (P "/posts/2024-03-15-notes.tex")
    (L "2024")
  = Ok (L "\begin{document}\end{document}").
Proof.
  apply (inject_without_placeholders (RT := SimpleFS.runtime) demo_self ∅
           {| di_year := L "2024"; di_month := L "3"; di_day := L "15";
              di_month_name := L "March"; di_day_number := L "15" |}).
  - reflexivity.
  - repeat constructor; discriminate.
  - reflexivity.
  - repeat constructor; apply contains_false_iff; reflexivity.
Defined.

Lemma replace_all_not_str {FS : Type} {RT : Runtime FS} (t : str)
    (replacements : list (str * cfg_value)) :
  Exists (fun pv => pv.2 = CNotStr) replacements ->
  exists e, replace_all t replacements = Raise e.
Proof.
  intros H. revert t. induction H as [[ph value] rest Hv|[ph value] rest _ IH];
    intros t; cbn [replace_all].
  - simpl in Hv. subst value. by eexists.
  - destruct value as [v|]; cbn [replace_value]; [apply IH|by eexists].
Qed.

(** With a configuration that is not a mapping, or in which one of the
    three values is not a string, the injection raises for every
    template and file. *)
Lemma inject_raises_on_bad_config {FS : Type} {RT : Runtime FS}
    (self : Tex2TexConverter) template_ tex_file folder_name :
  (config self = None
   \/ exists m key, config self = Some m /\ In key config_keys
                    /\ m !! key = Some CNotStr) ->
  exists e, inject_personal_info self template_ tex_file folder_name = Raise e.
Proof.
  intros Hbad. unfold inject_personal_info, substitute_metadata.
  destruct (get_date_info tex_file) as [info|e]; cbn [bind_result]; [|by eexists].
  destruct Hbad as [Hc|(m & key & Hc & Hkey & Hval)].
  - unfold config_get. rewrite Hc. cbn [bind_result]. by eexists.
  - unfold config_get. rewrite Hc. cbn [bind_result].
    destruct (replace_all_not_str template_
                (replacements_of info
                   (default (CStr (L "Unknown Author")) (m !! "author"))
                   (default (CStr (L "Unknown Institution")) (m !! "institution"))
                   (default (CStr (L "Research Diary")) (m !! "diary_title"))
                   tex_file)) as [e He].
    { unfold replacements_of. do 5 apply Exists_cons_tl.
      simpl in Hkey. destruct Hkey as [<-|[<-|[<-|[]]]]; rewrite Hval.
      - by apply Exists_cons_hd.
      - by apply Exists_cons_tl, Exists_cons_hd.
      - by do 2 apply Exists_cons_tl; apply Exists_cons_hd. }
    rewrite He. cbn [bind_result]. by eexists.
Qed.

(** With a configuration that is not a mapping, or in which one of the
    three values is not a string, no file is ever converted:
    [convert_file] returns [False] for every file and leaves the file
    system as it was. *)
Theorem bad_config_fails_every_file {FS : Type} {RT : Runtime FS}
    (self : Tex2TexConverter) (tex_file output_dir : Path.t)
    (folder_name : str) (use_symlinks : bool) (w : World FS) :
  (config self = None
   \/ exists m key, config self = Some m /\ In key config_keys
                    /\ m !! key = Some CNotStr) ->
  exists lines,
    convert_file self tex_file output_dir folder_name use_symlinks w
    = (Ok false, mk_world (w_fs w) (w_out w ++ lines)).
Proof.
  intros Hbad.
  destruct (extract_content_total self tex_file w) as (r & l1 & Hext).
  unfold convert_file, try_except. unfold mbind at 1, M_bind at 1.
  rewrite Hext. destruct r as [c|].
  - destruct (inject_raises_on_bad_config self (template self) tex_file
                folder_name Hbad) as [e He].
    unfold convert_extracted. unfold mbind at 1, M_bind at 1, lift at 1.
    rewrite He. unfold mbind, M_bind. rewrite log_error.
    cbn [w_fs w_out]. eexists. by rewrite <- app_assoc.
  - by exists l1.
Qed.

Lemma bad_config_fails_every_file_witness :
  exists lines,
    convert_file (RT := SimpleFS.runtime)
      {| verbose := false; config := Some {["author" := CNotStr]};
         template := L "\end{document}" |}
      (P "/posts/2024/2024-03-15-notes.tex") (P "/out") (L "2024") false
      (mk_world demo_fs [])
    = (Ok false, mk_world demo_fs ([] ++ lines)).
Proof.
  apply (bad_config_fails_every_file (RT := SimpleFS.runtime)
           {| verbose := false; config := Some {["author" := CNotStr]};
              template := L "\end{document}" |}
           (P "/posts/2024/2024-03-15-notes.tex") (P "/out") (L "2024") false
           (mk_world demo_fs [])).
  right. exists {["author" := CNotStr]}, "author"%string.
  split; [reflexivity|]. split; [simpl; tauto|]. reflexivity.
Defined.

(** ** Paths: rooted references, the default output folder, the walk up *)

Lemma join_rooted p s :
  Py.startswith (L "/") s = true -> p // s = Path.of_str s.
Proof.
  intros H. unfold Path.join.
  assert (Path.root (Path.of_str s) <> []) as Hroot.
  { unfold Path.of_str, Path.root_of. cbn [Path.root].
    destruct (Py.startswith (L "///") s); [done|].
    destruct (Py.startswith (L "//") s); [done|]. by rewrite H. }
  by rewrite bool_decide_eq_false_2.
Qed.

(** A reference that starts with a slash is taken as it is: the four
    candidate locations are all the reference itself, whatever the
    document's directory, so that the resolution is decided by the test
    of that one path (found, absent, or an exception of the test), and
    the destination of the copy is again the reference itself, not a
    path under the output directory. *)
Theorem rooted_reference_is_its_own_destination {FS : Type} {RT : Runtime FS}
    (asset_path : str) (tex_file output_dir : Path.t) (w : World FS) :
  Py.startswith (L "/") asset_path = true ->
  possible_paths asset_path tex_file = replicate 4 (Path.of_str asset_path)
  /\ output_dir // asset_path = Path.of_str asset_path
  /\ _resolve_asset_path asset_path tex_file w
     = (match path_exists (w_fs w) (Path.of_str asset_path) with
        | Ok true => Ok (Some (Path.of_str asset_path))
        | Ok false => Ok None
        | Raise e => Raise e
        end, w).
Proof.
  intros H.
  assert (possible_paths asset_path tex_file
          = replicate 4 (Path.of_str asset_path)) as Hp.
  { unfold possible_paths. by rewrite !(join_rooted _ _ H). }
  split; [done|]. split; [by apply join_rooted|].
  unfold _resolve_asset_path, reading_result. rewrite Hp. simpl.
  by destruct (path_exists (w_fs w) (Path.of_str asset_path)) as [[]|e].
Qed.

Lemma rooted_reference_is_its_own_destination_witness :
  possible_paths (L "/srv/fig.png") (P "/posts/2024/a.tex")
  = replicate 4 (Path.of_str (L "/srv/fig.png"))
  /\ P "/out" // L "/srv/fig.png" = Path.of_str (L "/srv/fig.png")
  /\ _resolve_asset_path (L "/srv/fig.png") (P "/posts/2024/a.tex")
       (mk_world C1_fs [])
     = (match path_exists C1_fs (Path.of_str (L "/srv/fig.png")) with
        | Ok true => Ok (Some (Path.of_str (L "/srv/fig.png")))
        | Ok false => Ok None
        | Raise e => Raise e
        end,
        mk_world C1_fs []).
Proof.
  apply (rooted_reference_is_its_own_destination (RT := SimpleFS.runtime)
           (L "/srv/fig.png") (P "/posts/2024/a.tex") (P "/out")
           (mk_world C1_fs [])).
  reflexivity.
Defined.

Lemma segments_slash_free s cur :
  ~ In "/"%char s -> Path.segments_from s cur = Path.keep (rev cur ++ s).
Proof.
  revert cur. induction s as [|c s IH]; intros cur Hno; simpl.
  - by rewrite app_nil_r.
  - destruct (Py.eqb_char c "/") eqn:E.
    + apply eqb_char_eq in E. subst c. destruct Hno. by left.
    + rewrite IH by (intros Hin; apply Hno; by right).
      simpl. by rewrite <- app_assoc.
Qed.

Lemma of_str_component s :
  ~ In "/"%char s -> s <> [] -> s <> L "." ->
  Path.of_str s = Path.mk [] [s].
Proof.
  intros Hno Hne Hdot. unfold Path.of_str.
  rewrite segments_slash_free by done. simpl.
  assert (Path.root_of s = []) as ->.
  { destruct s as [|c s]; [done|]. unfold Path.root_of. simpl.
    destruct (Py.eqb_char "/" c) eqn:E; [|done].
    apply eqb_char_eq in E. subst c. destruct Hno. by left. }
  unfold Path.keep.
  by rewrite (bool_decide_eq_false_2 _ Hne), (bool_decide_eq_false_2 _ Hdot).
Qed.

Lemma default_output_path (root_ : str) (ps : list str) (n : str) :
  ~ In "/"%char n ->
  Path.parent (Path.mk root_ (ps ++ [n]))
    // (L "converted_" ++ Path.name (Path.mk root_ (ps ++ [n])))
  = Path.mk root_ (ps ++ [L "converted_" ++ n]).
Proof.
  intros Hno. unfold Path.parent, Path.name. cbn [Path.root Path.parts].
  rewrite removelast_last, last_last.
  unfold Path.join. rewrite of_str_component.
  - done.
  - intros Hin. apply in_app_or in Hin as [Hin|Hin]; [|done].
    simpl in Hin. repeat destruct Hin as [Hin|Hin]; try discriminate Hin. done.
  - done.
  - done.
Qed.

(** Where the output goes without an output folder on the command
    line. For an input folder with a last component, it is the sibling
    of the input folder named [converted_] followed by that component.
    For an input path without components (the current directory [.],
    or a root), whose name is empty and whose parent is the path
    itself, it is the folder [converted_] inside the input folder. In
    both cases the run is the same as with that folder given. *)
Theorem default_output_folder_location {FS : Type} {RT : Runtime FS}
    (self : Tex2TexConverter) (input : Path.t) (use_symlinks : bool)
    (w : World FS) :
  ~ In "/"%char (Path.name input) ->
  let default :=
    match Path.parts input with
    | [] => Path.mk (Path.root input) [L "converted_"]
    | _ :: _ =>
        Path.mk (Path.root input)
          (removelast (Path.parts input)
             ++ [L "converted_" ++ Path.name input])
    end in
  convert_folder self input None use_symlinks w
  = convert_folder self input (Some default) use_symlinks w
  /\ (Path.parts input = [] -> Path.parent default = input)
  /\ (Path.parts input <> [] ->
      Path.parent default = Path.parent input
      /\ Path.name default = L "converted_" ++ Path.name input).
Proof.
  destruct input as [root_ parts_]. cbn [Path.parts Path.root].
  destruct parts_ as [|n ps _] using rev_ind.
  - intros _. cbv zeta. split; [reflexivity|]. split; [done|done].
  - unfold Path.name at 1. cbn [Path.parts]. rewrite last_last. intros Hno.
    assert (match ps ++ [n] with
            | [] => Path.mk root_ [L "converted_"]
            | _ :: _ =>
                Path.mk root_
                  (removelast (ps ++ [n])
                     ++ [L "converted_" ++ Path.name (Path.mk root_ (ps ++ [n]))])
            end = Path.mk root_ (ps ++ [L "converted_" ++ n])) as ->.
    { unfold Path.name. cbn [Path.parts]. rewrite removelast_last, last_last.
      by destruct (ps ++ [n]) eqn:E; [destruct ps; discriminate E|]. }
    cbv zeta. split.
    + rewrite <- (default_output_path root_ ps n Hno). reflexivity.
    + split; [by destruct ps|]. intros _.
      unfold Path.parent, Path.name. cbn [Path.parts Path.root].
      by rewrite !removelast_last, !last_last.
Qed.

Lemma default_output_folder_location_witness :
  convert_folder demo_self (P "/posts/2024") None false (mk_world demo_fs [])
  = convert_folder demo_self (P "/posts/2024")
      (Some (P "/posts/converted_2024")) false (mk_world demo_fs [])
  /\ convert_folder demo_self (P ".") None false (mk_world demo_fs [])
     = convert_folder demo_self (P ".") (Some (P "./converted_")) false
         (mk_world demo_fs []).
Proof.
  split.
  - apply (default_output_folder_location (RT := SimpleFS.runtime) demo_self
             (P "/posts/2024") false (mk_world demo_fs [])).
    simpl. intros [H|[H|[H|[H|[]]]]]; discriminate H.
  - apply (default_output_folder_location (RT := SimpleFS.runtime) demo_self
             (P ".") false (mk_world demo_fs [])).
    simpl. tauto.
Defined.

Lemma find_root_dir_nearest {FS : Type} {RT : Runtime FS} (fs : FS)
    root_ rparts :
  let at_ n := Path.mk root_ (take n (rev rparts)) in
  exists n,
    (n <= length rparts)%nat
    /\ (forall k, (n < k <= length rparts)%nat ->
          path_exists fs (at_ k // L "assets") = Ok false)
    /\ ((n = 0%nat /\ find_root_dir fs root_ rparts = Ok (at_ 0%nat))
        \/ ((0 < n)%nat
            /\ path_exists fs (at_ n // L "assets") = Ok true
            /\ find_root_dir fs root_ rparts = Ok (at_ n))
        \/ ((0 < n)%nat
            /\ exists e,
                 path_exists fs (at_ n // L "assets") = Raise e
                 /\ find_root_dir fs root_ rparts = Raise e)).
Proof.
  cbv zeta. induction rparts as [|a up IH]; cbn [find_root_dir].
  - exists 0%nat. split; [done|]. split; [intros; simpl in *; lia|by left].
  - assert (take (S (length up)) (rev (a :: up)) = rev (a :: up)) as Hall.
    { apply take_ge. rewrite length_rev. simpl. lia. }
    destruct (path_exists fs (Path.mk root_ (rev (a :: up)) // L "assets"))
      as [[]|e] eqn:E.
    + exists (S (length up)). split; [simpl; lia|].
      split; [intros k; simpl; lia|]. right. left.
      rewrite Hall. split; [lia|done].
    + destruct IH as (n & Hn & Habove & Hcases).
      exists n. cbn [rev]. split; [simpl; lia|].
      split.
      * intros k Hk. simpl in Hk.
        destruct (decide (k = S (length up))) as [->|Hne].
        -- rewrite take_ge by (rewrite length_app, length_rev; simpl; lia).
           exact E.
        -- rewrite take_app_le by (rewrite length_rev; lia).
           apply Habove. lia.
      * rewrite !take_app_le by (rewrite length_rev; lia). simpl take at 1.
        exact Hcases.
    + exists (S (length up)). split; [simpl; lia|].
      split; [intros k; simpl; lia|]. right. right.
      rewrite Hall. split; [lia|]. by exists e.
Qed.

(** The walk of symbolic-link mode stops at the nearest directory, from
    the document's directory upward, that has an [assets] entry, every
    directory passed on the way having been tested and found without
    one; it ends at the path without components only when no directory
    on the way has one. A test that raises ends the walk at that
    directory with its exception. *)
Theorem walk_up_stops_at_nearest_assets {FS : Type} {RT : Runtime FS}
    (fs : FS) (tex_file : Path.t) :
  let d := Path.parent tex_file in
  let walk := find_root_dir fs (Path.root d) (rev (Path.parts d)) in
  exists n,
    (n <= length (Path.parts d))%nat
    /\ (forall k, (n < k <= length (Path.parts d))%nat ->
          path_exists fs (upward d k // L "assets") = Ok false)
    /\ ((n = 0%nat /\ walk = Ok (upward d 0))
        \/ ((0 < n)%nat
            /\ path_exists fs (upward d n // L "assets") = Ok true
            /\ walk = Ok (upward d n))
        \/ ((0 < n)%nat
            /\ exists e,
                 path_exists fs (upward d n // L "assets") = Raise e
                 /\ walk = Raise e)).
Proof.
  intros d walk.
  destruct (find_root_dir_nearest fs (Path.root d) (rev (Path.parts d)))
    as (n & Hn & Habove & Hcases).
  rewrite rev_involutive in Habove, Hcases. rewrite length_rev in Hn, Habove.
  by exists n.
Qed.

(** ** What a quiet run prints *)

Section Emits.

Context {FS : Type} (P : str -> Prop).

Lemma emits_ret {A} (a : A) : emits (FS := FS) P (mret a).
Proof.
  intros w r w' [= <- <-]. exists []. by rewrite app_nil_r.
Qed.

Lemma emits_lift {A} (x : result A) : emits (FS := FS) P (lift x).
Proof.
  intros w r w' [= <- <-]. exists []. by rewrite app_nil_r.
Qed.

Lemma emits_reading {A} (f : FS -> A) : emits P (reading f).
Proof.
  intros w r w' [= <- <-]. exists []. by rewrite app_nil_r.
Qed.

Lemma emits_reading_result {A} (f : FS -> result A) :
  emits P (reading_result f).
Proof.
  intros w r w' [= <- <-]. exists []. by rewrite app_nil_r.
Qed.

Lemma emits_writing (f : FS -> result unit * FS) : emits P (writing f).
Proof.
  intros w r w'. unfold writing. destruct (f (w_fs w)) as [r0 fs'].
  intros [= <- <-]. exists []. by rewrite app_nil_r.
Qed.

Lemma emits_print (line : str) : P line -> emits (FS := FS) P (print line).
Proof.
  intros Hl w r w' [= <- <-]. exists [line]. split; [done|]. by constructor.
Qed.

Lemma emits_bind {A B} (m : M FS A) (f : A -> M FS B) :
  emits P m -> (forall a, emits P (f a)) -> emits P (m ≫= f).
Proof.
  intros Hm Hf w r w'. unfold mbind, M_bind.
  destruct (m w) as [[a|e] w1] eqn:E.
  - intros Hfa. destruct (Hm _ _ _ E) as (l1 & H1 & F1).
    destruct (Hf a _ _ _ Hfa) as (l2 & H2 & F2).
    exists (l1 ++ l2). rewrite H2, H1, <- app_assoc. split; [done|].
    by apply Forall_app.
  - intros [= <- <-]. by apply (Hm _ _ _ E).
Qed.

Lemma emits_try_except {A} (body : M FS A) (handler : exn -> M FS A) :
  emits P body -> (forall e, emits P (handler e)) ->
  emits P (try_except body handler).
Proof.
  intros Hb Hh w r w'. unfold try_except.
  destruct (body w) as [[a|e] w1] eqn:E.
  - intros [= <- <-]. by apply (Hb _ _ _ E).
  - intros Hhe. destruct (Hb _ _ _ E) as (l1 & H1 & F1).
    destruct (Hh e _ _ _ Hhe) as (l2 & H2 & F2).
    exists (l1 ++ l2). rewrite H2, H1, <- app_assoc. split; [done|].
    by apply Forall_app.
Qed.

Lemma emits_try_except_OSError {A} (body : M FS A) (handler : exn -> M FS A) :
  emits P body -> (forall e, emits P (handler e)) ->
  emits P (try_except_OSError body handler).
Proof.
  intros Hb Hh w r w'. unfold try_except_OSError.
  destruct (body w) as [[a|e] w1] eqn:E.
  - intros [= <- <-]. by apply (Hb _ _ _ E).
  - destruct (is_OSError e).
    + intros Hhe. destruct (Hb _ _ _ E) as (l1 & H1 & F1).
      destruct (Hh e _ _ _ Hhe) as (l2 & H2 & F2).
      exists (l1 ++ l2). rewrite H2, H1, <- app_assoc. split; [done|].
      by apply Forall_app.
    + intros [= <- <-]. by apply (Hb _ _ _ E).
Qed.

Lemma emits_for_each {A B} (l : list A) (acc : B) (body : B -> A -> M FS B) :
  (forall acc x, emits P (body acc x)) -> emits P (for_each l acc body).
Proof.
  intros Hbody. revert acc. induction l as [|x l IH]; intros acc; simpl.
  - apply emits_ret.
  - apply emits_bind; [apply Hbody|]. intros acc'. apply IH.
Qed.

End Emits.

Lemma alert_line (level message : str) :
  level ∈ [ERROR; WARNING] -> is_alert (level ++ L ": " ++ message).
Proof.
  intros Hl. apply elem_of_cons in Hl as [->|Hl].
  - right. apply (startswith_app (L "ERROR: ")).
  - apply list_elem_of_singleton in Hl as ->.
    left. apply (startswith_app (L "WARNING: ")).
Qed.

(** With [verbose] off, [log] prints warnings and errors only. *)
Lemma emits_log_quiet {FS : Type} {RT : Runtime FS} self (message level : str) :
  verbose self = false -> emits (FS := FS) is_alert (log self message level).
Proof.
  intros Hq. unfold log. rewrite Hq. simpl.
  destruct (bool_decide (level ∈ [ERROR; WARNING])) eqn:E.
  - apply emits_print. apply bool_decide_eq_true_1 in E. by apply alert_line.
  - apply emits_ret.
Qed.

Ltac emits_step Hq :=
  first
    [ apply emits_ret
    | apply emits_lift
    | apply emits_reading
    | apply emits_reading_result
    | apply emits_writing
    | apply (emits_log_quiet _ _ _ Hq)
    | apply emits_bind; [|intros ?]
    | apply emits_try_except_OSError; [|intros ?]
    | apply emits_try_except; [|intros ?]
    | apply emits_for_each; intros ? ?
    | match goal with
      | |- emits _ (if ?b then _ else _) => destruct b
      | |- emits _ (match ?x with _ => _ end) => destruct x
      | |- emits _ (let '(_, _) := ?x in _) => destruct x
      end ].

Section QuietRun.

Context {FS : Type} {RT : Runtime FS}.
Variable self : Tex2TexConverter.
Hypothesis quiet : verbose self = false.

Lemma emits_copy_assets tex_file output_dir use_symlinks :
  emits is_alert (copy_assets self tex_file output_dir use_symlinks).
Proof.
  unfold copy_assets, _find_asset_references, link_assets, copy_one,
    fallback_copy_one, _resolve_asset_path, resolved_and_exists, copy_to.
  repeat emits_step quiet.
Qed.

Lemma emits_convert_file tex_file output_dir folder_name use_symlinks :
  emits is_alert
    (convert_file self tex_file output_dir folder_name use_symlinks).
Proof.
  unfold convert_file, convert_extracted, extract_content.
  repeat first [apply emits_copy_assets | emits_step quiet].
Qed.

Lemma emits_convert_folder input output use_symlinks :
  emits is_alert (convert_folder self input output use_symlinks).
Proof.
  unfold convert_folder, find_tex_files, convert_all, count_one.
  repeat first [apply emits_convert_file | emits_step quiet].
Qed.

End QuietRun.

(** A run with [verbose] off prints nothing but warnings and errors:
    every line [convert_folder] adds to the output, through whichever
    method, starts with [WARNING: ] or [ERROR: ]. *)
Theorem quiet_run_prints_only_alerts {FS : Type} {RT : Runtime FS}
    (self : Tex2TexConverter) (input : Path.t) (output : option Path.t)
    (use_symlinks : bool) (w w' : World FS) (r : result Z) :
  verbose self = false ->
  convert_folder self input output use_symlinks w = (r, w') ->
  exists lines, w_out w' = w_out w ++ lines /\ Forall is_alert lines.
Proof.
  intros Hq Hrun. by eapply emits_convert_folder.
Qed.

Lemma quiet_run_prints_only_alerts_witness :
  exists lines,
    [ L "ERROR: Error converting 2024-13-01.tex: list index out of range";
      L "WARNING: No document environment found in b.tex" ]
    = [] ++ lines
    /\ Forall is_alert lines.
Proof.
  apply (quiet_run_prints_only_alerts (RT := SimpleFS.runtime) demo_self
           (P "/posts") (Some (P "/out")) false (mk_world C5_fs [])
           (mk_world
              (snd (convert_folder demo_self (P "/posts") (Some (P "/out"))
                      false (mk_world C5_fs []))).(w_fs)
              [ L "ERROR: Error converting 2024-13-01.tex: list index out of range";
                L "WARNING: No document environment found in b.tex" ])
           (Ok 2)).
  - reflexivity.
  - vm_compute. reflexivity.
Defined.

(** ** Extraction: the text between the markers, unreadable documents *)

(** For a document whose first begin marker comes before its first end
    marker, the extracted body is the text strictly between the two,
    trimmed, with the title links and then the empty sections removed. *)
Theorem extract_content_between_markers {FS : Type} {RT : Runtime FS}
    (self : Tex2TexConverter) (tex_file : Path.t) (w : World FS)
    (content pre body post : str) :
  read_text (w_fs w) tex_file = Ok content ->
  first_occurrence BEGIN_DOCUMENT content pre (body ++ END_DOCUMENT ++ post) ->
  first_occurrence END_DOCUMENT content (pre ++ BEGIN_DOCUMENT ++ body) post ->
  exists lines,
    extract_content self tex_file w
    = (Ok (Some (Re.sub_empty Re.empty_section_re
                   (Re.sub_empty Re.href_re (Py.strip body)))),
       mk_world (w_fs w) (w_out w ++ lines)).
Proof.
  intros Hread Hbegin Hend.
  pose proof (first_occurrence_find _ _ _ _ Hbegin) as Fb.
  pose proof (first_occurrence_find _ _ _ _ Hend) as Fe.
  destruct Hbegin as [Hcontent _].
  unfold extract_content, try_except, mbind, M_bind, reading_result.
  rewrite Hread, Fb, Fe.
  replace ((Z.of_nat (length pre) =? -1)
           || (Z.of_nat (length (pre ++ BEGIN_DOCUMENT ++ body)) =? -1))
    with false.
  2:{ symmetry. apply orb_false_iff. split; apply Z.eqb_neq; lia. }
  unfold clean_body.
  assert (Py.slice content
            (Some (Z.of_nat (length pre) + Z.of_nat (length BEGIN_DOCUMENT)))
            (Some (Z.of_nat (length (pre ++ BEGIN_DOCUMENT ++ body)))) = body)
    as ->.
  { rewrite <- Nat2Z.inj_add. rewrite slice_between.
    - rewrite Hcontent.
      replace (pre ++ BEGIN_DOCUMENT ++ body ++ END_DOCUMENT ++ post)
        with ((pre ++ BEGIN_DOCUMENT) ++ body ++ END_DOCUMENT ++ post)
        by by rewrite <- app_assoc.
      rewrite <- length_app, drop_app_length.
      rewrite !length_app.
      replace (length pre + (length BEGIN_DOCUMENT + length body)
               - (length pre + length BEGIN_DOCUMENT))%nat
        with (length body) by lia.
      by rewrite take_app_length.
    - rewrite !length_app. lia.
    - rewrite Hcontent, !length_app. lia. }
  match goal with |- context [log self ?m INFO ?w0] =>
    destruct (log_total self m INFO w0) as [lines ->] end.
  by exists lines.
Qed.

Lemma extract_content_between_markers_witness :
  exists lines,
    extract_content demo_self (P "/posts/2024/2024-03-15-notes.tex")
      (mk_world demo_fs [])
    = (Ok (Some (Re.sub_empty Re.empty_section_re
                   (Re.sub_empty Re.href_re
                      (Py.strip ([nl] ++ L "Hello world.\includegraphics{fig1.png}"
                                   ++ [nl]))))),
       mk_world demo_fs ([] ++ lines)).
Proof.
  apply (extract_content_between_markers (RT := SimpleFS.runtime) demo_self
           (P "/posts/2024/2024-03-15-notes.tex") (mk_world demo_fs [])
           (L "\documentclass{article}\begin{document}" ++ [nl]
              ++ L "Hello world.\includegraphics{fig1.png}" ++ [nl]
              ++ L "\end{document}")
           (L "\documentclass{article}")
           ([nl] ++ L "Hello world.\includegraphics{fig1.png}" ++ [nl]) []).
  - reflexivity.
  - apply first_occurrence_intro; reflexivity.
  - apply first_occurrence_intro; reflexivity.
Defined.

(** A document that cannot be read is skipped, not fatal: extraction
    logs the error with the name of the file and the text of the
    exception and returns [None]; [convert_file] returns [False] and the
    file system is left as it was. *)
Theorem unreadable_document_is_skipped {FS : Type} {RT : Runtime FS}
    (self : Tex2TexConverter) (tex_file output_dir : Path.t)
    (folder_name : str) (use_symlinks : bool) (w : World FS) (e : exn) :
  read_text (w_fs w) tex_file = Raise e ->
  let logged :=
    mk_world (w_fs w)
      (w_out w ++ [L "ERROR: Error extracting content from "
                     ++ Path.name tex_file ++ L ": " ++ exn_msg e]) in
  extract_content self tex_file w = (Ok None, logged)
  /\ convert_file self tex_file output_dir folder_name use_symlinks w
     = (Ok false, logged).
Proof.
  intros Hread logged.
  assert (extract_content self tex_file w = (Ok None, logged)) as Hext.
  { unfold extract_content, try_except, mbind, M_bind, reading_result.
    by rewrite Hread, log_error. }
  split; [done|].
  unfold convert_file, try_except. unfold mbind at 1, M_bind at 1.
  by rewrite Hext.
Qed.

Lemma unreadable_document_is_skipped_witness :
  let w := mk_world demo_fs [] in
  let logged :=
    mk_world demo_fs
      ([] ++ [L "ERROR: Error extracting content from "
                ++ Path.name (P "/posts/2024/missing.tex") ++ L ": "
                ++ L "No such file or directory"]) in
  extract_content demo_self (P "/posts/2024/missing.tex") w = (Ok None, logged)
  /\ convert_file demo_self (P "/posts/2024/missing.tex") (P "/out") (L "2024")
       false w
     = (Ok false, logged).
Proof.
  apply (unreadable_document_is_skipped (RT := SimpleFS.runtime) demo_self
           (P "/posts/2024/missing.tex") (P "/out") (L "2024") false
           (mk_world demo_fs [])
           (mk_exn OSError (L "No such file or directory"))).
  reflexivity.
Defined.

(** ** One file, from the extracted body to the outcome *)

(** Once the injection has succeeded and the output file is written,
    the outcome of [convert_file]'s body is decided by the asset
    handling alone. *)
Lemma convert_extracted_after_write {FS : Type} {RT : Runtime FS}
    (self : Tex2TexConverter) (tex_file output_dir : Path.t)
    (folder_name : str) (use_symlinks : bool) (c t : str)
    (w1 : World FS) (fs1 : FS) :
  inject_personal_info self (template self) tex_file folder_name = Ok t ->
  write_text (w_fs w1) (output_dir // Path.name tex_file) (new_content t c)
  = (Ok tt, fs1) ->
  exists l1,
    forall r w',
      copy_assets self tex_file output_dir use_symlinks
        (mk_world fs1 (w_out w1 ++ l1)) = (r, w') ->
      match r with
      | Ok _ =>
          exists l2,
            convert_extracted self tex_file output_dir folder_name
              use_symlinks c w1
            = (Ok true, mk_world (w_fs w') (w_out w' ++ l2))
      | Raise e =>
          convert_extracted self tex_file output_dir folder_name
            use_symlinks c w1
          = (Raise e, w')
      end.
Proof.
  intros Hinj Hwrite.
  destruct (inject_ok_date _ _ _ _ _ Hinj) as [info Hdate].
  unfold convert_extracted, mbind, M_bind, lift, writing.
  rewrite Hinj, Hdate. cbv beta iota zeta. rewrite Hwrite.
  match goal with |- context [(if use_symlinks then ?a else ?b) ?w0] =>
    assert (exists l1, (if use_symlinks then a else b) w0
                       = (Ok tt, mk_world (w_fs w0) (w_out w0 ++ l1)))
      as [l1 ->] by (destruct use_symlinks; apply log_total)
  end.
  cbn [w_fs w_out]. exists l1. intros r w' Hcopy. rewrite Hcopy.
  destruct r as [cs|e]; [|done].
  match goal with |- context [log self ?m INFO ?w0] =>
    destruct (log_total self m INFO w0) as [l2 ->] end.
  by exists l2.
Qed.

(** The success path of one file. When the body [c] is extracted, the
    injection gives [t], and neither the writing nor the asset handling
    raises, [convert_file] writes [t] with [c] spliced in to the file of
    the same name in the output directory, then handles the assets, and
    returns [True]. *)
Theorem convert_file_writes_composed_text {FS : Type} {RT : Runtime FS}
    (self : Tex2TexConverter) (tex_file output_dir : Path.t)
    (folder_name : str) (use_symlinks : bool) (c t : str)
    (w w1 : World FS) (fs1 : FS) :
  extract_content self tex_file w = (Ok (Some c), w1) ->
  inject_personal_info self (template self) tex_file folder_name = Ok t ->
  write_text (w_fs w1) (output_dir // Path.name tex_file) (new_content t c)
  = (Ok tt, fs1) ->
  (forall out, exists cs w',
      copy_assets self tex_file output_dir use_symlinks (mk_world fs1 out)
      = (Ok cs, w')) ->
  exists out cs w' lines,
    copy_assets self tex_file output_dir use_symlinks (mk_world fs1 out)
    = (Ok cs, w')
    /\ convert_file self tex_file output_dir folder_name use_symlinks w
       = (Ok true, mk_world (w_fs w') (w_out w' ++ lines)).
Proof.
  intros Hext Hinj Hwrite Hassets.
  destruct (convert_extracted_after_write self tex_file output_dir folder_name
              use_symlinks c t w1 fs1 Hinj Hwrite) as [l1 Hrun].
  destruct (Hassets (w_out w1 ++ l1)) as (cs & w' & Hcopy).
  destruct (Hrun _ _ Hcopy) as [l2 Hbody].
  exists (w_out w1 ++ l1), cs, w', l2. split; [done|].
  unfold convert_file, try_except. unfold mbind at 1, M_bind at 1.
  by rewrite Hext, Hbody.
Qed.

Lemma convert_file_writes_composed_text_witness :
  exists out cs w' lines,
    copy_assets bare_self (P "/posts/a.tex") (P "/out") false
      (mk_world
         [ (P "/posts/a.tex",
              SimpleFS.File (BEGIN_DOCUMENT ++ L "Hello world." ++ END_DOCUMENT));
           (P "/out", SimpleFS.Dir);
           (P "/out/a.tex", SimpleFS.File (L "Hello world." ++ [nl; nl])) ] out)
    = (Ok cs, w')
    /\ convert_file
         bare_self
         (P "/posts/a.tex") (P "/out") (L "posts") false
         (mk_world
            [ (P "/posts/a.tex",
                 SimpleFS.File (BEGIN_DOCUMENT ++ L "Hello world." ++ END_DOCUMENT));
              (P "/out", SimpleFS.Dir) ] [])
       = (Ok true, mk_world (w_fs w') (w_out w' ++ lines)).
Proof.
  apply (convert_file_writes_composed_text (RT := SimpleFS.runtime)
           bare_self
           (P "/posts/a.tex") (P "/out") (L "posts") false
           (L "Hello world.") []
           (mk_world
              [ (P "/posts/a.tex",
                   SimpleFS.File (BEGIN_DOCUMENT ++ L "Hello world." ++ END_DOCUMENT));
                (P "/out", SimpleFS.Dir) ] [])
           (mk_world
              [ (P "/posts/a.tex",
                   SimpleFS.File (BEGIN_DOCUMENT ++ L "Hello world." ++ END_DOCUMENT));
                (P "/out", SimpleFS.Dir) ] [])).
  - reflexivity.
  - reflexivity.
  - reflexivity.
  - intros out. by eexists _, _.
Defined.

(** Nothing is rolled back. When the asset handling raises after the
    output file is written, [convert_file] logs the error and returns
    [False], and the file system it leaves is the one the asset handling
    left, which started from the file system with the output file in
    it. *)
Theorem asset_failure_after_output_written {FS : Type} {RT : Runtime FS}
    (self : Tex2TexConverter) (tex_file output_dir : Path.t)
    (folder_name : str) (use_symlinks : bool) (c t : str)
    (w w1 : World FS) (fs1 : FS) (e : exn) :
  extract_content self tex_file w = (Ok (Some c), w1) ->
  inject_personal_info self (template self) tex_file folder_name = Ok t ->
  write_text (w_fs w1) (output_dir // Path.name tex_file) (new_content t c)
  = (Ok tt, fs1) ->
  (forall out, exists w',
      copy_assets self tex_file output_dir use_symlinks (mk_world fs1 out)
      = (Raise e, w')) ->
  exists out w',
    copy_assets self tex_file output_dir use_symlinks (mk_world fs1 out)
    = (Raise e, w')
    /\ convert_file self tex_file output_dir folder_name use_symlinks w
       = (Ok false,
          mk_world (w_fs w')
            (w_out w' ++ [L "ERROR: Error converting " ++ Path.name tex_file
                            ++ L ": " ++ exn_msg e])).
Proof.
  intros Hext Hinj Hwrite Hassets.
  destruct (convert_extracted_after_write self tex_file output_dir folder_name
              use_symlinks c t w1 fs1 Hinj Hwrite) as [l1 Hrun].
  destruct (Hassets (w_out w1 ++ l1)) as (w' & Hcopy).
  pose proof (Hrun _ _ Hcopy) as Hbody. cbv beta iota in Hbody.
  exists (w_out w1 ++ l1), w'. split; [done|].
  by apply (convert_file_catches self tex_file output_dir folder_name
              use_symlinks w w1 w' c e).
Qed.

Lemma asset_failure_after_output_written_witness :
  exists out w',
    copy_assets bare_self (P "/posts/a.tex") (P "/out") false
      (mk_world
         (asset_failure_fs
            ++ [(P "/out/a.tex",
                  SimpleFS.File (L "\includegraphics{figs}" ++ [nl; nl]))]) out)
    = (Raise (mk_exn OSError (L "Is a directory")), w')
    /\ convert_file bare_self
         (P "/posts/a.tex") (P "/out") (L "posts") false
         (mk_world asset_failure_fs [])
       = (Ok false,
          mk_world (w_fs w')
            (w_out w' ++ [L "ERROR: Error converting "
                            ++ Path.name (P "/posts/a.tex") ++ L ": "
                            ++ L "Is a directory"])).
Proof.
  apply (asset_failure_after_output_written (RT := SimpleFS.runtime)
           bare_self
           (P "/posts/a.tex") (P "/out") (L "posts") false
           (L "\includegraphics{figs}") []
           (mk_world asset_failure_fs []) (mk_world asset_failure_fs [])).
  - reflexivity.
  - reflexivity.
  - reflexivity.
  - intros out. by eexists.
Defined.

(** ** Asset handling: the fallback, the destinations, nothing to copy *)

Section CopyLoops.

Context {FS : Type} {RT : Runtime FS}.
Variable self : Tex2TexConverter.
Variables tex_file output_dir : Path.t.

Lemma first_existing_found (fs : FS) (paths : list Path.t) (p : Path.t) :
  first_existing fs paths = Ok (Some p) -> path_exists fs p = Ok true.
Proof.
  induction paths as [|q paths IH]; cbn [first_existing]; [done|].
  destruct (path_exists fs q) as [[]|e] eqn:E; [|done|done].
  by intros [= <-].
Qed.

(** One reference, handled by the fallback loop and by the copy-mode
    loop from the same file system: same value, same file system. *)
Lemma copy_steps_agree (acc : list Path.t) (x : str) (fs : FS) (o1 o2 : list str) :
  exists r fs' o1' o2',
    fallback_copy_one self tex_file output_dir acc x (mk_world fs o1)
    = (r, mk_world fs' o1')
    /\ copy_one self tex_file output_dir acc x (mk_world fs o2)
       = (r, mk_world fs' o2').
Proof.
  unfold fallback_copy_one, copy_one, _resolve_asset_path,
    resolved_and_exists, copy_to, mbind, M_bind, reading, reading_result,
    writing, mret, M_ret.
  cbn [w_fs w_out].
  destruct (first_existing fs (possible_paths x tex_file)) as [[p|]|e0].
  - cbn [w_fs w_out]. destruct (path_exists fs p) as [[]|e0].
    + cbn [w_fs w_out].
      destruct (mkdir_parents fs (Path.parent (output_dir // x)))
        as [[[]|e] fs1]; [|by eexists _, _, _, _].
      cbn [w_fs w_out].
      destruct (copy2 fs1 p (output_dir // x)) as [[[]|e] fs2];
        [|by eexists _, _, _, _].
      cbn [w_fs w_out].
      destruct (log_total self (L "Fallback: Copied asset: " ++ x) INFO
                  (mk_world fs2 o1)) as [l1 ->].
      destruct (log_total self (L "Copied asset: " ++ x) INFO
                  (mk_world fs2 o2)) as [l2 ->].
      by eexists _, _, _, _.
    + rewrite log_warning. by eexists _, _, _, _.
    + by eexists _, _, _, _.
  - rewrite log_warning. by eexists _, _, _, _.
  - by eexists _, _, _, _.
Qed.

Lemma copy_loops_agree (refs : list str) (acc : list Path.t) (fs : FS)
    (o1 o2 : list str) :
  exists r fs' o1' o2',
    for_each refs acc (fallback_copy_one self tex_file output_dir)
      (mk_world fs o1) = (r, mk_world fs' o1')
    /\ for_each refs acc (copy_one self tex_file output_dir)
         (mk_world fs o2) = (r, mk_world fs' o2').
Proof.
  revert acc fs o1 o2. induction refs as [|x refs IH]; intros acc fs o1 o2.
  - by eexists _, _, _, _.
  - cbn [for_each]. unfold mbind, M_bind.
    destruct (copy_steps_agree acc x fs o1 o2)
      as (r & fs' & o1' & o2' & -> & ->).
    destruct r as [acc'|e]; [apply IH|by eexists _, _, _, _].
Qed.

(** One turn of the copy-mode loop that returns: either the reference
    is found nowhere and nothing changes but the log, or it is found,
    copied and recorded. *)
Lemma copy_one_returns (acc acc' : list Path.t) (x : str) (w w1 : World FS) :
  copy_one self tex_file output_dir acc x w = (Ok acc', w1) ->
  (first_existing (w_fs w) (possible_paths x tex_file) = Ok None
   /\ acc' = acc /\ w_fs w1 = w_fs w)
  \/ (exists source fs1,
        first_existing (w_fs w) (possible_paths x tex_file) = Ok (Some source)
        /\ mkdir_parents (w_fs w) (Path.parent (output_dir // x)) = (Ok tt, fs1)
        /\ copy2 fs1 source (output_dir // x) = (Ok tt, w_fs w1)
        /\ acc' = acc ++ [output_dir // x]).
Proof.
  unfold copy_one, _resolve_asset_path, resolved_and_exists,
    copy_to, mbind, M_bind, reading, reading_result, writing, mret, M_ret.
  destruct (first_existing (w_fs w) (possible_paths x tex_file))
    as [[p|]|e0] eqn:Ef; [| |done].
  - rewrite (first_existing_found _ _ _ Ef).
    destruct (mkdir_parents _ _) as [[[]|e] fs1] eqn:Em; [|done].
    cbn [w_fs w_out]. destruct (copy2 _ _ _) as [[[]|e] fs2] eqn:Ec; [|done].
    match goal with |- context [log self ?m INFO ?w0] =>
      destruct (log_total self m INFO w0) as [l ->] end.
    intros [= <- <-]. right. by exists p, fs1.
  - rewrite log_warning. intros [= <- <-]. by left.
Qed.

(** What the copy-mode loop returns: after what it started with, the
    destination of every reference it copied, and of no other. *)
Lemma copy_loop_copied (refs : list str) (acc cs : list Path.t)
    (w w' : World FS) :
  for_each refs acc (copy_one self tex_file output_dir) w = (Ok cs, w') ->
  exists picked,
    copied tex_file output_dir (w_fs w) refs picked (w_fs w')
    /\ cs = acc ++ map (fun r => output_dir // r) picked.
Proof.
  revert acc w. induction refs as [|x refs IH]; intros acc w; cbn [for_each].
  - intros [= <- <-]. exists []. split; [constructor|by rewrite app_nil_r].
  - unfold mbind at 1, M_bind at 1.
    destruct (copy_one self tex_file output_dir acc x w) as [[acc'|e] w1] eqn:E;
      [|done].
    intros Hrest. destruct (IH _ _ Hrest) as (picked & Hcopied & ->).
    apply copy_one_returns in E
      as [(Hnone & -> & Hfs)|(source & fs1 & Hfound & Hmk & Hcp & ->)].
    + exists picked. split; [|done].
      apply copied_skip; [done|]. by rewrite <- Hfs.
    + exists (x :: picked). split; [|by rewrite <- app_assoc].
      by eapply copied_copy.
Qed.

Lemma copied_sublist (fs fs' : FS) (refs picked : list str) :
  copied tex_file output_dir fs refs picked fs' -> picked `sublist_of` refs.
Proof.
  induction 1; [constructor|by apply sublist_cons|by apply sublist_skip].
Qed.

End CopyLoops.

(** When creating the link raises an [OSError], symbolic-link mode does
    what copy mode does, from the file system the failed attempt left:
    [copy_assets] returns the same value (the same list, or the same
    exception) and leaves the same file system as the copy-mode loop
    over the references. Only the printed lines differ. *)
Theorem symlink_failure_copies_like_copy_mode {FS : Type} {RT : Runtime FS}
    (self : Tex2TexConverter) (tex_file output_dir : Path.t)
    (w w1 : World FS) (x : str) (refs : list str) (e : exn) (fs3 : FS) :
  _find_asset_references self tex_file w = (Ok (x :: refs), w1) ->
  (forall out, exists out',
      link_assets self tex_file output_dir (mk_world (w_fs w1) out)
      = (Raise e, mk_world fs3 out')) ->
  is_OSError e = true ->
  exists r fs' o_link o_copy,
    copy_assets self tex_file output_dir true w = (r, mk_world fs' o_link)
    /\ for_each (x :: refs) [] (copy_one self tex_file output_dir)
         (mk_world fs3 []) = (r, mk_world fs' o_copy).
Proof.
  intros Hrefs Hlink Hos.
  unfold copy_assets. unfold mbind at 1, M_bind at 1. rewrite Hrefs.
  unfold mbind at 1, M_bind at 1.
  match goal with |- context [log self ?m INFO ?w0] =>
    destruct (log_total self m INFO w0) as [l1 ->] end.
  unfold try_except_OSError.
  destruct (Hlink (w_out w1 ++ l1)) as [out' ->]. rewrite Hos.
  unfold mbind at 1, M_bind at 1. rewrite log_warning. cbn [w_fs w_out].
  apply copy_loops_agree.
Qed.

Lemma symlink_failure_copies_like_copy_mode_witness :
  exists r fs' o_link o_copy,
    copy_assets demo_self (P "/posts/a.tex") (P "/out") true
      (mk_world link_failure_fs []) = (r, mk_world fs' o_link)
    /\ for_each (L "fig1.png" :: []) []
         (copy_one demo_self (P "/posts/a.tex") (P "/out"))
         (mk_world link_failure_fs []) = (r, mk_world fs' o_copy).
Proof.
  apply (symlink_failure_copies_like_copy_mode (RT := SimpleFS.runtime)
           demo_self (P "/posts/a.tex") (P "/out")
           (mk_world link_failure_fs []) (mk_world link_failure_fs [])
           (L "fig1.png") [] (mk_exn OSError (L "Is a directory"))
           link_failure_fs).
  - reflexivity.
  - intros out. eexists. vm_compute. reflexivity.
  - reflexivity.
Defined.

(** In copy mode the list [copy_assets] returns is the list of the
    destinations of the copies made: going through the references in
    order, every reference found at its turn at one of its candidate
    locations is copied to the output directory joined with it and that
    destination is recorded; a reference found nowhere adds nothing.
    The file system left is the one after the last copy. *)
Theorem copied_files_are_the_copies_made
    {FS : Type} {RT : Runtime FS}
    (self : Tex2TexConverter) (tex_file output_dir : Path.t)
    (w w1 w' : World FS) (refs : list str) (cs : list Path.t) :
  _find_asset_references self tex_file w = (Ok refs, w1) ->
  copy_assets self tex_file output_dir false w = (Ok cs, w') ->
  exists picked,
    copied tex_file output_dir (w_fs w1) refs picked (w_fs w')
    /\ picked `sublist_of` refs
    /\ cs = map (fun r => output_dir // r) picked.
Proof.
  intros Hrefs. unfold copy_assets. unfold mbind at 1, M_bind at 1.
  rewrite Hrefs. destruct refs as [|x refs].
  - unfold mbind, M_bind.
    match goal with |- context [log self ?m INFO ?w0] =>
      destruct (log_total self m INFO w0) as [l1 ->] end.
    intros [= <- <-]. exists []. split; [constructor|done].
  - unfold mbind at 1, M_bind at 1.
    match goal with |- context [log self ?m INFO ?w0] =>
      destruct (log_total self m INFO w0) as [l1 ->] end.
    intros Hloop. apply copy_loop_copied in Hloop as (picked & Hcopied & ->).
    exists picked. split; [done|]. split; [|done].
    by eapply copied_sublist.
Qed.

Lemma copied_files_are_the_copies_made_witness :
  exists picked,
    copied (P "/posts/2024/a.tex") (P "/out") C1_fs [L "fig1.png"] picked
      (C1_fs ++ [(P "/out/fig1.png", SimpleFS.File (L "PNG"))])
    /\ picked `sublist_of` [L "fig1.png"]
    /\ [P "/out/fig1.png"] = map (fun r => P "/out" // r) picked.
Proof.
  apply (copied_files_are_the_copies_made
           (RT := SimpleFS.runtime) demo_self (P "/posts/2024/a.tex") (P "/out")
           (mk_world C1_fs []) (mk_world C1_fs [])
           (mk_world (C1_fs ++ [(P "/out/fig1.png", SimpleFS.File (L "PNG"))]) [])).
  - reflexivity.
  - reflexivity.
Defined.

Lemma findall_from_none r s :
  (forall n, Re.match_at r (drop n s) = None) -> Re.findall_from r s 0 = [].
Proof.
  induction s as [|c s IH]; intros H; cbn [Re.findall_from].
  - pose proof (H 0%nat) as H0. rewrite drop_0 in H0. by rewrite H0.
  - pose proof (H 0%nat) as H0. rewrite drop_0 in H0. rewrite H0.
    apply IH. intros n. apply (H (S n)).
Qed.

Lemma findall_no_match r s : Re.search r s = None -> Re.findall r s = [].
Proof. intros H. apply findall_from_none. by apply (search_none_all r s 0). Qed.

(** Nothing to copy. When the document cannot be read, or when none of
    the four reference patterns matches anywhere in it (and an empty set
    lists as the empty list), [copy_assets] returns the empty list in
    either mode, without raising and without touching the file system. *)
Theorem copy_assets_nothing_to_copy {FS : Type} {RT : Runtime FS}
    (self : Tex2TexConverter) (tex_file output_dir : Path.t)
    (use_symlinks : bool) (w : World FS) :
  ((exists e, read_text (w_fs w) tex_file = Raise e)
   \/ (exists content,
         read_text (w_fs w) tex_file = Ok content
         /\ Forall (fun pattern => Re.search pattern content = None)
              asset_patterns
         /\ list_of_set [] = [])) ->
  exists lines,
    copy_assets self tex_file output_dir use_symlinks w
    = (Ok [], mk_world (w_fs w) (w_out w ++ lines)).
Proof.
  intros Hnone.
  assert (exists l0, _find_asset_references self tex_file w
                     = (Ok [], mk_world (w_fs w) (w_out w ++ l0))) as [l0 Hrefs].
  { unfold _find_asset_references, try_except, mbind, M_bind, reading_result,
      mret, M_ret.
    destruct Hnone as [[e ->]|(content & -> & Hpat & Hset)].
    - rewrite log_error. by eexists [_].
    - unfold asset_patterns in *.
      repeat match goal with
             | H : Forall _ (_ :: _) |- _ => apply Forall_cons in H as [? H]
             end.
      cbn [flat_map]. rewrite !findall_no_match by done. cbn [app].
      rewrite Hset. exists []. rewrite app_nil_r. by destruct w. }
  unfold copy_assets. unfold mbind at 1, M_bind at 1. rewrite Hrefs.
  unfold mbind, M_bind.
  match goal with |- context [log self ?m INFO ?w0] =>
    destruct (log_total self m INFO w0) as [l1 ->] end.
  cbn [w_fs w_out]. exists (l0 ++ l1). by rewrite app_assoc.
Qed.

Lemma copy_assets_nothing_to_copy_witness :
  exists lines,
    copy_assets demo_self (P "/posts/b.tex") (P "/out") true
      (mk_world C5_fs [])
    = (Ok [], mk_world C5_fs ([] ++ lines)).
Proof.
  apply (copy_assets_nothing_to_copy (RT := SimpleFS.runtime) demo_self
           (P "/posts/b.tex") (P "/out") true (mk_world C5_fs [])).
  right. exists (L "no markers"). split; [reflexivity|].
  split; [|reflexivity]. repeat constructor.
Defined.

(** ** The folder: early exits *)

(** [convert_folder] leaves early, without creating the output folder
    or touching the file system, in three cases, decided by the test
    whether the input folder exists: the test answers [False] (an error
    is logged and 1 returned); the test itself raises (the exception
    leaves [convert_folder], nothing is logged); the folder is there but
    has no [.tex] file (a warning is logged and 0 returned). *)
Theorem convert_folder_early_exits {FS : Type} {RT : Runtime FS}
    (self : Tex2TexConverter) (input : Path.t) (output : option Path.t)
    (use_symlinks : bool) (w : World FS) :
  (path_exists (w_fs w) input = Ok false ->
   convert_folder self input output use_symlinks w
   = (Ok 1,
      mk_world (w_fs w)
        (w_out w ++ [L "ERROR: Input folder does not exist: "
                       ++ Path.to_str input])))
  /\ (forall e,
        path_exists (w_fs w) input = Raise e ->
        convert_folder self input output use_symlinks w = (Raise e, w))
  /\ (path_exists (w_fs w) input = Ok true ->
      glob_tex (w_fs w) input = [] ->
      exists lines,
        convert_folder self input output use_symlinks w
        = (Ok 0,
           mk_world (w_fs w)
             (w_out w ++ lines ++ [L "WARNING: No .tex files found"]))).
Proof.
  split; [|split].
  - intros Hno. unfold convert_folder, mbind, M_bind, reading_result, mret, M_ret.
    rewrite Hno. cbv beta iota zeta. cbn [negb]. by rewrite log_error.
  - intros e He. unfold convert_folder, mbind, M_bind, reading_result.
    by rewrite He.
  - intros Hthere Hglob.
    unfold convert_folder, find_tex_files, mbind, M_bind, reading,
      reading_result, mret, M_ret.
    rewrite Hthere. cbv beta iota zeta. cbn [negb w_fs w_out].
    rewrite Hglob.
    match goal with |- context [log self ?m INFO ?w0] =>
      destruct (log_total self m INFO w0) as [l0 ->] end.
    rewrite log_warning. cbn [w_fs w_out]. exists l0.
    by rewrite <- app_assoc.
Qed.

Lemma convert_folder_early_exits_witness :
  convert_folder demo_self (P "/nowhere") None false (mk_world demo_fs [])
  = (Ok 1,
     mk_world demo_fs
       ([] ++ [L "ERROR: Input folder does not exist: "
                 ++ Path.to_str (P "/nowhere")]))
  /\ convert_folder demo_self (Path.of_str (repeat "a"%char 256)) None false
       (mk_world demo_fs [])
     = (Raise (SimpleFS.os_error "[Errno 36] File name too long"),
        mk_world demo_fs [])
  /\ exists lines,
       convert_folder demo_self (P "/posts") None false (mk_world demo_fs [])
       = (Ok 0,
          mk_world demo_fs ([] ++ lines ++ [L "WARNING: No .tex files found"])).
Proof.
  split; [|split].
  - apply (proj1 (convert_folder_early_exits (RT := SimpleFS.runtime) demo_self
                    (P "/nowhere") None false (mk_world demo_fs []))).
    reflexivity.
  - apply (proj1 (proj2 (convert_folder_early_exits (RT := SimpleFS.runtime)
                           demo_self (Path.of_str (repeat "a"%char 256)) None
                           false (mk_world demo_fs [])))).
    vm_compute. reflexivity.
  - apply (proj2 (proj2 (convert_folder_early_exits (RT := SimpleFS.runtime)
                           demo_self (P "/posts") None false
                           (mk_world demo_fs [])))).
    + reflexivity.
    + reflexivity.
Defined.

(** ** An empty template *)

Lemma replace_all_nil {FS : Type} {RT : Runtime FS}
    (replacements : list (str * cfg_value)) (t : str) :
  Forall (fun pv => pv.1 <> []) replacements ->
  replace_all [] replacements = Ok t -> t = [].
Proof.
  induction 1 as [|[ph value] rest Hne _ IH]; cbn [replace_all].
  - by intros [= <-].
  - destruct value as [v|]; cbn [replace_value]; [|done].
    simpl in Hne. destruct ph as [|a ph]; [done|]. exact IH.
Qed.

(** With the empty template (what a failed template load leaves), the
    injected template is empty again, and the text composed for a file
    is its body followed by a blank line and nothing else. *)
Theorem empty_template_gives_body_only {FS : Type} {RT : Runtime FS}
    (self : Tex2TexConverter) (tex_file : Path.t) (folder_name t content : str) :
  template self = [] ->
  inject_personal_info self (template self) tex_file folder_name = Ok t ->
  t = [] /\ new_content t content = content ++ [nl; nl].
Proof.
  intros Hempty. rewrite Hempty.
  unfold inject_personal_info, substitute_metadata, bind_result.
  destruct (get_date_info tex_file) as [info|]; [|done].
  destruct (config_get self "author" _) as [a|]; [|done].
  destruct (config_get self "institution" _) as [i|]; [|done].
  destruct (config_get self "diary_title" _) as [d|]; [|done].
  destruct (replace_all [] _) as [r|] eqn:E; [|done].
  apply replace_all_nil in E as ->.
  - intros [= <-]. split; [reflexivity|]. reflexivity.
  - unfold replacements_of. repeat constructor; discriminate.
Qed.

Lemma empty_template_gives_body_only_witness :
  @nil ascii = [] /\ new_content [] (L "Hello world.") = L "Hello world." ++ [nl; nl].
Proof.
  apply (empty_template_gives_body_only (RT := SimpleFS.runtime) bare_self
           (P "/posts/2024-03-15.tex") (L "posts") [] (L "Hello world.")).
  - reflexivity.
  - reflexivity.
Defined.

(** ** Start-up and the exit status *)

Lemma load_config_total {FS : Type} {RT : Runtime FS} {HO : Host FS}
    (verbose_ : bool) (w : World FS) :
  exists lines,
    _load_config verbose_ w
    = (Ok match read_text (w_fs w) (script_dir // L "config.yaml") with
          | Ok text =>
              match yaml_safe_load text with
              | Ok config_ => config_
              | Raise _ => Some ∅
              end
          | Raise _ => Some ∅
          end,
       mk_world (w_fs w) (w_out w ++ lines)).
Proof.
  unfold _load_config, try_except, mbind, M_bind, reading_result, lift,
    mret, M_ret.
  destruct (read_text (w_fs w) (script_dir // L "config.yaml")) as [text|e].
  - destruct (yaml_safe_load text) as [c|e].
    + match goal with |- context [log ?s ?m INFO ?w0] =>
        destruct (log_total s m INFO w0) as [l ->] end.
      by exists l.
    + rewrite log_error. by eexists [_].
  - rewrite log_error. by eexists [_].
Qed.

Lemma load_template_total {FS : Type} {RT : Runtime FS} {HO : Host FS}
    (verbose_ : bool) (config_ : option (gmap string cfg_value))
    (w : World FS) :
  exists lines,
    _load_template verbose_ config_ w
    = (Ok match read_text (w_fs w) template_path with
          | Ok template_ => template_
          | Raise _ => []
          end,
       mk_world (w_fs w) (w_out w ++ lines)).
Proof.
  unfold _load_template, try_except, mbind, M_bind, reading_result, mret, M_ret.
  destruct (read_text (w_fs w) template_path) as [t|e].
  - match goal with |- context [log ?s ?m INFO ?w0] =>
      destruct (log_total s m INFO w0) as [l ->] end.
    by exists l.
  - rewrite log_error. by eexists [_].
Qed.

Lemma init_returns {FS : Type} {RT : Runtime FS} {HO : Host FS}
    (verbose_ : bool) (w : World FS) :
  exists self lines,
    __init__ verbose_ w = (Ok self, mk_world (w_fs w) (w_out w ++ lines)).
Proof.
  unfold __init__, mbind, M_bind, mret, M_ret.
  destruct (load_config_total verbose_ w) as [l0 ->].
  match goal with |- context [_load_template verbose_ ?c ?w1] =>
    destruct (load_template_total verbose_ c w1) as [l1 ->] end.
  cbn [w_fs w_out]. eexists _, (l0 ++ l1). by rewrite app_assoc.
Qed.

(** Constructing the converter never fails and changes no file: a
    configuration that cannot be read or parsed is replaced by the empty
    mapping, a template that cannot be read by the empty string. *)
Theorem converter_is_always_constructed {FS : Type} {RT : Runtime FS}
    {HO : Host FS} (verbose_ : bool) (w : World FS) :
  exists lines,
    __init__ verbose_ w
    = (Ok {| verbose := verbose_;
             config :=
               match read_text (w_fs w) (script_dir // L "config.yaml") with
               | Ok text =>
                   match yaml_safe_load text with
                   | Ok config_ => config_
                   | Raise _ => Some ∅
                   end
               | Raise _ => Some ∅
               end;
             template :=
               match read_text (w_fs w) template_path with
               | Ok template_ => template_
               | Raise _ => []
               end |},
       mk_world (w_fs w) (w_out w ++ lines)).
Proof.
  unfold __init__, mbind, M_bind, mret, M_ret.
  destruct (load_config_total verbose_ w) as [l0 ->].
  match goal with |- context [_load_template verbose_ ?c ?w1] =>
    destruct (load_template_total verbose_ c w1) as [l1 ->] end.
  cbn [w_fs w_out]. exists (l0 ++ l1). by rewrite app_assoc.
Qed.

Lemma main_body_status {FS : Type} {RT : Runtime FS} {HO : Host FS}
    (args : Args) (w : World FS) :
  exists r w',
    main_body args w = (r, w')
    /\ (exit_status r = 0 \/ exit_status r = 1)
    /\ (exit_status r = 0 <->
        path_exists (w_fs w) (input_folder args) = Ok true
        /\ path_is_dir (w_fs w) (input_folder args) = Ok true
        /\ exists self w1 w2,
             __init__ (verbose_flag args) w = (Ok self, w1)
             /\ path_exists (w_fs w1) (input_folder args) = Ok true
             /\ convert_folder self (input_folder args) (output_folder args)
                  (symlink_assets args) w1 = (Ok 0, w2))
    /\ (forall e,
          r = Raise e <->
          path_exists (w_fs w) (input_folder args) = Raise e
          \/ (path_exists (w_fs w) (input_folder args) = Ok true
              /\ path_is_dir (w_fs w) (input_folder args) = Raise e)).
Proof.
  destruct (init_returns (verbose_flag args) w) as (self0 & l0 & Hinit).
  unfold main_body, mbind, M_bind, reading_result, print, mret, M_ret,
    try_except.
  destruct (path_exists (w_fs w) (input_folder args)) as [[]|e0] eqn:Hthere;
    cbv beta iota zeta; cbn [negb].
  2:{ eexists _, _. split; [reflexivity|]. split; [by right|].
      split; [split; [done|by intros [? _]]|].
      intros e. split; [done|]. by intros [?|[? _]]. }
  2:{ eexists _, _. split; [reflexivity|]. split; [by right|].
      split; [split; [done|by intros [? _]]|].
      intros e. split; [intros [= ->]; by left|].
      by intros [[= ->]|[? _]]. }
  destruct (path_is_dir (w_fs w) (input_folder args)) as [[]|e0] eqn:Hdir;
    cbv beta iota zeta; cbn [negb].
  2:{ eexists _, _. split; [reflexivity|]. split; [by right|].
      split; [split; [done|by intros (_ & ? & _)]|].
      intros e. split; [done|]. by intros [?|[_ ?]]. }
  2:{ eexists _, _. split; [reflexivity|]. split; [by right|].
      split; [split; [done|by intros (_ & ? & _)]|].
      intros e. split; [intros [= ->]; by right|].
      by intros [?|[_ [= ->]]]. }
  rewrite Hinit.
  match goal with |- context [convert_folder ?s ?i ?o ?u ?w1] =>
    destruct (convert_folder s i o u w1) as [[n|e] w2] eqn:Hrun end.
  - destruct (Z.eqb_spec n 0) as [->|Hn].
    + eexists _, _. split; [reflexivity|]. split; [by left|].
      split; [|intros e; split; [done|by intros [?|[_ ?]]]].
      split; [|done]. intros _. split; [done|]. split; [done|].
      eexists _, _, _. split; [reflexivity|]. split; [exact Hthere|exact Hrun].
    + eexists _, _. split; [reflexivity|]. split; [by right|].
      split; [|intros e; split; [done|by intros [?|[_ ?]]]].
      split; [done|].
      intros (_ & _ & s & w1 & w3 & [= <- <-] & _ & Hrun').
      pose proof (eq_trans (eq_sym Hrun) Hrun') as Heq. by injection Heq.
  - eexists _, _. split; [reflexivity|]. split; [by right|].
    split; [|intros e'; split; [done|by intros [?|[_ ?]]]].
    split; [done|].
    intros (_ & _ & s & w1 & w3 & [= <- <-] & _ & Hrun').
    pose proof (eq_trans (eq_sym Hrun) Hrun') as Heq. done.
Qed.

(** The status [main] leaves with is 0, 1 or 2. It is 2 exactly when
    [argparse] rejects the command line. It is 0 exactly when the help
    text was asked for, or the input path exists, is a directory, and
    [convert_folder], run with the converter built at start-up, returns
    0 (any other count of failures gives 1). An exception leaves [main]
    exactly when one of the two tests of the input folder raises; no
    exception of [convert_folder] does. When [main] calls
    [convert_folder] the input folder exists, so the missing-folder exit
    of [convert_folder] is not taken. *)
Theorem main_exit_status {FS : Type} {RT : Runtime FS} {HO : Host FS}
    (argv : list str) (w : World FS) :
  exists r w',
    main argv w = (r, w')
    /\ (exit_status r = 0 \/ exit_status r = 1 \/ exit_status r = 2)
    /\ (exit_status r = 2 <-> parse_args argv = UsageError)
    /\ (exit_status r = 0 <->
        parse_args argv = HelpRequested
        \/ exists args,
             parse_args argv = Parsed args
             /\ path_exists (w_fs w) (input_folder args) = Ok true
             /\ path_is_dir (w_fs w) (input_folder args) = Ok true
             /\ exists self w1 w2,
                  __init__ (verbose_flag args) w = (Ok self, w1)
                  /\ path_exists (w_fs w1) (input_folder args) = Ok true
                  /\ convert_folder self (input_folder args)
                       (output_folder args) (symlink_assets args) w1
                     = (Ok 0, w2))
    /\ (forall e,
          r = Raise e <->
          exists args,
            parse_args argv = Parsed args
            /\ (path_exists (w_fs w) (input_folder args) = Raise e
                \/ (path_exists (w_fs w) (input_folder args) = Ok true
                    /\ path_is_dir (w_fs w) (input_folder args) = Raise e))).
Proof.
  unfold main. destruct (parse_args argv) as [args| |] eqn:Hparse.
  - destruct (main_body_status args w)
      as (r & w' & Hrun & Hcodes & Hzero & Hraise).
    exists r, w'. split; [done|].
    split; [destruct Hcodes; tauto|].
    split; [split; [destruct Hcodes; lia|done]|].
    split.
    + split.
      * intros H0. right. exists args. split; [done|]. by apply Hzero.
      * intros [?|(args' & [= <-] & H)]; [done|]. by apply Hzero.
    + intros e. split.
      * intros He. exists args. split; [done|]. by apply Hraise.
      * intros (args' & [= <-] & H). by apply Hraise.
  - eexists _, _. split; [reflexivity|]. cbn [exit_status].
    split; [tauto|]. split; [done|].
    split; [split; [done|by intros [?|(? & ? & _)]]|].
    intros e. split; [done|]. by intros (? & ? & _).
  - unfold mbind, M_bind, print, mret, M_ret.
    eexists _, _. split; [reflexivity|]. cbn [exit_status].
    split; [tauto|]. split; [done|].
    split; [split; [by left|done]|].
    intros e. split; [done|]. by intros (? & ? & _).
Qed.

(** ** The scanner finds an image directive *)

Lemma star_run_greedy p run_ rest pos k o :
  Forall (fun c => p c = true) run_ ->
  (forall c, head rest = Some c -> p c = false) ->
  k rest (pos + length run_)%nat = Some o ->
  Re.star_run p (run_ ++ rest) pos k = Some o.
Proof.
  intros Hrun Hstop. revert pos. induction Hrun as [|c run_ Hc _ IH]; intros pos Hk.
  - simpl in *. rewrite Nat.add_0_r in Hk.
    destruct rest as [|c rest]; [done|]. simpl. by rewrite (Hstop c eq_refl).
  - simpl. rewrite Hc. rewrite IH; [done|].
    by replace (S pos + length run_)%nat with (pos + length (c :: run_))%nat
      by (simpl; lia).
Qed.

Lemma run_lit l s pos caps k :
  Re.run (Re.Lit l) (l ++ s) pos caps k = k s (pos + length l)%nat caps.
Proof. cbn [Re.run]. by rewrite startswith_app, drop_app_length. Qed.

Lemma is_not_single (x c : ascii) : c <> x -> Re.is_not [x] c = true.
Proof.
  intros Hne. unfold Re.is_not. simpl.
  destruct (Py.eqb_char c x) eqn:E; [|done].
  by apply eqb_char_eq in E.
Qed.

Lemma braces_match (path rest : str) (pos : nat) (caps : Re.captures) :
  path <> [] ->
  Forall (fun c => c <> "}"%char) path ->
  Re.run (Re.Seq (Re.Lit (L "{"))
            (Re.Seq (Re.Grp 1 (Re.Plus (Re.is_not (L "}"))))
               (Re.Seq (Re.Lit (L "}")) Re.Eps)))
    (L "{" ++ path ++ L "}" ++ rest) pos caps
    (fun s' pos' caps' => Some (caps', pos', s'))
  = Some ((1%nat, path) :: caps, (pos + (length path + 2))%nat, rest).
Proof.
  intros Hne Hpath.
  destruct path as [|c path]; [done|].
  apply Forall_cons in Hpath as [Hc Hpath].
  cbn [Re.run Re.Plus]. rewrite (startswith_app (L "{")), drop_app_length.
  cbn [app]. rewrite (is_not_single "}" c Hc : Re.is_not (L "}") c = true).
  apply star_run_greedy.
  - eapply Forall_impl; [exact Hpath|]. intros x Hx. by apply is_not_single.
  - intros x [= <-]. reflexivity.
  - rewrite (startswith_app (L "}")), drop_app_length.
    replace (S (pos + length (L "{")) + length path - (pos + length (L "{")))%nat
      with (S (length path)) by lia.
    replace (S (pos + length (L "{")) + length path + length (L "}"))%nat
      with (pos + (length (c :: path) + 2))%nat by (simpl; lia).
    cbn [take]. by rewrite take_app_length.
Qed.

Lemma includegraphics_match (options : option str) (path rest : str) :
  path <> [] ->
  Forall (fun c => c <> "}"%char) path ->
  match options with Some o => Forall (fun c => c <> "]"%char) o | None => True end ->
  Re.match_at Re.includegraphics_re (directive options path ++ rest)
  = Some ([(1%nat, path)], length (directive options path), rest).
Proof.
  intros Hne Hpath Hopt.
  unfold Re.match_at, Re.includegraphics_re, Re.seqs, directive.
  cbn [foldr].
  rewrite <- !app_assoc.
  match goal with |- context [Re.Seq (Re.Opt _) ?t] => set (braces := t) end.
  change (Re.run (Re.Seq ?a ?b) ?s ?p ?c ?k)
    with (Re.run a s p c (fun s' p' c' => Re.run b s' p' c' k)).
  rewrite run_lit. cbn [Re.run Re.Opt].
  destruct options as [o|].
  - rewrite <- !app_assoc.
    rewrite (startswith_app (L "[")), drop_app_length.
    erewrite star_run_greedy.
    + reflexivity.
    + eapply Forall_impl; [exact Hopt|]. intros x Hx. by apply is_not_single.
    + intros x [= <-]. reflexivity.
    + rewrite (startswith_app (L "]")), drop_app_length.
      subst braces.
      rewrite (braces_match path rest _ [] Hne Hpath).
      do 2 f_equal. f_equal. rewrite !length_app. simpl. lia.
  - cbn [app].
    replace (Py.startswith (L "[") (L "{" ++ path ++ L "}" ++ rest)) with false
      by reflexivity.
    subst braces.
    rewrite (braces_match path rest _ [] Hne Hpath).
    do 2 f_equal. f_equal. rewrite !length_app. simpl. lia.
Qed.

Lemma findall_from_skip r x rest :
  Re.findall_from r (x ++ rest) (length x) = Re.findall_from r rest 0.
Proof.
  induction x as [|c x IH]; [done|]. simpl. exact IH.
Qed.

(** An [\includegraphics] directive whose path is not empty and holds no
    closing brace (and whose options, if any, hold no closing bracket) is
    found by the scanner's first pattern: on a text that starts with the
    directive, the path is the first reference reported, and the scan goes
    on in the text after the directive. *)
Theorem includegraphics_reference_is_found (options : option str) (path rest : str) :
  path <> [] ->
  Forall (fun c => c <> "}"%char) path ->
  match options with Some o => Forall (fun c => c <> "]"%char) o | None => True end ->
  Re.findall Re.includegraphics_re (directive options path ++ rest)
  = path :: Re.findall Re.includegraphics_re rest.
Proof.
  intros Hne Hpath Hopt. unfold Re.findall.
  pose proof (includegraphics_match options path rest Hne Hpath Hopt) as Hm.
  destruct (directive options path) as [|d0 dtail] eqn:Ed.
  { unfold directive in Ed. discriminate Ed. }
  cbn [app Re.findall_from]. cbn [app] in Hm. rewrite Hm.
  unfold Re.group1. cbn [Re.group Nat.eqb default].
  f_equal. cbn [length]. rewrite Nat.sub_succ, Nat.sub_0_r.
  apply findall_from_skip.
Qed.

Lemma includegraphics_reference_is_found_witness :
  Re.findall Re.includegraphics_re
    (directive (Some (L "width=3cm")) (L "figs/a.png") ++ L " and text")
  = L "figs/a.png" :: Re.findall Re.includegraphics_re (L " and text").
Proof.
  apply includegraphics_reference_is_found.
  - discriminate.
  - repeat constructor; discriminate.
  - repeat constructor; discriminate.
Defined.
